(** * go-gntp: a GNTP client, its packet encoder and its transport session

    A shallow embedding of [gntp.go] (resource model, icon reference
    resolver, option setters, callback listener) and of the request side
    ([Register], [NotifyWithOptions], [SendMessage], [sendPacket],
    [sendPacketWithResources]).

    Conventions.
    - A Go [string] and a Go [[]byte] are byte sequences: a [string] here is
      a sequence of [ascii] (one per byte), a payload is a [list byte].
    - A Go [int] is a [Z]; no arithmetic of the code leaves the 64-bit range.
    - A [*T] that may be nil is an [option T].
    - A [strings.Builder] is the list of the strings written to it, in
      order; [Builder.String()] is their concatenation.
    - The network, the file system, the clock and the identifier source are
      an explicit [World] that every effectful function threads.  A
      connection deadline shows as the error of the read or write it
      interrupts.
    - Output on the standard output under [Debug] is not part of the model. *)

From Stdlib Require Import ZArith Lia Ascii String List DecimalString.
From Stdlib.Strings Require Import Byte.
From stdpp Require Import base option list gmap strings.

#[local] Open Scope list_scope.

(** ** Constants of the protocol *)

Definition GNTPVersion : string := "1.0".
Definition DefaultPort : Z := 23053.

Definition CR : ascii := "013"%char.
Definition LF : ascii := "010"%char.
Definition CRLF : string := String CR (String LF EmptyString).

(** [IconMode] is an [int] in the source; the five named modes are the
    values of [iota].  Any other integer is a legal [IconMode] as well and
    takes the [default] branch wherever the code switches on it. *)
Definition IconMode : Type := Z.
Definition IconModeBinary : IconMode := 0%Z.
Definition IconModeFileURL : IconMode := 1%Z.
Definition IconModeDataURL : IconMode := 2%Z.
Definition IconModeHttpURL : IconMode := 3%Z.
Definition IconModeAuto : IconMode := 4%Z.

(** ** Data model *)

Record Resource := mkResource {
  Identifier : string;
  Data : list byte;
  SourcePath : string;
  MimeType : string
}.

Record NotificationType := mkNotificationType {
  Name : string;
  DisplayName : string;
  Enabled : bool;
  Icon : option Resource
}.

Record NotifyOptions := mkNotifyOptions {
  Sticky : bool;
  Priority : Z;
  OptIcon : option Resource;
  CallbackContext : string;
  CallbackTarget : string
}.

Record Message := mkMessage {
  Event : string;
  Title : string;
  Text : string;
  MsgIcon : string;
  Callback : string;
  MsgDisplayName : string;
  MsgSticky : bool;
  MsgPriority : Z
}.

(** ** Formatting helpers ([fmt.Sprintf] with [%s] and [%d]) *)

(** [%d] of an [int]: decimal digits, a leading [-] for a negative value. *)
Definition fmt_d (z : Z) : string := NilZero.string_of_int (Z.to_int z).

(** [strings.ReplaceAll s old new] where [old] and [new] are one byte each
    (the only use in the source: backslash to forward slash). A one-byte
    pattern cannot overlap itself, so every occurrence is replaced. *)
Fixpoint ReplaceAll1 (s : string) (old new : ascii) : string :=
  match s with
  | EmptyString => EmptyString
  | String c s' =>
      String (if Ascii.eqb c old then new else c) (ReplaceAll1 s' old new)
  end.

Definition backslash : ascii := ascii_of_nat 92.
Definition slash : ascii := "/"%char.

(** ** [encoding/base64]: [StdEncoding.EncodeToString] *)

Definition encodeStd : string :=
  "ABCDEFGHIJKLMNOPQRSTUVWXYZabcdefghijklmnopqrstuvwxyz0123456789+/".

Definition padChar : ascii := "="%char.

Definition byteZ (b : byte) : Z := Z.of_N (Byte.to_N b).

(** [enc.encode[v]]: the index is always masked with [0x3F], so it is in
    range; the default is never taken. *)
Definition encode_at (v : Z) : ascii :=
  default padChar (String.get (Z.to_nat v) encodeStd).

(** The encoder's loop over whole 3-byte groups followed by its treatment of
    the 1 or 2 remaining bytes, with [=] padding. *)
Fixpoint EncodeToString (src : list byte) : string :=
  match src with
  | [] => EmptyString
  | [b0] =>
      let val := Z.shiftl (byteZ b0) 16 in
      String (encode_at (Z.land (Z.shiftr val 18) 63))
        (String (encode_at (Z.land (Z.shiftr val 12) 63))
           (String padChar (String padChar EmptyString)))
  | [b0; b1] =>
      let val := Z.lor (Z.shiftl (byteZ b0) 16) (Z.shiftl (byteZ b1) 8) in
      String (encode_at (Z.land (Z.shiftr val 18) 63))
        (String (encode_at (Z.land (Z.shiftr val 12) 63))
           (String (encode_at (Z.land (Z.shiftr val 6) 63))
              (String padChar EmptyString)))
  | b0 :: b1 :: b2 :: rest =>
      let val :=
        Z.lor (Z.lor (Z.shiftl (byteZ b0) 16) (Z.shiftl (byteZ b1) 8))
          (byteZ b2) in
      String (encode_at (Z.land (Z.shiftr val 18) 63))
        (String (encode_at (Z.land (Z.shiftr val 12) 63))
           (String (encode_at (Z.land (Z.shiftr val 6) 63))
              (String (encode_at (Z.land val 63))
                 (EncodeToString rest))))
  end.

(** ** Icon reference resolver *)

(** The [for i := 0; i < len(encoded); i += 76] loop of [toDataURL].
    [formatted] is the builder's content so far.  Each iteration advances
    [i] by 76, so [String.length encoded] iterations always suffice. *)
Fixpoint toDataURL_loop (fuel : nat) (encoded : string) (i : nat)
    (formatted : string) : string :=
  match fuel with
  | O => formatted
  | S fuel' =>
      if (i <? String.length encoded)%nat then
        let end_ :=
          if (String.length encoded <? i + 76)%nat
          then String.length encoded else (i + 76)%nat in
        let formatted := formatted +:+ substring i (end_ - i) encoded in
        let formatted :=
          if (end_ <? String.length encoded)%nat
          then formatted +:+ CRLF else formatted in
        toDataURL_loop fuel' encoded (i + 76) formatted
      else formatted
  end.

Definition toDataURL (r : Resource) : string :=
  let encoded := EncodeToString (Data r) in
  let formatted :=
    toDataURL_loop (String.length encoded) encoded 0 EmptyString in
  "data:" +:+ MimeType r +:+ ";base64," +:+ formatted.

Definition getReference (r : Resource) (mode : IconMode) : string :=
  if (mode =? IconModeBinary)%Z then
    "x-growl-resource://" +:+ Identifier r
  else if (mode =? IconModeFileURL)%Z then
    if negb (String.eqb (SourcePath r) EmptyString) then
      let path := ReplaceAll1 (SourcePath r) backslash slash in
      "file:///" +:+ path
    else toDataURL r
  else if (mode =? IconModeHttpURL)%Z then
    if negb (String.eqb (SourcePath r) EmptyString) then SourcePath r
    else toDataURL r
  else toDataURL r.

(** ** Option setters *)

Definition NewNotifyOptions : NotifyOptions :=
  mkNotifyOptions false 0%Z None EmptyString EmptyString.

Definition WithSticky (no : NotifyOptions) (sticky : bool) : NotifyOptions :=
  mkNotifyOptions sticky (Priority no) (OptIcon no) (CallbackContext no)
    (CallbackTarget no).

Definition WithPriority (no : NotifyOptions) (priority : Z) : NotifyOptions :=
  let priority :=
    if (priority <? -2)%Z then (-2)%Z
    else if (priority >? 2)%Z then 2%Z
    else priority in
  mkNotifyOptions (Sticky no) priority (OptIcon no) (CallbackContext no)
    (CallbackTarget no).

Definition WithIcon (no : NotifyOptions) (icon : option Resource)
    : NotifyOptions :=
  mkNotifyOptions (Sticky no) (Priority no) icon (CallbackContext no)
    (CallbackTarget no).

Definition WithCallbackContext (no : NotifyOptions) (context : string)
    : NotifyOptions :=
  mkNotifyOptions (Sticky no) (Priority no) (OptIcon no) context
    (CallbackTarget no).

Definition WithCallbackTarget (no : NotifyOptions) (target : string)
    : NotifyOptions :=
  mkNotifyOptions (Sticky no) (Priority no) (OptIcon no) (CallbackContext no)
    target.

Definition NewNotificationType (name : string) : NotificationType :=
  mkNotificationType name EmptyString true None.

Definition WithDisplayName (nt : NotificationType) (displayName : string)
    : NotificationType :=
  mkNotificationType (Name nt) displayName (Enabled nt) (Icon nt).

Definition NtWithIcon (nt : NotificationType) (icon : option Resource)
    : NotificationType :=
  mkNotificationType (Name nt) (DisplayName nt) (Enabled nt) icon.

(** ** [strings] helpers used by the transport and the listener *)

(** [strings.HasPrefix s p]. *)
Fixpoint HasPrefix (s p : string) {struct p} : bool :=
  match p with
  | EmptyString => true
  | String a p' =>
      match s with
      | EmptyString => false
      | String b s' => Ascii.eqb a b && HasPrefix s' p'
      end
  end.

(** [strings.Contains s substr]. *)
Fixpoint Contains (s substr : string) : bool :=
  HasPrefix s substr
  || match s with
     | EmptyString => false
     | String _ s' => Contains s' substr
     end.

(** [s[n:]] *)
Fixpoint string_drop (n : nat) (s : string) : string :=
  match n, s with
  | O, _ => s
  | S n', String _ s' => string_drop n' s'
  | S _, EmptyString => EmptyString
  end.

(** [s[:n]], capped at the length of [s]. *)
Fixpoint string_take (n : nat) (s : string) : string :=
  match n, s with
  | S n', String c s' => String c (string_take n' s')
  | _, _ => EmptyString
  end.

Definition TrimPrefix (s p : string) : string :=
  if HasPrefix s p then string_drop (String.length p) s else s.

(** The bytes for which [unicode.IsSpace] holds in the ASCII range:
    tab, line feed, vertical tab, form feed, carriage return, space. *)
Definition asciiSpace (c : ascii) : bool :=
  let n := N_of_ascii c in
  ((9 <=? n) && (n <=? 13) || (n =? 32))%N.

(** The two-byte UTF-8 sequences of white space: U+0085 and U+00A0. *)
Definition space2 (c0 c1 : ascii) : bool :=
  let n0 := N_of_ascii c0 in
  let n1 := N_of_ascii c1 in
  ((n0 =? 194) && ((n1 =? 133) || (n1 =? 160)))%N.

(** The three-byte UTF-8 sequences of white space: U+1680, U+2000..U+200A,
    U+2028, U+2029, U+202F, U+205F, U+3000. *)
Definition space3 (c0 c1 c2 : ascii) : bool :=
  let n0 := N_of_ascii c0 in
  let n1 := N_of_ascii c1 in
  let n2 := N_of_ascii c2 in
  ((n0 =? 225) && (n1 =? 154) && (n2 =? 128)
   || (n0 =? 226) && (n1 =? 128)
      && ((128 <=? n2) && (n2 <=? 138) || (n2 =? 168) || (n2 =? 169)
          || (n2 =? 175))
   || (n0 =? 226) && (n1 =? 129) && (n2 =? 159)
   || (n0 =? 227) && (n1 =? 128) && (n2 =? 128))%N.

(** [strings.TrimSpace(s) == ""]: trimming leaves nothing exactly when every
    rune of [s] is white space.  A byte that starts no valid white-space
    sequence decodes to a rune that is not white space. *)
Fixpoint TrimSpace_is_empty (s : string) : bool :=
  match s with
  | EmptyString => true
  | String c0 s1 =>
      if asciiSpace c0 then TrimSpace_is_empty s1
      else
        match s1 with
        | EmptyString => false
        | String c1 s2 =>
            if space2 c0 c1 then TrimSpace_is_empty s2
            else
              match s2 with
              | EmptyString => false
              | String c2 s3 =>
                  if space3 c0 c1 c2 then TrimSpace_is_empty s3 else false
              end
        end
  end.

Definition cons_head (c : ascii) (l : list string) : list string :=
  match l with
  | [] => [String c EmptyString]
  | h :: t => String c h :: t
  end.

(** [strings.Split(s, CRLF)]: the pieces between the non-overlapping
    occurrences of the separator, left to right; always at least one. *)
Fixpoint Split_CRLF (s : string) : list string :=
  match s with
  | EmptyString => [EmptyString]
  | String c s' =>
      match s' with
      | String c' s'' =>
          if Ascii.eqb c CR && Ascii.eqb c' LF
          then EmptyString :: Split_CRLF s''
          else cons_head c (Split_CRLF s')
      | EmptyString => cons_head c (Split_CRLF s')
      end
  end.

(** ** Errors *)

(** An error of the operating system or the network stack. [io.EOF] is a
    distinguished value compared by identity; any other error is known by
    its text ([err.Error()]). *)
Inductive net_error :=
| EOF
| OtherError (text : string).

Definition net_error_text (e : net_error) : string :=
  match e with
  | EOF => "EOF"
  | OtherError text => text
  end.

(** The errors the client returns, one constructor per [fmt.Errorf] site. *)
Inductive gntp_error :=
| ErrNotRegistered
| ErrConnect (address : string) (cause : net_error)
| ErrSendPacket (cause : net_error)
| ErrSendResourceData (cause : net_error)
| ErrSendResourceCRLF (cause : net_error)
| ErrSendTermination (cause : net_error)
| ErrReadResponse (cause : net_error)
| ErrServer (response : string)
| ErrReadFile (cause : net_error)
| ErrLoadIcon (cause : gntp_error)
| ErrCallbackListener (cause : net_error).

Fixpoint error_text (e : gntp_error) : string :=
  match e with
  | ErrNotRegistered => "must call Register() before Notify()"
  | ErrConnect address cause =>
      "failed to connect to " +:+ address +:+ ": " +:+ net_error_text cause
  | ErrSendPacket cause => "failed to send packet: " +:+ net_error_text cause
  | ErrSendResourceData cause =>
      "failed to send resource data: " +:+ net_error_text cause
  | ErrSendResourceCRLF cause =>
      "failed to send resource CRLF: " +:+ net_error_text cause
  | ErrSendTermination cause =>
      "failed to send termination: " +:+ net_error_text cause
  | ErrReadResponse cause =>
      "failed to read response: " +:+ net_error_text cause
  | ErrServer response => "server error: " +:+ response
  | ErrReadFile cause => "failed to read file: " +:+ net_error_text cause
  | ErrLoadIcon cause => "failed to load icon: " +:+ error_text cause
  | ErrCallbackListener cause =>
      "failed to start callback listener: " +:+ net_error_text cause
  end.

(** ** The world: network, file system, clock, identifier source *)

(** What the peer and the network do on one outbound connection. *)
Record Conn := mkConn {
  (** [net.DialTimeout]: [None] when the connection is established. *)
  dial_result : option net_error;
  (** Outcome of the k-th [conn.Write]; a write past the list succeeds. *)
  write_results : list (option net_error);
  (** The lines [ReadString] returns with a nil error, in order. *)
  read_lines : list string;
  (** The error of the first [ReadString] that fails (end of stream, reset,
      deadline expiry). The connection deadline makes every read return. *)
  read_end : net_error
}.

Inductive NetEvent :=
| EvDial (address : string) (result : option net_error)
| EvWrite (data : list byte) (result : option net_error)
| EvReadLine (line : string)
| EvReadError (e : net_error)
| EvClose.

Record World := mkWorld {
  (** The script of the n-th connection dialled. *)
  network : nat -> Conn;
  dials : nat;
  (** Network I/O performed so far, oldest first. *)
  trace : list NetEvent;
  (** [os.ReadFile]. *)
  files : string -> net_error + list byte;
  (** [uuid.New().String()], n-th call. *)
  uuid_source : nat -> string;
  uuids : nat;
  (** [time.Now().UnixNano()], n-th reading. *)
  clock : nat -> Z;
  clock_reads : nat
}.

Definition log (evs : list NetEvent) (w : World) : World :=
  mkWorld (network w) (dials w) (trace w ++ evs) (files w) (uuid_source w)
    (uuids w) (clock w) (clock_reads w).

Definition next_dial (w : World) : World :=
  mkWorld (network w) (S (dials w)) (trace w) (files w) (uuid_source w)
    (uuids w) (clock w) (clock_reads w).

Definition next_uuid (w : World) : string * World :=
  (uuid_source w (uuids w),
   mkWorld (network w) (dials w) (trace w) (files w) (uuid_source w)
     (S (uuids w)) (clock w) (clock_reads w)).

Definition UnixNano (w : World) : Z * World :=
  (clock w (clock_reads w),
   mkWorld (network w) (dials w) (trace w) (files w) (uuid_source w)
     (uuids w) (clock w) (S (clock_reads w))).

(** The data of the successful writes of a trace, in order. *)
Fixpoint written (evs : list NetEvent) : list (list byte) :=
  match evs with
  | [] => []
  | EvWrite data None :: evs' => data :: written evs'
  | _ :: evs' => written evs'
  end.

(** ** Client *)

Record Client := mkClient {
  Host : string;
  Port : Z;
  ApplicationName : string;
  ApplicationIcon : option Resource;
  ClientIconMode : IconMode;
  Debug : bool;
  Timeout : Z;
  registered : bool;
  (** Whether [callbackHandler] is non-nil; the handler itself is the
      caller's code and its invocations are recorded as events. *)
  callbackHandler : bool;
  callbackURL : string
}.

Definition NewClient (applicationName : string) : Client :=
  mkClient "localhost" DefaultPort applicationName None IconModeDataURL
    false 10000000000%Z false false EmptyString.

Definition set_registered (c : Client) : Client :=
  mkClient (Host c) (Port c) (ApplicationName c) (ApplicationIcon c)
    (ClientIconMode c) (Debug c) (Timeout c) true (callbackHandler c)
    (callbackURL c).

(** ** Transport session *)

Definition address_of (c : Client) : string :=
  Host c +:+ ":" +:+ fmt_d (Port c).

(** How the response loop ends. *)
Inductive read_outcome :=
| ReadDone (response : string)
| ReadFailed (e : net_error).

(** The [for { line, err := reader.ReadString('\n') ... }] loop, identical in
    [sendPacket] and [sendPacketWithResources].  [response] is the builder's
    content so far; the events are the reads performed. *)
Fixpoint read_response (lines : list string) (read_end : net_error)
    (response : string) : read_outcome * list NetEvent :=
  match lines with
  | [] =>
      let ev := [EvReadError read_end] in
      match read_end with
      | EOF => (ReadDone response, ev)
      | OtherError text =>
          if Contains text "connection" then (ReadDone response, ev)
          else (ReadFailed read_end, ev)
      end
  | line :: lines' =>
      let response := response +:+ line in
      if TrimSpace_is_empty line then (ReadDone response, [EvReadLine line])
      else
        let '(r, evs) := read_response lines' read_end response in
        (r, EvReadLine line :: evs)
  end.

(** The check for errors after the loop. *)
Definition check_response (responseStr : string) : gntp_error + string :=
  if Contains responseStr "-ERROR" then inl (ErrServer responseStr)
  else inr responseStr.

Definition write_result (conn : Conn) (k : nat) : option net_error :=
  match nth_error (write_results conn) k with
  | Some r => r
  | None => None
  end.

Definition finish_read (conn : Conn) (w : World)
    : (gntp_error + string) * World :=
  let '(r, evs) := read_response (read_lines conn) (read_end conn)
                     EmptyString in
  let w := log (evs ++ [EvClose]) w in
  match r with
  | ReadFailed e => (inl (ErrReadResponse e), w)
  | ReadDone responseStr => (check_response responseStr, w)
  end.

Definition sendPacket (c : Client) (packet : string) (w : World)
    : (gntp_error + string) * World :=
  let address := address_of c in
  let conn := network w (dials w) in
  let w := next_dial w in
  match dial_result conn with
  | Some err =>
      (inl (ErrConnect address err), log [EvDial address (Some err)] w)
  | None =>
      let w := log [EvDial address None] w in
      let data := list_byte_of_string packet in
      match write_result conn 0 with
      | Some err =>
          (inl (ErrSendPacket err), log [EvWrite data (Some err); EvClose] w)
      | None => finish_read conn (log [EvWrite data None] w)
      end
  end.

(** The [for _, res := range resources] loop: [k] is the index of the next
    write on the connection. *)
Fixpoint send_resources (conn : Conn) (resources : list Resource) (k : nat)
    : option gntp_error * list NetEvent * nat :=
  match resources with
  | [] => (None, [], k)
  | res :: rest =>
      match write_result conn k with
      | Some err =>
          (Some (ErrSendResourceData err), [EvWrite (Data res) (Some err)], k)
      | None =>
          let crlf := list_byte_of_string CRLF in
          match write_result conn (S k) with
          | Some err =>
              (Some (ErrSendResourceCRLF err),
               [EvWrite (Data res) None; EvWrite crlf (Some err)], k)
          | None =>
              let '(r, evs, k') := send_resources conn rest (S (S k)) in
              (r, EvWrite (Data res) None :: EvWrite crlf None :: evs, k')
          end
      end
  end.

Definition sendPacketWithResources (c : Client) (packet : string)
    (resources : list Resource) (w : World)
    : (gntp_error + string) * World :=
  let address := address_of c in
  let conn := network w (dials w) in
  let w := next_dial w in
  match dial_result conn with
  | Some err =>
      (inl (ErrConnect address err), log [EvDial address (Some err)] w)
  | None =>
      let w := log [EvDial address None] w in
      let data := list_byte_of_string packet in
      match write_result conn 0 with
      | Some err =>
          (inl (ErrSendPacket err), log [EvWrite data (Some err); EvClose] w)
      | None =>
          let w := log [EvWrite data None] w in
          let '(r, evs, k) := send_resources conn resources 1 in
          let w := log evs w in
          match r with
          | Some err => (inl err, log [EvClose] w)
          | None =>
              let crlf := list_byte_of_string CRLF in
              match write_result conn k with
              | Some err =>
                  (inl (ErrSendTermination err),
                   log [EvWrite crlf (Some err); EvClose] w)
              | None => finish_read conn (log [EvWrite crlf None] w)
              end
          end
      end
  end.

(** ** Callback listener *)

Record CallbackInfo := mkCallbackInfo {
  CbType : string;
  NotificationID : string;
  Context : string;
  ContextType : string;
  Timestamp : Z
}.

(** One inbound connection: the result of its single [conn.Read] (an error,
    or the bytes available) and the clock reading taken after it. *)
Record InConn := mkInConn {
  in_read : net_error + string;
  in_now : Z
}.

(** What [handleCallback] does on its connection, in order. *)
Inductive CallbackEvent :=
| CbWrite (data : string)
| CbHandler (info : CallbackInfo)
| CbClose.

(** The body of the [for _, line := range lines] loop. *)
Definition parse_line (info : CallbackInfo) (line : string) : CallbackInfo :=
  if HasPrefix line "Notification-Callback-Result: " then
    mkCallbackInfo (TrimPrefix line "Notification-Callback-Result: ")
      (NotificationID info) (Context info) (ContextType info) (Timestamp info)
  else if HasPrefix line "Notification-ID: " then
    mkCallbackInfo (CbType info) (TrimPrefix line "Notification-ID: ")
      (Context info) (ContextType info) (Timestamp info)
  else if HasPrefix line "Notification-Callback-Context: " then
    mkCallbackInfo (CbType info) (NotificationID info)
      (TrimPrefix line "Notification-Callback-Context: ")
      (ContextType info) (Timestamp info)
  else if HasPrefix line "Notification-Callback-Context-Type: " then
    mkCallbackInfo (CbType info) (NotificationID info) (Context info)
      (TrimPrefix line "Notification-Callback-Context-Type: ")
      (Timestamp info)
  else info.

Definition callback_ack : string :=
  "GNTP/" +:+ GNTPVersion +:+ " -OK NONE" +:+ CRLF +:+ CRLF.

(** [conn.Read] fills a buffer of 4096 bytes: at most that many bytes of
    what is available are seen.  The deferred [conn.Close()] runs on every
    path; the result of [conn.Write] is ignored by the source. *)
Definition handleCallback (c : Client) (conn : InConn) : list CallbackEvent :=
  match in_read conn with
  | inl _ => [CbClose]
  | inr data =>
      let response := string_take 4096 data in
      let lines := Split_CRLF response in
      let info :=
        fold_left parse_line lines
          (mkCallbackInfo EmptyString EmptyString EmptyString EmptyString
             (in_now conn)) in
      CbWrite callback_ack
      :: (if callbackHandler c then [CbHandler info] else [])
      ++ [CbClose]
  end.

(** The accept loop: [accepted] are the connections [Accept] returns before
    the listener is closed.  Each one is handed to its own goroutine, whose
    behaviour depends on that connection alone; the result lists them in
    accept order. *)
Fixpoint acceptCallbacks (c : Client) (accepted : list InConn)
    : list (list CallbackEvent) :=
  match accepted with
  | [] => []
  | conn :: rest => handleCallback c conn :: acceptCallbacks c rest
  end.

(** ** Packet encoder *)

(** [seenIDs[id]]: a missing key reads as [false]. *)
Definition seen (seenIDs : gmap string bool) (id : string) : bool :=
  default false (seenIDs !! id).

(** The state [Register] builds up: the packet builder, the raw-resource
    list and the set of identifiers already listed. *)
Record RegisterState := mkRegisterState {
  packet : list string;
  resources : list Resource;
  seenIDs : gmap string bool
}.

(** [if c.IconMode == IconModeBinary && !seenIDs[icon.Identifier] { ... }] *)
Definition add_resource (mode : IconMode) (icon : Resource)
    (st : RegisterState) : RegisterState :=
  if (mode =? IconModeBinary)%Z && negb (seen (seenIDs st) (Identifier icon))
  then mkRegisterState (packet st) (resources st ++ [icon])
         (<[Identifier icon := true]> (seenIDs st))
  else st.

Definition write_string (s : string) (st : RegisterState) : RegisterState :=
  mkRegisterState (packet st ++ [s]) (resources st) (seenIDs st).

(** The lines up to and including the blank line that ends the preamble. *)
Definition register_preamble (c : Client) (count : nat) : RegisterState :=
  let st := mkRegisterState [] [] ∅ in
  let st := write_string ("GNTP/" +:+ GNTPVersion +:+ " REGISTER NONE" +:+ CRLF) st in
  let st := write_string ("Application-Name: " +:+ ApplicationName c +:+ CRLF) st in
  let st :=
    match ApplicationIcon c with
    | Some icon =>
        let iconRef := getReference icon (ClientIconMode c) in
        let st := write_string ("Application-Icon: " +:+ iconRef +:+ CRLF) st in
        add_resource (ClientIconMode c) icon st
    | None => st
    end in
  let st :=
    if negb (String.eqb (callbackURL c) EmptyString)
    then write_string
           ("Notification-Callback-Target: " +:+ callbackURL c +:+ CRLF) st
    else st in
  let st :=
    write_string
      ("Notifications-Count: " +:+ fmt_d (Z.of_nat count) +:+ CRLF) st in
  write_string CRLF st.

(** The body of [for _, notif := range notifications]. *)
Definition register_notification (c : Client) (st : RegisterState)
    (notif : NotificationType) : RegisterState :=
  let st := write_string ("Notification-Name: " +:+ Name notif +:+ CRLF) st in
  let st :=
    if negb (String.eqb (DisplayName notif) EmptyString)
    then write_string
           ("Notification-Display-Name: " +:+ DisplayName notif +:+ CRLF) st
    else st in
  let enabled := if Enabled notif then "True" else "False" in
  let st := write_string ("Notification-Enabled: " +:+ enabled +:+ CRLF) st in
  let st :=
    match Icon notif with
    | Some icon =>
        let iconRef := getReference icon (ClientIconMode c) in
        let st := write_string ("Notification-Icon: " +:+ iconRef +:+ CRLF) st in
        add_resource (ClientIconMode c) icon st
    | None => st
    end in
  write_string CRLF st.

(** The body of [for _, res := range resources] in the binary section. *)
Definition resource_headers (res : Resource) : list string :=
  [ "Identifier: " +:+ Identifier res +:+ CRLF;
    "Length: " +:+ fmt_d (Z.of_nat (length (Data res))) +:+ CRLF;
    CRLF ].

Definition binary_section (mode : IconMode) (resources : list Resource)
    : list string :=
  if (mode =? IconModeBinary)%Z then flat_map resource_headers resources
  else [].

(** The REGISTER packet (as the writes to the builder) and the resources to
    transmit raw. *)
Definition Register_packet (c : Client) (notifications : list NotificationType)
    : list string * list Resource :=
  let st := register_preamble c (length notifications) in
  let st := fold_left (register_notification c) notifications st in
  (packet st ++ binary_section (ClientIconMode c) (resources st),
   resources st).

(** [packet.String()] *)
Definition builder_string (writes : list string) : string :=
  String.concat EmptyString writes.

Definition send (c : Client) (writes : list string)
    (resources : list Resource) (w : World) : (gntp_error + string) * World :=
  if (ClientIconMode c =? IconModeBinary)%Z
  then sendPacketWithResources c (builder_string writes) resources w
  else sendPacket c (builder_string writes) w.

Definition Register (c : Client) (notifications : list NotificationType)
    (w : World) : option gntp_error * Client * World :=
  let '(writes, resources) := Register_packet c notifications in
  match send c writes resources w with
  | (inl err, w) => (Some err, c, w)
  | (inr _, w) => (None, set_registered c, w)
  end.

(** The NOTIFY packet for a given notification identifier. *)
Definition Notify_packet (c : Client) (notificationName title text : string)
    (options : NotifyOptions) (notificationID : string)
    : list string * list Resource :=
  let packet :=
    [ "GNTP/" +:+ GNTPVersion +:+ " NOTIFY NONE" +:+ CRLF;
      "Application-Name: " +:+ ApplicationName c +:+ CRLF;
      "Notification-Name: " +:+ notificationName +:+ CRLF;
      "Notification-ID: " +:+ notificationID +:+ CRLF;
      "Notification-Title: " +:+ title +:+ CRLF;
      "Notification-Text: " +:+ text +:+ CRLF ] in
  let packet :=
    if Sticky options
    then packet ++ ["Notification-Sticky: True" +:+ CRLF] else packet in
  let packet :=
    if negb (Priority options =? 0)%Z
    then packet
         ++ ["Notification-Priority: " +:+ fmt_d (Priority options) +:+ CRLF]
    else packet in
  let '(packet, resources) :=
    match OptIcon options with
    | Some icon =>
        let iconRef := getReference icon (ClientIconMode c) in
        (packet ++ ["Notification-Icon: " +:+ iconRef +:+ CRLF],
         if (ClientIconMode c =? IconModeBinary)%Z then [icon] else [])
    | None => (packet, [])
    end in
  let packet :=
    if negb (String.eqb (callbackURL c) EmptyString) then
      let packet :=
        packet
        ++ [ "Notification-Callback-Context: " +:+ CallbackContext options
             +:+ CRLF;
             "Notification-Callback-Context-Type: string" +:+ CRLF ] in
      if negb (String.eqb (CallbackTarget options) EmptyString)
      then packet
           ++ ["Notification-Callback-Target: " +:+ CallbackTarget options
               +:+ CRLF]
      else packet
    else packet in
  let packet := packet ++ [CRLF] in
  (packet ++ binary_section (ClientIconMode c) resources, resources).

Section Client.

(** [fmt.Sprintf("%x", md5.Sum([]byte(s)))]: the hexadecimal MD5 digest. *)
Variable md5hex : string -> string.
(** [filepath.Ext] (its path separators depend on the platform) and
    [strings.ToLower]. *)
Variable Ext : string -> string.
Variable ToLower : string -> string.

Definition guessMimeType (path : string) : string :=
  let ext := ToLower (Ext path) in
  if String.eqb ext ".png" then "image/png"
  else if String.eqb ext ".jpg" || String.eqb ext ".jpeg" then "image/jpeg"
  else if String.eqb ext ".gif" then "image/gif"
  else if String.eqb ext ".bmp" then "image/bmp"
  else if String.eqb ext ".ico" then "image/x-icon"
  else if String.eqb ext ".svg" then "image/svg+xml"
  else if String.eqb ext ".webp" then "image/webp"
  else "application/octet-stream".

Definition LoadResource (path : string) (w : World)
    : (gntp_error + Resource) * World :=
  match files w path with
  | inl err => (inl (ErrReadFile err), w)
  | inr data =>
      let mimeType := guessMimeType path in
      let '(id, w) := next_uuid w in
      (inr (mkResource id data path mimeType), w)
  end.

Definition NotifyWithOptions (c : Client)
    (notificationName title text : string) (options : NotifyOptions)
    (w : World) : option gntp_error * World :=
  if negb (registered c) then (Some ErrNotRegistered, w)
  else
    let '(nanos, w) := UnixNano w in
    let notificationID :=
      md5hex (ApplicationName c +:+ ":" +:+ notificationName +:+ ":"
              +:+ fmt_d nanos) in
    let '(writes, resources) :=
      Notify_packet c notificationName title text options notificationID in
    match send c writes resources w with
    | (inl err, w) => (Some err, w)
    | (inr _, w) => (None, w)
    end.

Definition Notify (c : Client) (notificationName title text : string)
    (w : World) : option gntp_error * World :=
  NotifyWithOptions c notificationName title text NewNotifyOptions w.

Definition SendMessage (c : Client) (msg : Message) (w : World)
    : option gntp_error * Client * World :=
  let '(loaded, w) :=
    if negb (String.eqb (MsgIcon msg) EmptyString) then
      match LoadResource (MsgIcon msg) w with
      | (inl err, w) => (inl (ErrLoadIcon err), w)
      | (inr icon, w) => (inr (Some icon), w)
      end
    else (inr None, w) in
  match loaded with
  | inl err => (Some err, c, w)
  | inr icon =>
      let '(err, c, w) :=
        if negb (registered c) then
          let displayName :=
            if String.eqb (MsgDisplayName msg) EmptyString
            then Event msg else MsgDisplayName msg in
          let notif :=
            NtWithIcon
              (WithDisplayName (NewNotificationType (Event msg)) displayName)
              icon in
          Register c [notif] w
        else (None, c, w) in
      match err with
      | Some e => (Some e, c, w)
      | None =>
          let options :=
            WithPriority (WithSticky NewNotifyOptions (MsgSticky msg))
              (MsgPriority msg) in
          let options :=
            match icon with
            | Some _ => WithIcon options icon
            | None => options
            end in
          let options :=
            if negb (String.eqb (Callback msg) EmptyString)
            then WithCallbackTarget options (Callback msg) else options in
          let '(r, w) :=
            NotifyWithOptions c (Event msg) (Title msg) (Text msg) options w in
          (r, c, w)
      end
  end.

End Client.

(** ** Reference notions the properties are stated with *)

(** Position of a character in the base64 alphabet (RFC 4648, table 1). *)
Fixpoint index_in (c : ascii) (alphabet : string) (i : Z) : option Z :=
  match alphabet with
  | EmptyString => None
  | String a rest => if Ascii.eqb c a then Some i else index_in c rest (i + 1)
  end.

Definition decode_at (c : ascii) : option Z := index_in c encodeStd 0.

Definition byte_of_Z (z : Z) : byte :=
  default x00 (Byte.of_N (Z.to_N z)).

(** The three bytes of a 24-bit group. *)
Definition group_bytes (val : Z) : list byte :=
  [ byte_of_Z (Z.land (Z.shiftr val 16) 255);
    byte_of_Z (Z.land (Z.shiftr val 8) 255);
    byte_of_Z (Z.land val 255) ].

(** A base64 decoder for the standard alphabet with [=] padding (RFC 4648,
    section 4): four characters give three bytes; a final group ending in
    one or two [=] gives two bytes or one. *)
Fixpoint DecodeString (s : string) : option (list byte) :=
  match s with
  | EmptyString => Some []
  | String c0 (String c1 (String c2 (String c3 rest))) =>
      match decode_at c0, decode_at c1 with
      | Some v0, Some v1 =>
          let hi := Z.lor (Z.shiftl v0 18) (Z.shiftl v1 12) in
          if Ascii.eqb c3 padChar then
            match rest with
            | EmptyString =>
                if Ascii.eqb c2 padChar then Some (take 1 (group_bytes hi))
                else
                  match decode_at c2 with
                  | Some v2 =>
                      Some (take 2 (group_bytes (Z.lor hi (Z.shiftl v2 6))))
                  | None => None
                  end
            | String _ _ => None
            end
          else
            match decode_at c2, decode_at c3, DecodeString rest with
            | Some v2, Some v3, Some tl =>
                Some (group_bytes (Z.lor (Z.lor hi (Z.shiftl v2 6)) v3) ++ tl)
            | _, _, _ => None
            end
      | _, _ => None
      end
  | String _ _ => None
  end.

(** Removing every line terminator (CR LF pair) from a text. *)
Fixpoint strip_CRLF (s : string) : string :=
  match s with
  | EmptyString => EmptyString
  | String c s' =>
      match s' with
      | String c' s'' =>
          if Ascii.eqb c CR && Ascii.eqb c' LF then strip_CRLF s''
          else String c (strip_CRLF s')
      | EmptyString => String c EmptyString
      end
  end.

(** The text [s] cut into lines of [76] characters: line [j] holds the
    characters [76 j] to [76 j + 75], the last line what is left. *)
Definition lines76 (s : string) : list string :=
  map (fun j => substring (76 * j) 76 s)
    (seq 0 ((String.length s + 75) / 76)).

(** The identifiers a REGISTER request refers to: the application icon's,
    then those of the notification types' icons, in order. *)
Definition referenced_ids (c : Client) (notifications : list NotificationType)
    : list string :=
  match ApplicationIcon c with
  | Some icon => [Identifier icon]
  | None => []
  end
  ++ omap (fun notif => Identifier <$> Icon notif) notifications.

(** Number of occurrences of a line among the writes of a builder. *)
Definition count_line (line : string) (writes : list string) : nat :=
  length (List.filter (String.eqb line) writes).

(** A header line with the given key is among the writes of a builder. *)
Definition header_present (key : string) (writes : list string) : bool :=
  existsb (fun l => HasPrefix l (key +:+ ": ")) writes.

(** The response loop ends normally with [response] accumulated: either at
    the first blank line (which is part of the response), or, no line being
    blank, when the stream ends or the connection is reported closed. *)
Definition ends_at_blank_line (conn : Conn) (response : string) : Prop :=
  exists before blank after,
    read_lines conn = before ++ blank :: after
    /\ Forall (fun l => TrimSpace_is_empty l = false) before
    /\ TrimSpace_is_empty blank = true
    /\ response = String.concat EmptyString (before ++ [blank]).

Definition ends_at_close (conn : Conn) (response : string) : Prop :=
  Forall (fun l => TrimSpace_is_empty l = false) (read_lines conn)
  /\ (read_end conn = EOF
      \/ exists text,
           read_end conn = OtherError text
           /\ Contains text "connection" = true)
  /\ response = String.concat EmptyString (read_lines conn).

(** All the writes of a connection script succeed. *)
Definition writes_succeed (conn : Conn) : Prop :=
  Forall (fun r => r = None) (write_results conn).

(** The events a call appended to the trace. *)
Definition new_events (w w' : World) : list NetEvent :=
  drop (length (trace w)) (trace w').

(** A line that is neither an [Identifier] nor a [Length] header. *)
Definition not_resource_header (line : string) : Prop :=
  HasPrefix line "Identifier: " = false /\ HasPrefix line "Length: " = false.

(** The events of the resource loop when every write succeeds. *)
Definition resource_writes (resources : list Resource) : list NetEvent :=
  flat_map
    (fun res =>
       [EvWrite (Data res) None; EvWrite (list_byte_of_string CRLF) None])
    resources.

(** What [Register] maintains while it builds the packet: the listed
    resources have distinct identifiers, [seenIDs] holds exactly those, the
    lines written so far are no resource headers, and the listed identifiers
    are the ones referred to so far. *)
Record register_inv (refs : list string) (st : RegisterState) : Prop := {
  inv_nodup : NoDup (map Identifier (resources st));
  inv_seen :
    forall id, seen (seenIDs st) id = true
               <-> In id (map Identifier (resources st));
  inv_lines : Forall not_resource_header (packet st);
  inv_refs :
    forall id, In id (map Identifier (resources st)) <-> In id refs
}.

(** The lines [Register] writes before the notification types. *)
Definition preamble_lines (c : Client) (count : nat) : list string :=
  [ "GNTP/" +:+ GNTPVersion +:+ " REGISTER NONE" +:+ CRLF;
    "Application-Name: " +:+ ApplicationName c +:+ CRLF ]
  ++ match ApplicationIcon c with
     | Some icon =>
         ["Application-Icon: " +:+ getReference icon (ClientIconMode c)
          +:+ CRLF]
     | None => []
     end
  ++ (if String.eqb (callbackURL c) EmptyString then []
      else ["Notification-Callback-Target: " +:+ callbackURL c +:+ CRLF])
  ++ [ "Notifications-Count: " +:+ fmt_d (Z.of_nat count) +:+ CRLF; CRLF ].

(** The lines [Register] writes for one notification type. *)
Definition notification_lines (c : Client) (notif : NotificationType)
    : list string :=
  ["Notification-Name: " +:+ Name notif +:+ CRLF]
  ++ (if String.eqb (DisplayName notif) EmptyString then []
      else ["Notification-Display-Name: " +:+ DisplayName notif +:+ CRLF])
  ++ ["Notification-Enabled: " +:+ (if Enabled notif then "True" else "False")
      +:+ CRLF]
  ++ match Icon notif with
     | Some icon =>
         ["Notification-Icon: " +:+ getReference icon (ClientIconMode c)
          +:+ CRLF]
     | None => []
     end
  ++ [CRLF].

(** A line the callback parser recognizes: it starts with one of the four
    header prefixes. *)
Definition recognized (line : string) : bool :=
  HasPrefix line "Notification-Callback-Result: "
  || HasPrefix line "Notification-ID: "
  || HasPrefix line "Notification-Callback-Context: "
  || HasPrefix line "Notification-Callback-Context-Type: ".


(** A text without carriage return. *)
Fixpoint CR_free (s : string) : bool :=
  match s with
  | EmptyString => true
  | String c s' => negb (Ascii.eqb c CR) && CR_free s'
  end.

(** ** Sample inputs *)

Definition ok_response : list string :=
  ["GNTP/1.0 -OK NONE" +:+ CRLF; "Response-Action: REGISTER" +:+ CRLF; CRLF].

(** A daemon that accepts every connection and answers [-OK]. *)
Definition friendly_conn : Conn := mkConn None [] ok_response EOF.

Definition sample_world : World :=
  mkWorld (fun _ => friendly_conn) 0 []
    (fun _ => inl (OtherError "open: no such file or directory"))
    (fun _ => "00000000-0000-4000-8000-000000000000") 0
    (fun _ => 1700000000000000000%Z) 0.

Definition sample_md5hex (s : string) : string :=
  "d41d8cd98f00b204e9800998ecf8427e".

Definition sample_icon : Resource :=
  mkResource "icon-1" [x89; x50; x4e; x47] EmptyString "image/png".

Definition sample_binary_client : Client :=
  mkClient "localhost" DefaultPort "Sample" None IconModeBinary false
    10000000000%Z false false EmptyString.

Definition listening_client : Client :=
  mkClient "localhost" DefaultPort "Sample" None IconModeDataURL false
    10000000000%Z true true "http://192.168.1.2:40000".

(** An inbound message that carries none of the callback headers. *)
Definition garbage_conn : InConn := mkInConn (inr "garbage") 1700000000%Z.

(** A Binary-mode client whose application icon is shared by two of three
    notification types. *)
Definition sample_icon_client : Client :=
  mkClient "localhost" DefaultPort "Sample" (Some sample_icon) IconModeBinary
    false 10000000000%Z false false EmptyString.

Definition sample_types : list NotificationType :=
  [ mkNotificationType "info" "Information" true (Some sample_icon);
    mkNotificationType "warning" EmptyString true None;
    mkNotificationType "error" "Error" false (Some sample_icon) ].

Definition sample_message : Message :=
  mkMessage "alert" "Simple Message" "Using Message struct" EmptyString
    "https://github.com/cumulus13/go-gntp" EmptyString false 7%Z.

Definition registered_client : Client :=
  set_registered (NewClient "Message Example").

(** A daemon that rejects the request. *)
Definition error_conn : Conn :=
  mkConn None []
    ["GNTP/1.0 -ERROR Invalid" +:+ CRLF; "Error-Code: 300" +:+ CRLF; CRLF]
    EOF.

Definition error_world : World :=
  mkWorld (fun _ => error_conn) 0 []
    (fun _ => inl (OtherError "open: no such file or directory"))
    (fun _ => "00000000-0000-4000-8000-000000000000") 0
    (fun _ => 1700000000000000000%Z) 0.

Definition same_string (s : string) : string := s.

(** ** Proof automation *)

(** Shifts and masks by constants as multiplication, division and modulo. *)
Ltac to_arith :=
  rewrite ?Z.shiftl_mul_pow2, ?Z.shiftr_div_pow2 by lia;
  change 63%Z with (Z.ones 6); change 255%Z with (Z.ones 8);
  rewrite ?Z.land_ones by lia;
  change (2 ^ 6)%Z with 64%Z; change (2 ^ 8)%Z with 256%Z;
  change (2 ^ 12)%Z with 4096%Z; change (2 ^ 16)%Z with 65536%Z;
  change (2 ^ 18)%Z with 262144%Z.

Ltac solve_div_mod :=
  change (2 ^ 6)%Z with 64%Z; change (2 ^ 8)%Z with 256%Z;
  change (2 ^ 12)%Z with 4096%Z; change (2 ^ 16)%Z with 65536%Z;
  change (2 ^ 18)%Z with 262144%Z;
  Z.div_mod_to_equations; lia.

(** * The rest of the client *)

(** ** Configuration setters of the client *)

Definition WithHost (c : Client) (host : string) : Client :=
  mkClient host (Port c) (ApplicationName c) (ApplicationIcon c)
    (ClientIconMode c) (Debug c) (Timeout c) (registered c)
    (callbackHandler c) (callbackURL c).

Definition WithPort (c : Client) (port : Z) : Client :=
  mkClient (Host c) port (ApplicationName c) (ApplicationIcon c)
    (ClientIconMode c) (Debug c) (Timeout c) (registered c)
    (callbackHandler c) (callbackURL c).

Definition WithIconMode (c : Client) (mode : IconMode) : Client :=
  mkClient (Host c) (Port c) (ApplicationName c) (ApplicationIcon c) mode
    (Debug c) (Timeout c) (registered c) (callbackHandler c) (callbackURL c).

Definition ClientWithIcon (c : Client) (icon : option Resource) : Client :=
  mkClient (Host c) (Port c) (ApplicationName c) icon (ClientIconMode c)
    (Debug c) (Timeout c) (registered c) (callbackHandler c) (callbackURL c).

Definition WithDebug (c : Client) (debug : bool) : Client :=
  mkClient (Host c) (Port c) (ApplicationName c) (ApplicationIcon c)
    (ClientIconMode c) debug (Timeout c) (registered c) (callbackHandler c)
    (callbackURL c).

Definition WithTimeout (c : Client) (timeout : Z) : Client :=
  mkClient (Host c) (Port c) (ApplicationName c) (ApplicationIcon c)
    (ClientIconMode c) (Debug c) timeout (registered c) (callbackHandler c)
    (callbackURL c).

Definition WithEnabled (nt : NotificationType) (enabled : bool)
    : NotificationType :=
  mkNotificationType (Name nt) (DisplayName nt) enabled (Icon nt).

(** ** Resources made from bytes *)

Definition LoadResourceFromBytes (data : list byte) (mimeType : string)
    (w : World) : Resource * World :=
  let '(id, w) := next_uuid w in
  (mkResource id data EmptyString mimeType, w).

(** ** Starting the callback listener *)

(** One entry of [net.InterfaceAddrs()]: whether it is a [*net.IPNet],
    whether its address is a loopback address, whether [To4()] is non-nil,
    and its [IP.String()]. *)
Record Addr := mkAddr {
  is_IPNet : bool;
  IsLoopback : bool;
  is_IPv4 : bool;
  IP_String : string
}.

(** [getLocalIP], given what [net.InterfaceAddrs()] returns. *)
Definition getLocalIP (addrs : net_error + list Addr) : string :=
  match addrs with
  | inl _ => "127.0.0.1"
  | inr addrs =>
      match
        List.find
          (fun addr => is_IPNet addr && negb (IsLoopback addr) && is_IPv4 addr)
          addrs
      with
      | Some addr => IP_String addr
      | None => "127.0.0.1"
      end
  end.

(** [c.callbackHandler = handler]; [handler] tells whether the function
    passed is non-nil. *)
Definition set_handler (c : Client) (handler : bool) : Client :=
  mkClient (Host c) (Port c) (ApplicationName c) (ApplicationIcon c)
    (ClientIconMode c) (Debug c) (Timeout c) (registered c) handler
    (callbackURL c).

Definition set_callbackURL (c : Client) (url : string) : Client :=
  mkClient (Host c) (Port c) (ApplicationName c) (ApplicationIcon c)
    (ClientIconMode c) (Debug c) (Timeout c) (registered c)
    (callbackHandler c) url.

(** [WithCallback], given the handler (nil or not), what
    [net.Listen("tcp", ":0")] returns (an error, or the port the listener is
    bound to) and the interface addresses.  The handler is stored before the
    listener is started, whatever it is; the listen error is returned
    wrapped.  The accept loop the source starts on success is
    [acceptCallbacks]. *)
Definition WithCallback (c : Client) (handler : bool)
    (listen : net_error + Z) (addrs : net_error + list Addr)
    : option gntp_error * Client :=
  let c := set_handler c handler in
  match listen with
  | inl err => (Some (ErrCallbackListener err), c)
  | inr port =>
      (None,
       set_callbackURL c
         ("http://" +:+ getLocalIP addrs +:+ ":" +:+ fmt_d port))
  end.

(** ** More reference notions *)

Definition is_write (ev : NetEvent) : bool :=
  match ev with
  | EvWrite _ _ => true
  | _ => false
  end.

Definition is_read (ev : NetEvent) : bool :=
  match ev with
  | EvReadLine _ | EvReadError _ => true
  | _ => false
  end.

(** The byte sequences a send has to write, in order. *)
Definition wire_plan (c : Client) (writes : list string)
    (resources : list Resource) : list (list byte) :=
  if (ClientIconMode c =? IconModeBinary)%Z
  then
    list_byte_of_string (builder_string writes)
    :: flat_map (fun res => [Data res; list_byte_of_string CRLF]) resources
    ++ [list_byte_of_string CRLF]
  else [list_byte_of_string (builder_string writes)].

(** The icons a REGISTER request refers to: the application's, then those of
    the notification types, in order. *)
Definition referenced_icons (c : Client)
    (notifications : list NotificationType) : list Resource :=
  match ApplicationIcon c with
  | Some icon => [icon]
  | None => []
  end
  ++ omap Icon notifications.

(** The first resource of each identifier, in order of first occurrence;
    [known] are the identifiers met before. *)
Fixpoint first_of_each (known : list string) (icons : list Resource)
    : list Resource :=
  match icons with
  | [] => []
  | icon :: rest =>
      if existsb (String.eqb (Identifier icon)) known
      then first_of_each known rest
      else icon :: first_of_each (Identifier icon :: known) rest
  end.

(** The shape of the events of one send: the dial, then writes, then reads,
    then the close; nothing after a failed dial.  The data written is an
    initial part of the [plan], all of it when the send succeeds. *)
Definition send_shape (plan : list (list byte)) (address : string)
    (dialled : option net_error) (result : gntp_error + string)
    (evs : list NetEvent) : Prop :=
  exists ws rs,
    evs
    = EvDial address dialled
      :: ws ++ rs
         ++ match dialled with
            | Some _ => []
            | None => [EvClose]
            end
    /\ Forall (fun ev => is_write ev = true) ws
    /\ Forall (fun ev => is_read ev = true) rs
    /\ (dialled <> None -> ws = [] /\ rs = [])
    /\ exists rest,
         plan = written ws ++ rest
         /\ ((exists response, result = inr response) -> rest = []).

(** The lines of a builder that start with a given text. *)
Definition lines_with (start : string) (writes : list string) : list string :=
  List.filter (fun l => HasPrefix l start) writes.

(** A builder whose last two writes are a line and the blank line. *)
Definition ends_with_blank_line (writes : list string) : Prop :=
  exists before line, writes = before ++ [line +:+ CRLF; CRLF].

(** [known] lists the identifiers marked in [seenIDs]. *)
Definition seen_as (st : RegisterState) (known : list string) : Prop :=
  forall id, seen (seenIDs st) id = existsb (String.eqb id) known.

(** The error of a send in Binary mode whose [k]-th write on the connection
    (counted from 0) is the first to fail, with [n] resources to transmit:
    write 0 is the packet, writes [2i+1] and [2i+2] are the data and the line
    terminator of resource [i], write [2n+1] is the final terminator. *)
Definition write_error_at (n k : nat) (cause : net_error) : gntp_error :=
  if Nat.eqb k 0 then ErrSendPacket cause
  else if Nat.eqb k (2 * n + 1) then ErrSendTermination cause
  else if Nat.odd k then ErrSendResourceData cause
  else ErrSendResourceCRLF cause.

(** ** The text of a packet, line by line *)

(** The lines of the text of a packet:
    [strings.Split(packet.String(), CRLF)]. *)
Definition packet_lines (writes : list string) : list string :=
  Split_CRLF (builder_string writes).

(** The lines of the text of a packet that start with [start]. *)
Definition text_lines_with (start : string) (writes : list string)
    : list string :=
  List.filter (fun l => HasPrefix l start) (packet_lines writes).

(** The first line of a text. *)
Definition first_line (text : string) : string :=
  hd EmptyString (Split_CRLF text).

(** A character of base64 text: of the alphabet, or the padding. *)
Definition base64_char (a : ascii) : bool :=
  Ascii.eqb a padChar
  || existsb (Ascii.eqb a) (list_ascii_of_string encodeStd).

Fixpoint base64_text (s : string) : bool :=
  match s with
  | EmptyString => true
  | String a s' => base64_char a && base64_text s'
  end.

(** A write that is made of whole lines: a first line without carriage
    return, then lines of base64 text (the continuation lines of a data
    URL), each with its line terminator. *)
Definition tidy (write : string) : Prop :=
  exists first continuation,
    write
    = String.concat EmptyString
        (map (fun l => l +:+ CRLF) (first :: continuation))
    /\ CR_free first = true
    /\ Forall (fun l => base64_text l = true) continuation.

(** No carriage return in the texts a packet takes from a resource, from the
    client, from a notification type and from the options. *)
Definition clean_resource (r : Resource) : bool :=
  CR_free (Identifier r) && CR_free (MimeType r) && CR_free (SourcePath r).

Definition clean_icon (icon : option Resource) : bool :=
  match icon with
  | Some r => clean_resource r
  | None => true
  end.

Definition clean_client (c : Client) : bool :=
  CR_free (ApplicationName c) && CR_free (callbackURL c)
  && clean_icon (ApplicationIcon c).

Definition clean_type (notif : NotificationType) : bool :=
  CR_free (Name notif) && CR_free (DisplayName notif)
  && clean_icon (Icon notif).

Definition clean_options (options : NotifyOptions) : bool :=
  CR_free (CallbackContext options) && CR_free (CallbackTarget options)
  && clean_icon (OptIcon options).

(** The value of the last line that starts with [prefix]; empty when there
    is none. *)
Definition header_value (prefix : string) (lines : list string) : string :=
  match rev (List.filter (fun l => HasPrefix l prefix) lines) with
  | l :: _ => TrimPrefix l prefix
  | [] => EmptyString
  end.


(** ** More sample inputs *)

(** A daemon that sends the status line and then lets the deadline expire. *)
Definition stalled_conn : Conn :=
  mkConn None [] ["GNTP/1.0 -OK NONE" +:+ CRLF] (OtherError "i/o timeout").

Definition stalled_world : World :=
  mkWorld (fun _ => stalled_conn) 0 []
    (fun _ => inl (OtherError "open: no such file or directory"))
    (fun _ => "00000000-0000-4000-8000-000000000000") 0
    (fun _ => 1700000000000000000%Z) 0.

(** A daemon that closes the connection without an answer. *)
Definition silent_conn : Conn := mkConn None [] [] EOF.

Definition silent_world : World :=
  mkWorld (fun _ => silent_conn) 0 []
    (fun _ => inl (OtherError "open: no such file or directory"))
    (fun _ => "00000000-0000-4000-8000-000000000000") 0
    (fun _ => 1700000000000000000%Z) 0.

(** 4096 bytes, the size of the callback read buffer. *)
Definition full_buffer : string :=
  string_of_list_ascii (List.repeat "x"%char 4096).

(** A connection that breaks at the third write. *)
Definition broken_conn : Conn :=
  mkConn None [None; None; Some (OtherError "broken pipe")] ok_response EOF.

Definition broken_world : World :=
  mkWorld (fun _ => broken_conn) 0 []
    (fun _ => inl (OtherError "open: no such file or directory"))
    (fun _ => "00000000-0000-4000-8000-000000000000") 0
    (fun _ => 1700000000000000000%Z) 0.


(** A daemon that sends two lines of an error response and then lets the
    deadline expire. *)
Definition error_then_stalled_conn : Conn :=
  mkConn None []
    ["GNTP/1.0 -ERROR Invalid" +:+ CRLF; "Error-Code: 300" +:+ CRLF]
    (OtherError "i/o timeout").

Definition error_then_stalled_world : World :=
  mkWorld (fun _ => error_then_stalled_conn) 0 []
    (fun _ => inl (OtherError "open: no such file or directory"))
    (fun _ => "00000000-0000-4000-8000-000000000000") 0
    (fun _ => 1700000000000000000%Z) 0.



Definition callback_options : NotifyOptions :=
  mkNotifyOptions true 2%Z (Some sample_icon) "user_data_123"
    "https://example.com".

(** * Properties *)

(** ** Strings *)

Lemma append_cons (c : ascii) (s t : string) :
  String c s +:+ t = String c (s +:+ t).
Proof. reflexivity. Qed.

Lemma append_nil_l (s : string) : EmptyString +:+ s = s.
Proof. reflexivity. Qed.

Lemma append_nil_r (s : string) : s +:+ EmptyString = s.
Proof.
  induction s as [|c s IH]; [reflexivity |].
  now rewrite append_cons, IH.
Qed.

Lemma append_assoc (s1 s2 s3 : string) :
  (s1 +:+ s2) +:+ s3 = s1 +:+ s2 +:+ s3.
Proof.
  induction s1 as [|c s1 IH]; [reflexivity |].
  now rewrite !append_cons, IH.
Qed.

Lemma length_append (s1 s2 : string) :
  String.length (s1 +:+ s2) = String.length s1 + String.length s2.
Proof.
  induction s1 as [|c s1 IH]; [reflexivity |].
  rewrite append_cons. cbn [String.length]. now rewrite IH.
Qed.

Lemma concat_empty_cons (x : string) (l : list string) :
  String.concat EmptyString (x :: l) = x +:+ String.concat EmptyString l.
Proof.
  destruct l as [|y l]; [symmetry; apply append_nil_r | reflexivity].
Qed.

Lemma concat_empty_app (l1 l2 : list string) :
  String.concat EmptyString (l1 ++ l2)
  = String.concat EmptyString l1 +:+ String.concat EmptyString l2.
Proof.
  induction l1 as [|x l1 IH]; [reflexivity |].
  rewrite <- app_comm_cons, !concat_empty_cons, IH.
  symmetry; apply append_assoc.
Qed.

Lemma HasPrefix_append (s t : string) : HasPrefix (s +:+ t) s = true.
Proof.
  induction s as [|c s IH]; [reflexivity |].
  rewrite append_cons. cbn [HasPrefix]. now rewrite Ascii.eqb_refl, IH.
Qed.

(** A text is contained in itself behind any prefix and before any suffix. *)
Lemma Contains_append (a s b : string) : Contains (a +:+ s +:+ b) s = true.
Proof.
  induction a as [|c a IH].
  - rewrite append_nil_l.
    destruct (s +:+ b) eqn:E; cbn [Contains];
      rewrite <- E, HasPrefix_append; reflexivity.
  - rewrite append_cons. cbn [Contains]. rewrite IH. apply orb_true_r.
Qed.
(** ** Option setters *)

(** C7: [WithPriority] clamps its argument to the closed range [-2, 2]: above
    2 it stores 2, below -2 it stores -2, inside the range it stores the
    argument; 5 gives 2 and -5 gives -2.  The setter is total (it returns
    options, never an error) and touches no other field. *)
Theorem WithPriority_clamps (no : NotifyOptions) (p : Z) :
  ((2 < p)%Z -> Priority (WithPriority no p) = 2%Z)
  /\ ((p < -2)%Z -> Priority (WithPriority no p) = (-2)%Z)
  /\ ((-2 <= p <= 2)%Z -> Priority (WithPriority no p) = p)
  /\ Priority (WithPriority no 5) = 2%Z
  /\ Priority (WithPriority no (-5)) = (-2)%Z
  /\ (-2 <= Priority (WithPriority no p) <= 2)%Z
  /\ Sticky (WithPriority no p) = Sticky no
  /\ OptIcon (WithPriority no p) = OptIcon no
  /\ CallbackContext (WithPriority no p) = CallbackContext no
  /\ CallbackTarget (WithPriority no p) = CallbackTarget no.
Proof.
  unfold WithPriority; cbn [Priority Sticky OptIcon CallbackContext CallbackTarget].
  repeat split; try reflexivity; intros;
    destruct (Z.ltb_spec p (-2)); destruct (Z.gtb_spec p 2); lia.
Qed.

(** ** Icon reference resolver *)

Lemma ReplaceAll1_length (s : string) (old new : ascii) :
  String.length (ReplaceAll1 s old new) = String.length s.
Proof. induction s as [|c s IH]; cbn; [reflexivity | now rewrite IH]. Qed.

Lemma ReplaceAll1_get (s : string) (old new : ascii) (i : nat) :
  String.get i (ReplaceAll1 s old new)
  = (fun c => if Ascii.eqb c old then new else c) <$> String.get i s.
Proof.
  revert i; induction s as [|c s IH]; intros i; cbn; [reflexivity |].
  destruct i as [|i]; cbn; [reflexivity | apply IH].
Qed.

Lemma eqb_empty_false (s : string) :
  s <> EmptyString -> String.eqb s EmptyString = false.
Proof. intros H; apply String.eqb_neq; exact H. Qed.

(** C9: in FileURL mode a resource with a source path is referred to as
    [file:///] followed by the path, in which every backslash has become a
    forward slash and every other character is unchanged; in HttpURL mode it
    is referred to by the path verbatim.  With an empty source path both
    modes give the data URL of the resource. *)
Theorem getReference_FileURL_HttpURL (r : Resource) :
  (SourcePath r <> EmptyString ->
   exists path,
     getReference r IconModeFileURL = "file:///" +:+ path
     /\ String.length path = String.length (SourcePath r)
     /\ forall i,
          String.get i path
          = (fun c => if Ascii.eqb c backslash then slash else c)
              <$> String.get i (SourcePath r))
  /\ (SourcePath r = EmptyString ->
      getReference r IconModeFileURL = toDataURL r)
  /\ (SourcePath r <> EmptyString ->
      getReference r IconModeHttpURL = SourcePath r)
  /\ (SourcePath r = EmptyString ->
      getReference r IconModeHttpURL = toDataURL r).
Proof.
  unfold getReference; cbn [Z.eqb IconModeBinary IconModeFileURL IconModeHttpURL].
  repeat split.
  - intros Hne. exists (ReplaceAll1 (SourcePath r) backslash slash).
    rewrite (eqb_empty_false _ Hne); cbn.
    split; [reflexivity |].
    split; [apply ReplaceAll1_length | intros i; apply ReplaceAll1_get].
  - intros ->; reflexivity.
  - intros Hne. now rewrite (eqb_empty_false _ Hne).
  - intros ->; reflexivity.
Qed.

(** ** The registered flag gates NOTIFY *)

(** C1: on a client whose [registered] flag is unset, [NotifyWithOptions]
    and [Notify] return the usage error at once and leave the world as it
    was: no connection is dialled and nothing is appended to the trace of
    network events. *)
Theorem Notify_before_Register (md5hex : string -> string) (c : Client)
    (notificationName title text : string) (options : NotifyOptions)
    (w : World) :
  registered c = false ->
  NotifyWithOptions md5hex c notificationName title text options w
  = (Some ErrNotRegistered, w)
  /\ Notify md5hex c notificationName title text w
     = (Some ErrNotRegistered, w)
  /\ new_events w
       (snd (NotifyWithOptions md5hex c notificationName title text options w))
     = []
  /\ dials (snd (NotifyWithOptions md5hex c notificationName title text
                   options w))
     = dials w
  /\ error_text ErrNotRegistered = "must call Register() before Notify()".
Proof.
  intros Hreg.
  assert (H : forall o,
             NotifyWithOptions md5hex c notificationName title text o w
             = (Some ErrNotRegistered, w)).
  { intros o. unfold NotifyWithOptions. now rewrite Hreg. }
  unfold Notify. rewrite !H. cbn [snd].
  repeat split. unfold new_events. apply drop_all.
Qed.

(** The flag starts unset and only a successful [Register] sets it. *)
Lemma NewClient_not_registered (applicationName : string) :
  registered (NewClient applicationName) = false.
Proof. reflexivity. Qed.

Lemma Register_sets_flag (c c' : Client) (ns : list NotificationType)
    (w w' : World) (r : option gntp_error) :
  Register c ns w = (r, c', w') ->
  match r with
  | Some _ => c' = c
  | None => c' = set_registered c
  end.
Proof.
  unfold Register. destruct (Register_packet c ns) as [writes res].
  destruct (send c writes res w) as [[e|s] w1]; intros [= <- <- <-]; reflexivity.
Qed.

(** ** NOTIFY packets *)

Lemma count_line_app (line : string) (l1 l2 : list string) :
  count_line line (l1 ++ l2) = count_line line l1 + count_line line l2.
Proof. unfold count_line. now rewrite List.filter_app, length_app. Qed.

Lemma header_present_app (key : string) (l1 l2 : list string) :
  header_present key (l1 ++ l2)
  = header_present key l1 || header_present key l2.
Proof. unfold header_present. apply existsb_app. Qed.

Lemma if_app {A} (b : bool) (l l' : list A) :
  (if b then l ++ l' else l) = l ++ (if b then l' else []).
Proof. destruct b; [reflexivity | now rewrite app_nil_r]. Qed.

(** The writes of [NotifyWithOptions] to its builder, piece by piece. *)
Lemma Notify_packet_writes (c : Client) (notificationName title text : string)
    (options : NotifyOptions) (notificationID : string) :
  fst (Notify_packet c notificationName title text options notificationID)
  = [ "GNTP/" +:+ GNTPVersion +:+ " NOTIFY NONE" +:+ CRLF;
      "Application-Name: " +:+ ApplicationName c +:+ CRLF;
      "Notification-Name: " +:+ notificationName +:+ CRLF;
      "Notification-ID: " +:+ notificationID +:+ CRLF;
      "Notification-Title: " +:+ title +:+ CRLF;
      "Notification-Text: " +:+ text +:+ CRLF ]
    ++ (if Sticky options then ["Notification-Sticky: True" +:+ CRLF] else [])
    ++ (if (Priority options =? 0)%Z then []
        else ["Notification-Priority: " +:+ fmt_d (Priority options)
              +:+ CRLF])
    ++ match OptIcon options with
       | Some icon =>
           ["Notification-Icon: " +:+ getReference icon (ClientIconMode c)
            +:+ CRLF]
       | None => []
       end
    ++ (if String.eqb (callbackURL c) EmptyString then []
        else
          [ "Notification-Callback-Context: " +:+ CallbackContext options
            +:+ CRLF;
            "Notification-Callback-Context-Type: string" +:+ CRLF ]
          ++ (if String.eqb (CallbackTarget options) EmptyString then []
              else ["Notification-Callback-Target: "
                    +:+ CallbackTarget options +:+ CRLF]))
    ++ [CRLF]
    ++ match OptIcon options with
       | Some icon =>
           if (ClientIconMode c =? IconModeBinary)%Z
           then resource_headers icon else []
       | None => []
       end.
Proof.
  unfold Notify_packet, binary_section.
  destruct (Sticky options), (Priority options =? 0)%Z,
    (OptIcon options) as [icon|],
    (ClientIconMode c =? IconModeBinary)%Z,
    (String.eqb (callbackURL c) EmptyString),
    (String.eqb (CallbackTarget options) EmptyString);
    cbn [negb fst flat_map app]; rewrite ?app_nil_r; reflexivity.
Qed.

(** ** Transport session *)

Lemma trace_log (evs : list NetEvent) (w : World) :
  trace (log evs w) = trace w ++ evs.
Proof. reflexivity. Qed.

Lemma new_events_app (w w' : World) (evs : list NetEvent) :
  trace w' = trace w ++ evs -> new_events w w' = evs.
Proof. intros H. unfold new_events. rewrite H. apply drop_app_length. Qed.

Lemma written_app (evs1 evs2 : list NetEvent) :
  written (evs1 ++ evs2) = written evs1 ++ written evs2.
Proof.
  induction evs1 as [|e evs1 IH]; [reflexivity |].
  destruct e as [| data [err|] | | |]; cbn; rewrite ?IH; reflexivity.
Qed.

(** The response loop only reads. *)
Lemma read_response_written (lines : list string) (e : net_error)
    (response : string) :
  written (snd (read_response lines e response)) = [].
Proof.
  revert response; induction lines as [|line lines IH]; intros response.
  - cbn. destruct e as [|text]; [reflexivity |].
    destruct (Contains text "connection"); reflexivity.
  - cbn. destruct (TrimSpace_is_empty line); [reflexivity |].
    specialize (IH (response +:+ line)).
    destruct (read_response lines e (response +:+ line)) as [r evs].
    exact IH.
Qed.

(** The loop stops at the first blank line and returns what it read. *)
Lemma read_response_blank (before after : list string) (blank : string)
    (e : net_error) (response : string) :
  Forall (fun l => TrimSpace_is_empty l = false) before ->
  TrimSpace_is_empty blank = true ->
  fst (read_response (before ++ blank :: after) e response)
  = ReadDone (response +:+ String.concat EmptyString (before ++ [blank])).
Proof.
  intros Hbefore Hblank. revert response.
  induction Hbefore as [|line before Hline _ IH]; intros response.
  - cbn. now rewrite Hblank.
  - rewrite <- !app_comm_cons, concat_empty_cons.
    cbn [read_response]. rewrite Hline.
    specialize (IH (response +:+ line)).
    destruct (read_response (before ++ blank :: after) e (response +:+ line))
      as [r evs].
    cbn [fst] in *. now rewrite IH, append_assoc.
Qed.

(** Without a blank line the loop runs to the end of the stream, and a
    stream that ends or a connection reported closed ends it normally. *)
Lemma read_response_close (lines : list string) (e : net_error)
    (response : string) :
  Forall (fun l => TrimSpace_is_empty l = false) lines ->
  (e = EOF
   \/ exists text, e = OtherError text /\ Contains text "connection" = true) ->
  fst (read_response lines e response)
  = ReadDone (response +:+ String.concat EmptyString lines).
Proof.
  intros Hlines He. revert response.
  induction Hlines as [|line lines Hline _ IH]; intros response.
  - cbn [read_response String.concat]. rewrite append_nil_r.
    destruct He as [-> | (text & -> & Htext)]; [reflexivity |].
    now rewrite Htext.
  - rewrite concat_empty_cons. cbn [read_response]. rewrite Hline.
    specialize (IH (response +:+ line)).
    destruct (read_response lines e (response +:+ line)) as [r evs].
    cbn [fst] in *. now rewrite IH, append_assoc.
Qed.

Lemma read_response_normal (conn : Conn) (response : string) :
  ends_at_blank_line conn response \/ ends_at_close conn response ->
  fst (read_response (read_lines conn) (read_end conn) EmptyString)
  = ReadDone response.
Proof.
  intros [(before & blank & after & -> & Hb & Hblank & ->)
         | (Hl & He & ->)].
  - now rewrite read_response_blank.
  - now rewrite read_response_close.
Qed.

Lemma finish_read_normal (conn : Conn) (w : World) (response : string) :
  ends_at_blank_line conn response \/ ends_at_close conn response ->
  fst (finish_read conn w) = check_response response.
Proof.
  intros H. apply read_response_normal in H. unfold finish_read.
  destruct (read_response (read_lines conn) (read_end conn) EmptyString)
    as [r evs].
  cbn [fst] in H. now subst r.
Qed.

Lemma finish_read_trace (conn : Conn) (w : World) :
  exists evs,
    trace (snd (finish_read conn w)) = trace w ++ evs /\ written evs = [].
Proof.
  unfold finish_read.
  pose proof (read_response_written (read_lines conn) (read_end conn)
                EmptyString) as H.
  destruct (read_response (read_lines conn) (read_end conn) EmptyString)
    as [r evs].
  cbn [snd] in H. exists (evs ++ [EvClose]).
  split; [destruct r; reflexivity |].
  now rewrite written_app, H.
Qed.

Lemma write_result_ok (conn : Conn) (k : nat) :
  writes_succeed conn -> write_result conn k = None.
Proof.
  unfold writes_succeed, write_result. intros H.
  destruct (nth_error (write_results conn) k) as [r|] eqn:E; [|reflexivity].
  apply nth_error_In in E. rewrite List.Forall_forall in H. now apply H.
Qed.

Lemma send_resources_ok (conn : Conn) (resources : list Resource) (k : nat) :
  writes_succeed conn ->
  exists k',
    send_resources conn resources k = (None, resource_writes resources, k').
Proof.
  intros Hok. revert k.
  induction resources as [|res resources IH]; intros k.
  - exists k; reflexivity.
  - cbn [send_resources]. rewrite !write_result_ok by exact Hok.
    destruct (IH (S (S k))) as [k' ->]. exists k'. reflexivity.
Qed.

Lemma written_resource_writes (resources : list Resource) :
  written (resource_writes resources)
  = flat_map (fun res => [Data res; list_byte_of_string CRLF]) resources.
Proof.
  induction resources as [|res resources IH]; [reflexivity |].
  unfold resource_writes in *. cbn [flat_map app written]. now rewrite IH.
Qed.

Lemma sendPacket_ok (c : Client) (packet : string) (w : World) :
  dial_result (network w (dials w)) = None ->
  writes_succeed (network w (dials w)) ->
  exists w1,
    sendPacket c packet w = finish_read (network w (dials w)) w1
    /\ trace w1
       = trace w
         ++ [EvDial (address_of c) None;
             EvWrite (list_byte_of_string packet) None].
Proof.
  intros Hdial Hok. unfold sendPacket.
  rewrite Hdial, write_result_ok by exact Hok.
  eexists; split; [reflexivity |].
  rewrite !trace_log. cbn [trace next_dial]. now rewrite <- app_assoc.
Qed.

Lemma sendPacketWithResources_ok (c : Client) (packet : string)
    (resources : list Resource) (w : World) :
  dial_result (network w (dials w)) = None ->
  writes_succeed (network w (dials w)) ->
  exists w1,
    sendPacketWithResources c packet resources w
    = finish_read (network w (dials w)) w1
    /\ trace w1
       = trace w
         ++ [EvDial (address_of c) None;
             EvWrite (list_byte_of_string packet) None]
         ++ resource_writes resources
         ++ [EvWrite (list_byte_of_string CRLF) None].
Proof.
  intros Hdial Hok. unfold sendPacketWithResources.
  rewrite Hdial, write_result_ok by exact Hok.
  destruct (send_resources_ok (network w (dials w)) resources 1 Hok)
    as [k ->].
  rewrite write_result_ok by exact Hok.
  eexists; split; [reflexivity |].
  rewrite !trace_log. cbn [trace next_dial]. now rewrite <- !app_assoc.
Qed.

(** C4: when the response loop ends normally (at a blank line, at the end of
    the stream or on a connection reported closed) with [response]
    accumulated, both send functions fail with the server error that carries
    the whole response if it contains [-ERROR], and return the response
    otherwise. *)
Theorem response_validation (c : Client) (packet : string)
    (resources : list Resource) (w : World) (response : string) :
  dial_result (network w (dials w)) = None ->
  writes_succeed (network w (dials w)) ->
  ends_at_blank_line (network w (dials w)) response
  \/ ends_at_close (network w (dials w)) response ->
  (Contains response "-ERROR" = true ->
   fst (sendPacket c packet w) = inl (ErrServer response)
   /\ fst (sendPacketWithResources c packet resources w)
      = inl (ErrServer response)
   /\ error_text (ErrServer response) = "server error: " +:+ response
   /\ Contains (error_text (ErrServer response)) response = true)
  /\ (Contains response "-ERROR" = false ->
      fst (sendPacket c packet w) = inr response
      /\ fst (sendPacketWithResources c packet resources w) = inr response).
Proof.
  intros Hdial Hok Hend.
  destruct (sendPacket_ok c packet w Hdial Hok) as (w1 & -> & _).
  destruct (sendPacketWithResources_ok c packet resources w Hdial Hok)
    as (w2 & -> & _).
  rewrite !(finish_read_normal _ _ response Hend).
  unfold check_response.
  split; intros ->; repeat split.
  cbn [error_text].
  rewrite <- (append_nil_r response) at 1.
  apply Contains_append.
Qed.

(** C6, as the code has it: on the text-only path ([sendPacket], every icon
    mode but Binary) the packet is the only write.  On the resource path
    ([sendPacketWithResources], Binary mode) the packet is followed by each
    resource's bytes and a line terminator, in list order, and by one more
    line terminator, whether or not the list is empty. *)
Theorem wire_writes (c : Client) (writes : list string)
    (resources : list Resource) (w : World) :
  dial_result (network w (dials w)) = None ->
  writes_succeed (network w (dials w)) ->
  written (new_events w (snd (sendPacket c (builder_string writes) w)))
  = [list_byte_of_string (builder_string writes)]
  /\ written
       (new_events w
          (snd (sendPacketWithResources c (builder_string writes) resources
                  w)))
     = list_byte_of_string (builder_string writes)
       :: flat_map (fun res => [Data res; list_byte_of_string CRLF]) resources
       ++ [list_byte_of_string CRLF]
  /\ written (new_events w (snd (send c writes resources w)))
     = (if (ClientIconMode c =? IconModeBinary)%Z
        then
          list_byte_of_string (builder_string writes)
          :: flat_map (fun res => [Data res; list_byte_of_string CRLF])
               resources
          ++ [list_byte_of_string CRLF]
        else [list_byte_of_string (builder_string writes)]).
Proof.
  intros Hdial Hok.
  assert (H1 :
    written (new_events w (snd (sendPacket c (builder_string writes) w)))
    = [list_byte_of_string (builder_string writes)]).
  { destruct (sendPacket_ok c (builder_string writes) w Hdial Hok)
      as (w1 & -> & Hw1).
    destruct (finish_read_trace (network w (dials w)) w1) as (evs & Ht & Hevs).
    rewrite Hw1, <- app_assoc in Ht.
    rewrite (new_events_app _ _ _ Ht), written_app, Hevs. reflexivity. }
  assert (H2 :
    written
      (new_events w
         (snd (sendPacketWithResources c (builder_string writes) resources w)))
    = list_byte_of_string (builder_string writes)
      :: flat_map (fun res => [Data res; list_byte_of_string CRLF]) resources
      ++ [list_byte_of_string CRLF]).
  { destruct (sendPacketWithResources_ok c (builder_string writes) resources w
                Hdial Hok) as (w1 & -> & Hw1).
    destruct (finish_read_trace (network w (dials w)) w1) as (evs & Ht & Hevs).
    rewrite Hw1, <- app_assoc in Ht.
    rewrite (new_events_app _ _ _ Ht), !written_app, Hevs,
      written_resource_writes, app_nil_r.
    reflexivity. }
  repeat split; [exact H1 | exact H2 |].
  unfold send. destruct (ClientIconMode c =? IconModeBinary)%Z; assumption.
Qed.

(** ** Callback listener *)

Lemma parse_line_unrecognized (info : CallbackInfo) (line : string) :
  recognized line = false -> parse_line info line = info.
Proof.
  unfold recognized, parse_line. intros H.
  repeat (apply orb_false_elim in H; destruct H as [H ?]).
  now repeat match goal with Hp : HasPrefix _ _ = false |- _ =>
                     rewrite Hp; clear Hp end.
Qed.

Lemma fold_parse_line_unrecognized (info : CallbackInfo)
    (lines : list string) :
  Forall (fun l => recognized l = false) lines ->
  fold_left parse_line lines info = info.
Proof.
  intros H; induction H as [|l lines Hl _ IH]; [reflexivity |].
  cbn [fold_left]. now rewrite parse_line_unrecognized.
Qed.

Lemma parse_line_Timestamp (info : CallbackInfo) (line : string) :
  Timestamp (parse_line info line) = Timestamp info.
Proof.
  unfold parse_line.
  repeat match goal with
         | |- context [if ?b then _ else _] => destruct b
         end; reflexivity.
Qed.

Lemma fold_parse_line_Timestamp (info : CallbackInfo) (lines : list string) :
  Timestamp (fold_left parse_line lines info) = Timestamp info.
Proof.
  revert info; induction lines as [|l lines IH]; intros info; [reflexivity |].
  cbn [fold_left]. now rewrite IH, parse_line_Timestamp.
Qed.

(** The accept loop handles the connections one by one, whatever happened on
    the ones before. *)
Lemma acceptCallbacks_app (c : Client) (before after : list InConn) :
  acceptCallbacks c (before ++ after)
  = acceptCallbacks c before ++ acceptCallbacks c after.
Proof.
  induction before as [|conn before IH]; [reflexivity |].
  cbn. now rewrite IH.
Qed.

(** The scenario of the specification: a click on notification [abc]. *)
Example handleCallback_click :
  handleCallback listening_client
    (mkInConn
       (inr ("Notification-Callback-Result: CLICK" +:+ CRLF
             +:+ "Notification-ID: abc" +:+ CRLF +:+ CRLF))
       1700000000%Z)
  = [ CbWrite ("GNTP/1.0 -OK NONE" +:+ CRLF +:+ CRLF);
      CbHandler
        (mkCallbackInfo "CLICK" "abc" EmptyString EmptyString 1700000000%Z);
      CbClose ].
Proof. vm_compute. reflexivity. Qed.

(** A message without any callback header is acknowledged and handed to the
    handler all the same, with empty fields. *)
Lemma handleCallback_garbage_invokes_handler :
  in_read garbage_conn = inr "garbage"
  /\ Forall (fun l => recognized l = false) (Split_CRLF "garbage")
  /\ callbackHandler listening_client = true
  /\ handleCallback listening_client garbage_conn
     = [ CbWrite callback_ack;
         CbHandler
           (mkCallbackInfo EmptyString EmptyString EmptyString EmptyString
              1700000000%Z);
         CbClose ].
Proof. repeat split. repeat constructor. Qed.

(** ** REGISTER packets: resource deduplication *)

Lemma append_inj_r (s s' t : string) : s +:+ t = s' +:+ t -> s = s'.
Proof.
  revert s'; induction s as [|c s IH]; intros [|c' s'] H.
  - reflexivity.
  - apply (f_equal String.length) in H.
    rewrite append_nil_l, append_cons in H. cbn [String.length] in H.
    rewrite length_append in H. lia.
  - apply (f_equal String.length) in H.
    rewrite append_nil_l, append_cons in H. cbn [String.length] in H.
    rewrite length_append in H. lia.
  - rewrite !append_cons in H. injection H as -> H. f_equal. now apply IH.
Qed.

Lemma identifier_line_inj (id id' : string) :
  "Identifier: " +:+ id +:+ CRLF = "Identifier: " +:+ id' +:+ CRLF ->
  id = id'.
Proof.
  intros H. apply (String.app_inj "Identifier: ") in H.
  now apply append_inj_r in H.
Qed.

Lemma seen_insert (m : gmap string bool) (k id : string) :
  seen (<[k := true]> m) id = if decide (k = id) then true else seen m id.
Proof.
  unfold seen. rewrite lookup_insert. now destruct (decide (k = id)).
Qed.

Lemma seen_empty (id : string) : seen ∅ id = false.
Proof. unfold seen. now rewrite lookup_empty. Qed.

Lemma write_string_inv (refs : list string) (st : RegisterState)
    (s : string) :
  not_resource_header s ->
  register_inv refs st -> register_inv refs (write_string s st).
Proof.
  intros Hs [H1 H2 H3 H4]. split; cbn [write_string resources seenIDs packet];
    try assumption.
  apply Forall_app; split; [assumption | now constructor].
Qed.

Lemma add_resource_inv (refs : list string) (st : RegisterState)
    (icon : Resource) :
  register_inv refs st ->
  register_inv (refs ++ [Identifier icon])
    (add_resource IconModeBinary icon st).
Proof.
  intros [H1 H2 H3 H4]. unfold add_resource.
  change (IconModeBinary =? IconModeBinary)%Z with true. cbn [andb].
  destruct (seen (seenIDs st) (Identifier icon)) eqn:Hseen; cbn [negb].
  - split; try assumption.
    intros id. rewrite in_app_iff, <- H4. cbn [In].
    split; [tauto |]. intros [H | [<- | []]]; [assumption |].
    now apply H2.
  - assert (Hnew : ~ In (Identifier icon) (map Identifier (resources st))).
    { intros Hin. apply H2 in Hin. congruence. }
    split; cbn [resources seenIDs packet]; try assumption.
    + rewrite map_app. cbn [map].
      apply NoDup_ListNoDup, List.NoDup_app; repeat split.
      * now apply NoDup_ListNoDup.
      * constructor; [intros [] | constructor].
      * intros id Hin [<- | []]. contradiction.
    + intros id. rewrite seen_insert, map_app, in_app_iff. cbn [map In].
      destruct (decide (Identifier icon = id)) as [-> | Hne].
      * tauto.
      * rewrite H2. tauto.
    + intros id. rewrite map_app, !in_app_iff, <- H4. reflexivity.
Qed.

Lemma register_preamble_inv (c : Client) (count : nat) :
  ClientIconMode c = IconModeBinary ->
  register_inv
    match ApplicationIcon c with
    | Some icon => [Identifier icon]
    | None => []
    end
    (register_preamble c count).
Proof.
  intros Hmode. unfold register_preamble. rewrite Hmode.
  assert (H0 : register_inv [] (mkRegisterState [] [] ∅)).
  { split; cbn [resources seenIDs packet map].
    - constructor.
    - intros id. rewrite seen_empty. cbn. split; [discriminate | tauto].
    - constructor.
    - tauto. }
  apply write_string_inv; [split; reflexivity |].
  apply write_string_inv; [split; reflexivity |].
  destruct (negb (String.eqb (callbackURL c) EmptyString));
    destruct (ApplicationIcon c) as [icon|];
    repeat (apply write_string_inv; [split; reflexivity |]);
    try (apply (add_resource_inv []));
    repeat (apply write_string_inv; [split; reflexivity |]);
    exact H0.
Qed.

Lemma register_notification_inv (c : Client) (refs : list string)
    (st : RegisterState) (notif : NotificationType) :
  ClientIconMode c = IconModeBinary ->
  register_inv refs st ->
  register_inv
    (refs ++ match Icon notif with
             | Some icon => [Identifier icon]
             | None => []
             end)
    (register_notification c st notif).
Proof.
  intros Hmode Hst. unfold register_notification. rewrite Hmode.
  destruct (negb (String.eqb (DisplayName notif) EmptyString));
    destruct (Enabled notif);
    destruct (Icon notif) as [icon|];
    rewrite ?app_nil_r;
    repeat (apply write_string_inv; [split; reflexivity |]);
    try apply add_resource_inv;
    repeat (apply write_string_inv; [split; reflexivity |]);
    exact Hst.
Qed.

Lemma register_notifications_inv (c : Client) (refs : list string)
    (st : RegisterState) (notifications : list NotificationType) :
  ClientIconMode c = IconModeBinary ->
  register_inv refs st ->
  register_inv
    (refs ++ omap (fun notif => Identifier <$> Icon notif) notifications)
    (fold_left (register_notification c) notifications st).
Proof.
  intros Hmode. revert refs st.
  induction notifications as [|notif notifications IH]; intros refs st Hst.
  - cbn. now rewrite app_nil_r.
  - cbn [fold_left].
    apply (register_notification_inv c refs st notif Hmode) in Hst.
    apply IH in Hst. cbn [omap list_omap].
    destruct (Icon notif) as [icon|]; cbn [fmap option_fmap option_map] in *.
    + now rewrite <- app_assoc in Hst.
    + now rewrite app_nil_r in Hst.
Qed.

(** Lines equal to an [Identifier] header do not occur among lines that are
    no resource headers. *)
Lemma count_identifier_headers (id : string) (headers : list string) :
  Forall not_resource_header headers ->
  count_line ("Identifier: " +:+ id +:+ CRLF) headers = 0.
Proof.
  unfold count_line. intros H; induction H as [|l headers [Hl _] _ IH];
    [reflexivity |].
  cbn [List.filter].
  destruct (String.eqb_spec ("Identifier: " +:+ id +:+ CRLF) l) as [<- | _];
    [| exact IH].
  rewrite HasPrefix_append in Hl. discriminate.
Qed.

(** In the binary section the [Identifier] line of [id] occurs once per
    listed resource with that identifier. *)
Lemma count_identifier_section (id : string) (resources : list Resource) :
  NoDup (map Identifier resources) ->
  (In id (map Identifier resources) ->
   count_line ("Identifier: " +:+ id +:+ CRLF)
     (flat_map resource_headers resources) = 1)
  /\ (~ In id (map Identifier resources) ->
      count_line ("Identifier: " +:+ id +:+ CRLF)
        (flat_map resource_headers resources) = 0).
Proof.
  unfold count_line.
  induction resources as [|res resources IH]; intros Hnd.
  - split; [intros [] | reflexivity].
  - cbn [map] in Hnd. apply NoDup_cons in Hnd as [Hnotin Hnd].
    rewrite list_elem_of_In in Hnotin.
    specialize (IH Hnd) as [IH1 IH0].
    cbn [flat_map resource_headers app List.filter map In].
    replace (String.eqb ("Identifier: " +:+ id +:+ CRLF)
               ("Length: " +:+ fmt_d (Z.of_nat (length (Data res))) +:+ CRLF))
      with false by reflexivity.
    replace (String.eqb ("Identifier: " +:+ id +:+ CRLF) CRLF)
      with false by reflexivity.
    destruct (String.eqb_spec ("Identifier: " +:+ id +:+ CRLF)
                ("Identifier: " +:+ Identifier res +:+ CRLF)) as [E | NE].
    + apply identifier_line_inj in E. subst id.
      cbn [length]. split; [intros _; now rewrite IH0 | tauto].
    + split.
      * intros [E | Hin]; [subst id; now contradiction NE | now apply IH1].
      * intros Hn. apply IH0. tauto.
Qed.

(** ** REGISTER packets: the lines written *)

Lemma packet_add_resource (mode : IconMode) (icon : Resource)
    (st : RegisterState) :
  packet (add_resource mode icon st) = packet st.
Proof. unfold add_resource. now destruct (_ && _). Qed.

Lemma register_preamble_packet (c : Client) (count : nat) :
  packet (register_preamble c count) = preamble_lines c count.
Proof.
  unfold register_preamble, preamble_lines.
  destruct (ApplicationIcon c) as [icon|],
    (String.eqb (callbackURL c) EmptyString);
    cbn [negb write_string packet resources seenIDs app];
    rewrite ?packet_add_resource; reflexivity.
Qed.

Lemma register_notification_packet (c : Client) (st : RegisterState)
    (notif : NotificationType) :
  packet (register_notification c st notif)
  = packet st ++ notification_lines c notif.
Proof.
  unfold register_notification, notification_lines.
  destruct (Icon notif) as [icon|],
    (String.eqb (DisplayName notif) EmptyString);
    cbn [negb write_string packet resources seenIDs];
    rewrite ?packet_add_resource;
    cbn [write_string packet]; rewrite <- ?app_assoc; reflexivity.
Qed.

Lemma register_notifications_packet (c : Client) (st : RegisterState)
    (notifications : list NotificationType) :
  packet (fold_left (register_notification c) notifications st)
  = packet st ++ flat_map (notification_lines c) notifications.
Proof.
  revert st; induction notifications as [|notif notifications IH]; intros st.
  - cbn. now rewrite app_nil_r.
  - cbn [fold_left flat_map].
    now rewrite IH, register_notification_packet, <- app_assoc.
Qed.

(** The writes of [Register] to its builder, piece by piece. *)
Lemma Register_packet_writes (c : Client)
    (notifications : list NotificationType) :
  fst (Register_packet c notifications)
  = preamble_lines c (length notifications)
    ++ flat_map (notification_lines c) notifications
    ++ binary_section (ClientIconMode c)
         (snd (Register_packet c notifications)).
Proof.
  unfold Register_packet. cbn [fst snd].
  now rewrite register_notifications_packet, register_preamble_packet,
    <- app_assoc.
Qed.

(** Outside Binary mode nothing is listed for raw transmission. *)
Lemma Register_packet_no_resources (c : Client)
    (notifications : list NotificationType) :
  ClientIconMode c <> IconModeBinary ->
  snd (Register_packet c notifications) = [].
Proof.
  intros Hmode. apply Z.eqb_neq in Hmode.
  assert (Hadd : forall icon st,
             add_resource (ClientIconMode c) icon st = st).
  { intros icon st. unfold add_resource. now rewrite Hmode. }
  assert (Hstep : forall st notif,
             resources (register_notification c st notif) = resources st).
  { intros st notif. unfold register_notification.
    destruct (Icon notif), (negb _); rewrite ?Hadd; reflexivity. }
  assert (Hfold : forall ns st,
             resources (fold_left (register_notification c) ns st)
             = resources st).
  { induction ns as [|n ns IH]; intros st; [reflexivity |].
    cbn [fold_left]. now rewrite IH, Hstep. }
  unfold Register_packet. cbn [snd]. rewrite Hfold.
  unfold register_preamble.
  destruct (ApplicationIcon c), (negb _); rewrite ?Hadd; reflexivity.
Qed.

Lemma Notify_packet_no_resources (c : Client)
    (notificationName title text : string) (options : NotifyOptions)
    (notificationID : string) :
  ClientIconMode c <> IconModeBinary ->
  snd (Notify_packet c notificationName title text options notificationID)
  = [].
Proof.
  intros Hmode. apply Z.eqb_neq in Hmode. unfold Notify_packet.
  rewrite Hmode. now destruct (OptIcon options).
Qed.

(** The scenario of the specification: one type [alert], displayed as
    [Alert], enabled, without icon. *)
Example Register_packet_alert :
  fst (Register_packet (NewClient "My App")
         [mkNotificationType "alert" "Alert" true None])
  = [ "GNTP/1.0 REGISTER NONE" +:+ CRLF;
      "Application-Name: My App" +:+ CRLF;
      "Notifications-Count: 1" +:+ CRLF;
      CRLF;
      "Notification-Name: alert" +:+ CRLF;
      "Notification-Display-Name: Alert" +:+ CRLF;
      "Notification-Enabled: True" +:+ CRLF;
      CRLF ].
Proof. vm_compute. reflexivity. Qed.

(** ** SendMessage *)


(** A message whose icon cannot be read is not sent, and nothing is
    registered: the error is returned before any network I/O. *)
Lemma SendMessage_icon_error (md5hex Ext ToLower : string -> string)
    (c : Client) (msg : Message) (w : World) (e : net_error) :
  MsgIcon msg <> EmptyString ->
  files w (MsgIcon msg) = inl e ->
  SendMessage md5hex Ext ToLower c msg w
  = (Some (ErrLoadIcon (ErrReadFile e)), c, w).
Proof.
  intros Hne He. unfold SendMessage, LoadResource.
  rewrite (eqb_empty_false _ Hne), He. reflexivity.
Qed.

Lemma count_name_line_binary_section (name : string) (mode : IconMode)
    (resources : list Resource) :
  count_line ("Notification-Name: " +:+ name +:+ CRLF)
    (binary_section mode resources) = 0.
Proof.
  unfold binary_section. destruct (mode =? IconModeBinary)%Z; [|reflexivity].
  induction resources as [|res resources IH]; [reflexivity |].
  cbn [flat_map]. rewrite count_line_app, IH. reflexivity.
Qed.

(** ** Data URLs: line wrapping *)

Lemma string_drop_nil (n : nat) : string_drop n EmptyString = EmptyString.
Proof. now destruct n. Qed.

Lemma substring_take_drop (i m : nat) (s : string) :
  substring i m s = string_take m (string_drop i s).
Proof.
  revert s; induction i as [|i IH]; intros s.
  - cbn [string_drop]. revert s; induction m as [|m IHm]; intros [|c s];
      cbn; try reflexivity. now rewrite IHm.
  - destruct s as [|c s]; [now destruct m | apply IH].
Qed.

Lemma string_take_add (a b : nat) (s : string) :
  string_take (a + b) s = string_take a s +:+ string_take b (string_drop a s).
Proof.
  revert s; induction a as [|a IH]; intros s; [reflexivity |].
  destruct s as [|c s]; [destruct b; reflexivity |].
  cbn [Nat.add string_take string_drop]. now rewrite IH, append_cons.
Qed.

Lemma string_drop_add (a b : nat) (s : string) :
  string_drop (a + b) s = string_drop b (string_drop a s).
Proof.
  revert s; induction a as [|a IH]; intros s; [reflexivity |].
  destruct s as [|c s]; [now rewrite !string_drop_nil | apply IH].
Qed.

Lemma length_string_drop (n : nat) (s : string) :
  String.length (string_drop n s) = String.length s - n.
Proof.
  revert s; induction n as [|n IH]; intros s; [cbn; lia |].
  destruct s as [|c s]; [reflexivity | apply IH].
Qed.

Lemma length_string_take (n : nat) (s : string) :
  String.length (string_take n s) <= n.
Proof.
  revert s; induction n as [|n IH]; intros [|c s]; cbn; try lia.
  specialize (IH s). lia.
Qed.

Lemma string_take_all (n : nat) (s : string) :
  String.length s <= n -> string_take n s = s.
Proof.
  revert s; induction n as [|n IH]; intros [|c s]; cbn; intros H;
    try reflexivity; try lia.
  rewrite IH by lia. reflexivity.
Qed.

(** Line [j] of the wrapped text exists exactly when [76 j] is an index. *)
Lemma line_index (n j : nat) : j < (n + 75) / 76 <-> 76 * j < n.
Proof.
  pose proof (Nat.div_mod_eq (n + 75) 76).
  pose proof (Nat.mod_upper_bound (n + 75) 76).
  lia.
Qed.

Lemma concat_CRLF_cons (x y : string) (l : list string) :
  String.concat CRLF (x :: y :: l) = x +:+ CRLF +:+ String.concat CRLF (y :: l).
Proof. reflexivity. Qed.

(** The loop of [toDataURL], started at line [j] with enough fuel for the
    lines that remain, appends these lines joined by CRLF. *)
Lemma toDataURL_loop_lines (encoded : string) (fuel j : nat)
    (formatted : string) :
  (String.length encoded + 75) / 76 - j <= fuel ->
  toDataURL_loop fuel encoded (76 * j) formatted
  = formatted
    +:+ String.concat CRLF
          (map (fun j => substring (76 * j) 76 encoded)
             (seq j ((String.length encoded + 75) / 76 - j))).
Proof.
  set (n := String.length encoded). set (N := (n + 75) / 76).
  revert j formatted; induction fuel as [|fuel IH]; intros j formatted Hfuel.
  - replace (N - j) with 0 by lia. cbn. now rewrite append_nil_r.
  - cbn [toDataURL_loop]. fold n.
    pose proof (line_index n j) as Hj. fold N in Hj.
    pose proof (line_index n (S j)) as HSj. fold N in HSj.
    destruct (Nat.ltb_spec (76 * j) n) as [Hlt | Hge].
    + replace (N - j) with (S (N - S j)) by lia.
      cbn [seq map].
      replace (76 * j + 76) with (76 * S j) by lia.
      assert (Hpiece :
        substring (76 * j)
          ((if n <? 76 * S j then n else 76 * S j) - 76 * j) encoded
        = substring (76 * j) 76 encoded).
      { rewrite !substring_take_drop.
        destruct (Nat.ltb_spec n (76 * S j)); [| f_equal; lia].
        rewrite !string_take_all; [reflexivity | |];
          rewrite length_string_drop; fold n; lia. }
      rewrite Hpiece, IH by lia.
      destruct (Nat.ltb_spec n (76 * S j)) as [Hlast | Hmore].
      * rewrite (proj2 (Nat.ltb_ge n n)) by lia.
        replace (N - S j) with 0 by lia. cbn [seq map String.concat].
        now rewrite append_nil_r.
      * destruct (Nat.ltb_spec (76 * S j) n) as [Hnext | Hend].
        -- replace (N - S j) with (S (N - S (S j))) by lia.
           cbn [seq map]. rewrite concat_CRLF_cons.
           now rewrite !append_assoc.
        -- replace (N - S j) with 0 by lia. cbn [seq map String.concat].
           now rewrite append_nil_r.
    + replace (N - j) with 0 by lia. cbn. now rewrite append_nil_r.
Qed.

(** The lines, put end to end, are the text. *)
Lemma concat_lines (encoded : string) (j k : nat) :
  String.concat EmptyString
    (map (fun j => substring (76 * j) 76 encoded) (seq j k))
  = string_take (76 * k) (string_drop (76 * j) encoded).
Proof.
  revert j; induction k as [|k IH]; intros j; [reflexivity |].
  cbn [seq map]. rewrite concat_empty_cons, IH, substring_take_drop.
  replace (76 * S k) with (76 + 76 * k) by lia.
  rewrite string_take_add, <- string_drop_add.
  do 3 f_equal. lia.
Qed.

Lemma concat_lines76 (s : string) : String.concat EmptyString (lines76 s) = s.
Proof.
  unfold lines76. rewrite concat_lines. cbn [Nat.mul string_drop].
  apply string_take_all.
  pose proof (Nat.div_mod_eq (String.length s + 75) 76).
  pose proof (Nat.mod_upper_bound (String.length s + 75) 76).
  lia.
Qed.

Lemma lines76_length (s : string) :
  Forall (fun l => String.length l <= 76) (lines76 s).
Proof.
  unfold lines76. apply Forall_forall. intros l Hin.
  apply list_elem_of_In, in_map_iff in Hin as (j & <- & _).
  rewrite substring_take_drop. apply length_string_take.
Qed.

(** ** Data URLs: the base64 round trip *)

Lemma lor_add (a b n : Z) :
  (0 <= n)%Z -> (0 <= b < 2 ^ n)%Z -> (a mod 2 ^ n = 0)%Z ->
  Z.lor a b = (a + b)%Z.
Proof.
  intros Hn Hb Ha.
  rewrite <- Z.lxor_lor, <- Z.add_nocarry_lxor; try reflexivity.
  all: apply Z.bits_inj'; intros i Hi; rewrite Z.land_spec, Z.bits_0.
  all: destruct (Z.lt_ge_cases i n) as [Hlt | Hge].
  all: try (rewrite (Z.div_mod a (2 ^ n)) by lia;
            rewrite Ha, Z.add_0_r, Z.mul_comm, Z.mul_pow2_bits_low by lia;
            reflexivity).
  all: rewrite <- (Z.mod_small b (2 ^ n)) by lia;
       rewrite Z.mod_pow2_bits_high by lia; apply andb_false_r.
Qed.

Lemma byteZ_range (b : byte) : (0 <= byteZ b < 256)%Z.
Proof. unfold byteZ. pose proof (Byte.to_N_bounded b). lia. Qed.

Lemma byte_of_byteZ (b : byte) : byte_of_Z (byteZ b) = b.
Proof. unfold byte_of_Z, byteZ. now rewrite N2Z.id, Byte.of_to_N. Qed.

Lemma sextet_range (z : Z) : (0 <= Z.land z 63 < 64)%Z.
Proof. to_arith. solve_div_mod. Qed.

(** The 24-bit value the encoder forms from one, two or three bytes. *)
Lemma pack1 (x0 : Z) : Z.shiftl x0 16 = (x0 * 65536)%Z.
Proof. now to_arith. Qed.

Lemma pack2 (x0 x1 : Z) :
  (0 <= x1 < 256)%Z ->
  Z.lor (Z.shiftl x0 16) (Z.shiftl x1 8) = (x0 * 65536 + x1 * 256)%Z.
Proof.
  intros H1. to_arith.
  apply (lor_add _ _ 16); [lia | solve_div_mod | solve_div_mod].
Qed.

Lemma pack3 (x0 x1 x2 : Z) :
  (0 <= x1 < 256)%Z -> (0 <= x2 < 256)%Z ->
  Z.lor (Z.lor (Z.shiftl x0 16) (Z.shiftl x1 8)) x2
  = (x0 * 65536 + x1 * 256 + x2)%Z.
Proof.
  intros H1 H2. rewrite pack2 by assumption.
  apply (lor_add _ _ 8); [lia | solve_div_mod | solve_div_mod].
Qed.

(** The sextets of a 24-bit value give the value back. *)
Lemma unpack2 (val : Z) :
  (0 <= val < 16777216)%Z -> (val mod 4096 = 0)%Z ->
  Z.lor (Z.shiftl (Z.land (Z.shiftr val 18) 63) 18)
    (Z.shiftl (Z.land (Z.shiftr val 12) 63) 12)
  = val.
Proof.
  intros Hval Hlow. to_arith.
  rewrite (lor_add _ _ 18); [| lia | solve_div_mod | solve_div_mod].
  solve_div_mod.
Qed.

Lemma unpack3 (val : Z) :
  (0 <= val < 16777216)%Z -> (val mod 64 = 0)%Z ->
  Z.lor
    (Z.lor (Z.shiftl (Z.land (Z.shiftr val 18) 63) 18)
       (Z.shiftl (Z.land (Z.shiftr val 12) 63) 12))
    (Z.shiftl (Z.land (Z.shiftr val 6) 63) 6)
  = val.
Proof.
  intros Hval Hlow. to_arith.
  rewrite (lor_add (val / 262144 mod 64 * 262144) _ 18);
    [| lia | solve_div_mod | solve_div_mod].
  rewrite (lor_add _ _ 12); [| lia | solve_div_mod | solve_div_mod].
  solve_div_mod.
Qed.

Lemma unpack4 (val : Z) :
  (0 <= val < 16777216)%Z ->
  Z.lor
    (Z.lor
       (Z.lor (Z.shiftl (Z.land (Z.shiftr val 18) 63) 18)
          (Z.shiftl (Z.land (Z.shiftr val 12) 63) 12))
       (Z.shiftl (Z.land (Z.shiftr val 6) 63) 6))
    (Z.land val 63)
  = val.
Proof.
  intros Hval. to_arith.
  rewrite (lor_add (val / 262144 mod 64 * 262144) _ 18);
    [| lia | solve_div_mod | solve_div_mod].
  rewrite (lor_add _ (val / 64 mod 64 * 64) 12);
    [| lia | solve_div_mod | solve_div_mod].
  rewrite (lor_add _ _ 6); [| lia | solve_div_mod | solve_div_mod].
  solve_div_mod.
Qed.

(** The bytes of a packed value. *)
Lemma group_bytes_pack (b0 b1 b2 : byte) :
  group_bytes (byteZ b0 * 65536 + byteZ b1 * 256 + byteZ b2) = [b0; b1; b2].
Proof.
  pose proof (byteZ_range b0). pose proof (byteZ_range b1).
  pose proof (byteZ_range b2).
  unfold group_bytes. to_arith.
  replace ((byteZ b0 * 65536 + byteZ b1 * 256 + byteZ b2) / 65536 mod 256)%Z
    with (byteZ b0) by solve_div_mod.
  replace ((byteZ b0 * 65536 + byteZ b1 * 256 + byteZ b2) / 256 mod 256)%Z
    with (byteZ b1) by solve_div_mod.
  replace ((byteZ b0 * 65536 + byteZ b1 * 256 + byteZ b2) mod 256)%Z
    with (byteZ b2) by solve_div_mod.
  now rewrite !byte_of_byteZ.
Qed.

(** Every sextet is encoded as a character of the alphabet, which decodes to
    the sextet and is not the padding character. *)
Lemma decode_encode_at (v : Z) :
  (0 <= v < 64)%Z ->
  decode_at (encode_at v) = Some v
  /\ Ascii.eqb (encode_at v) padChar = false.
Proof.
  intros Hv. rewrite <- (Z2Nat.id v) by lia.
  assert (Hn : Z.to_nat v < 64) by lia.
  generalize dependent (Z.to_nat v). clear v Hv. intros n Hn.
  do 64 (destruct n as [|n]; [vm_compute; split; reflexivity |]).
  lia.
Qed.

Lemma encode_at_CR_free (v : Z) : Ascii.eqb (encode_at v) CR = false.
Proof.
  unfold encode_at. generalize (Z.to_nat v) as n. intros n.
  do 64 (destruct n as [|n]; [reflexivity |]).
  reflexivity.
Qed.

Lemma list_ind3 {A : Type} (P : list A -> Prop) :
  P [] -> (forall a, P [a]) -> (forall a b, P [a; b]) ->
  (forall a b c l, P l -> P (a :: b :: c :: l)) ->
  forall l, P l.
Proof.
  intros H0 H1 H2 H3 l.
  assert (H : P l /\ (forall a, P (a :: l)) /\ (forall a b, P (a :: b :: l))).
  { induction l as [|x l (IH0 & IH1 & IH2)]; [now auto |].
    repeat split; [apply IH1 | intros a; apply IH2 |].
    intros a b. now apply H3. }
  apply H.
Qed.

Lemma DecodeString_group (c0 c1 c2 c3 : ascii) (rest : string)
    (v0 v1 v2 v3 : Z) (tl : list byte) :
  decode_at c0 = Some v0 -> decode_at c1 = Some v1 ->
  decode_at c2 = Some v2 -> decode_at c3 = Some v3 ->
  Ascii.eqb c3 padChar = false ->
  DecodeString rest = Some tl ->
  DecodeString (String c0 (String c1 (String c2 (String c3 rest))))
  = Some
      (group_bytes
         (Z.lor
            (Z.lor (Z.lor (Z.shiftl v0 18) (Z.shiftl v1 12)) (Z.shiftl v2 6))
            v3)
       ++ tl).
Proof.
  intros H0 H1 H2 H3 Hpad Hrest. cbn [DecodeString].
  now rewrite H0, H1, H2, H3, Hpad, Hrest.
Qed.

Lemma DecodeString_pad1 (c0 c1 c2 : ascii) (v0 v1 v2 : Z) :
  decode_at c0 = Some v0 -> decode_at c1 = Some v1 ->
  decode_at c2 = Some v2 -> Ascii.eqb c2 padChar = false ->
  DecodeString
    (String c0 (String c1 (String c2 (String padChar EmptyString))))
  = Some
      (take 2
         (group_bytes
            (Z.lor (Z.lor (Z.shiftl v0 18) (Z.shiftl v1 12))
               (Z.shiftl v2 6)))).
Proof.
  intros H0 H1 H2 Hpad. cbn [DecodeString].
  now rewrite H0, H1, H2, Hpad, Ascii.eqb_refl.
Qed.

Lemma DecodeString_pad2 (c0 c1 : ascii) (v0 v1 : Z) :
  decode_at c0 = Some v0 -> decode_at c1 = Some v1 ->
  DecodeString
    (String c0 (String c1 (String padChar (String padChar EmptyString))))
  = Some (take 1 (group_bytes (Z.lor (Z.shiftl v0 18) (Z.shiftl v1 12)))).
Proof.
  intros H0 H1. cbn [DecodeString].
  now rewrite H0, H1, Ascii.eqb_refl.
Qed.

(** Decoding what the encoder produced gives the bytes back. *)
Lemma DecodeString_EncodeToString (src : list byte) :
  DecodeString (EncodeToString src) = Some src.
Proof.
  induction src as [| b0 | b0 b1 | b0 b1 b2 rest IH] using list_ind3.
  - reflexivity.
  - pose proof (byteZ_range b0) as R0.
    cbn [EncodeToString]. cbv zeta. rewrite pack1.
    set (val := (byteZ b0 * 65536)%Z).
    rewrite (DecodeString_pad2 _ _ _ _
               (proj1 (decode_encode_at _ (sextet_range _)))
               (proj1 (decode_encode_at _ (sextet_range _)))).
    rewrite unpack2 by (unfold val; solve_div_mod).
    replace val with (byteZ b0 * 65536 + byteZ x00 * 256 + byteZ x00)%Z
      by (unfold val; reflexivity || (cbn; lia)).
    now rewrite group_bytes_pack.
  - pose proof (byteZ_range b0) as R0. pose proof (byteZ_range b1) as R1.
    cbn [EncodeToString]. cbv zeta. rewrite pack2 by assumption.
    set (val := (byteZ b0 * 65536 + byteZ b1 * 256)%Z).
    rewrite (DecodeString_pad1 _ _ _ _ _ _
               (proj1 (decode_encode_at _ (sextet_range _)))
               (proj1 (decode_encode_at _ (sextet_range _)))
               (proj1 (decode_encode_at _ (sextet_range _)))
               (proj2 (decode_encode_at _ (sextet_range _)))).
    rewrite unpack3 by (unfold val; solve_div_mod).
    replace val with (byteZ b0 * 65536 + byteZ b1 * 256 + byteZ x00)%Z
      by (unfold val; cbn; lia).
    now rewrite group_bytes_pack.
  - pose proof (byteZ_range b0) as R0. pose proof (byteZ_range b1) as R1.
    pose proof (byteZ_range b2) as R2.
    cbn [EncodeToString]. cbv zeta. rewrite pack3 by assumption.
    set (val := (byteZ b0 * 65536 + byteZ b1 * 256 + byteZ b2)%Z).
    rewrite (DecodeString_group _ _ _ _ _ _ _ _ _ _
               (proj1 (decode_encode_at _ (sextet_range _)))
               (proj1 (decode_encode_at _ (sextet_range _)))
               (proj1 (decode_encode_at _ (sextet_range _)))
               (proj1 (decode_encode_at _ (sextet_range _)))
               (proj2 (decode_encode_at _ (sextet_range _)))
               IH).
    rewrite unpack4 by (unfold val; lia).
    unfold val. now rewrite group_bytes_pack.
Qed.

Lemma EncodeToString_CR_free (src : list byte) :
  CR_free (EncodeToString src) = true.
Proof.
  induction src as [| b0 | b0 b1 | b0 b1 b2 rest IH] using list_ind3;
    cbn [EncodeToString]; cbv zeta; cbn [CR_free];
    rewrite ?encode_at_CR_free, ?IH; reflexivity.
Qed.

Lemma CR_free_take (n : nat) (s : string) :
  CR_free s = true -> CR_free (string_take n s) = true.
Proof.
  revert s; induction n as [|n IH]; intros [|c s]; cbn; try reflexivity.
  intros H. apply andb_true_iff in H as [-> H]. now rewrite IH.
Qed.

Lemma CR_free_drop (n : nat) (s : string) :
  CR_free s = true -> CR_free (string_drop n s) = true.
Proof.
  revert s; induction n as [|n IH]; intros [|c s]; cbn; try reflexivity;
    try (intros H; exact H).
  intros H. apply andb_true_iff in H as [_ H]. now apply IH.
Qed.

Lemma strip_CRLF_cons (c : ascii) (s : string) :
  Ascii.eqb c CR = false ->
  strip_CRLF (String c s) = String c (strip_CRLF s).
Proof. intros H. cbn [strip_CRLF]. rewrite H. now destruct s. Qed.

Lemma strip_CRLF_line (l rest : string) :
  CR_free l = true ->
  strip_CRLF (l +:+ CRLF +:+ rest) = l +:+ strip_CRLF rest.
Proof.
  induction l as [|c l IH]; intros H.
  - reflexivity.
  - cbn [CR_free] in H. apply andb_true_iff in H as [Hc H].
    apply negb_true_iff in Hc.
    rewrite !append_cons, strip_CRLF_cons by assumption. now rewrite IH.
Qed.

Lemma strip_CRLF_CR_free (l : string) :
  CR_free l = true -> strip_CRLF l = l.
Proof.
  intros H. rewrite <- (append_nil_r l) at 1.
  induction l as [|c l IH]; [reflexivity |].
  cbn [CR_free] in H. apply andb_true_iff in H as [Hc H].
  apply negb_true_iff in Hc.
  rewrite append_cons, strip_CRLF_cons by assumption. now rewrite IH.
Qed.

(** Lines without carriage return, joined by CRLF and stripped of the line
    terminators, are the lines put end to end. *)
Lemma strip_CRLF_concat (lines : list string) :
  Forall (fun l => CR_free l = true) lines ->
  strip_CRLF (String.concat CRLF lines) = String.concat EmptyString lines.
Proof.
  intros H; induction H as [|x lines Hx Hlines IH]; [reflexivity |].
  destruct lines as [|y lines].
  - cbn [String.concat]. now apply strip_CRLF_CR_free.
  - rewrite concat_CRLF_cons, concat_empty_cons, strip_CRLF_line, IH
      by assumption.
    reflexivity.
Qed.

(** C3: the data URL of a resource, which is its reference in the DataURL and
    Auto modes, is [data:], its MIME type, [;base64,] and a payload: the
    base64 text of the resource's bytes cut into lines of at most 76
    characters joined by CRLF.  The lines put end to end are the base64 text,
    and the payload with its line terminators removed decodes to the
    resource's bytes. *)
Theorem toDataURL_round_trip (r : Resource) :
  let encoded := EncodeToString (Data r) in
  let payload := String.concat CRLF (lines76 encoded) in
  toDataURL r = "data:" +:+ MimeType r +:+ ";base64," +:+ payload
  /\ getReference r IconModeDataURL = toDataURL r
  /\ getReference r IconModeAuto = toDataURL r
  /\ Forall (fun l => String.length l <= 76) (lines76 encoded)
  /\ String.concat EmptyString (lines76 encoded) = encoded
  /\ DecodeString (strip_CRLF payload) = Some (Data r).
Proof.
  cbv zeta. repeat split.
  - unfold toDataURL. cbv zeta.
    pose proof (toDataURL_loop_lines (EncodeToString (Data r))
                  (String.length (EncodeToString (Data r))) 0 EmptyString)
      as H.
    rewrite Nat.mul_0_r, Nat.sub_0_r in H.
    rewrite H; [reflexivity |].
    pose proof (Nat.div_mod_eq (String.length (EncodeToString (Data r)) + 75)
                  76).
    pose proof (Nat.mod_upper_bound
                  (String.length (EncodeToString (Data r)) + 75) 76).
    lia.
  - apply lines76_length.
  - apply concat_lines76.
  - rewrite strip_CRLF_concat, concat_lines76.
    + apply DecodeString_EncodeToString.
    + unfold lines76. apply Forall_forall. intros l Hin.
      apply list_elem_of_In, in_map_iff in Hin as (j & <- & _).
      rewrite substring_take_drop.
      apply CR_free_take, CR_free_drop, EncodeToString_CR_free.
Qed.

(** ** Instances on sample inputs *)

(** C1 on a fresh client: the usage error, and the world untouched. *)
Lemma Notify_before_Register_witness :
  registered (NewClient "Sample") = false
  /\ NotifyWithOptions sample_md5hex (NewClient "Sample") "alert" "Hello"
       "Test notification" NewNotifyOptions sample_world
     = (Some ErrNotRegistered, sample_world).
Proof.
  split; [reflexivity |].
  apply (Notify_before_Register sample_md5hex (NewClient "Sample") "alert"
           "Hello" "Test notification" NewNotifyOptions sample_world).
  reflexivity.
Defined.

(** C4 on a daemon that answers [-ERROR]: the server error carries the three
    lines read. *)
Lemma response_validation_witness :
  dial_result (network error_world (dials error_world)) = None
  /\ fst (sendPacket (NewClient "Sample") "GNTP/1.0 NOTIFY NONE" error_world)
     = inl
         (ErrServer
            (("GNTP/1.0 -ERROR Invalid" +:+ CRLF)
             +:+ ("Error-Code: 300" +:+ CRLF) +:+ CRLF)).
Proof.
  split; [reflexivity |].
  refine (proj1
            (proj1
               (response_validation (NewClient "Sample")
                  "GNTP/1.0 NOTIFY NONE" [] error_world
                  (("GNTP/1.0 -ERROR Invalid" +:+ CRLF)
                   +:+ ("Error-Code: 300" +:+ CRLF) +:+ CRLF)
                  eq_refl _ _)
               eq_refl)).
  - constructor.
  - left.
    exists ["GNTP/1.0 -ERROR Invalid" +:+ CRLF; "Error-Code: 300" +:+ CRLF],
      CRLF, [].
    repeat split. repeat constructor.
Defined.

(** C6 on a Binary-mode send with one resource. *)
Lemma wire_writes_witness :
  dial_result (network sample_world (dials sample_world)) = None
  /\ written
       (new_events sample_world
          (snd (sendPacketWithResources sample_binary_client
                  (builder_string ["GNTP/1.0 NOTIFY NONE" +:+ CRLF; CRLF])
                  [sample_icon] sample_world)))
     = [ list_byte_of_string
           (builder_string ["GNTP/1.0 NOTIFY NONE" +:+ CRLF; CRLF]);
         Data sample_icon;
         list_byte_of_string CRLF;
         list_byte_of_string CRLF ].
Proof.
  split; [reflexivity |].
  refine (proj1 (proj2
            (wire_writes sample_binary_client
               ["GNTP/1.0 NOTIFY NONE" +:+ CRLF; CRLF] [sample_icon]
               sample_world eq_refl _))).
  constructor.
Defined.

(** C6 as stated fails in Binary mode without icons: the raw-resource list
    is empty, and the packet is still followed by a line terminator. *)
Lemma empty_resource_list_extra_terminator :
  snd (Register_packet sample_binary_client [NewNotificationType "alert"])
  = []
  /\ written
       (new_events sample_world
          (snd (Register sample_binary_client [NewNotificationType "alert"]
                  sample_world)))
     = [ list_byte_of_string
           (builder_string
              (fst (Register_packet sample_binary_client
                      [NewNotificationType "alert"])));
         list_byte_of_string CRLF ].
Proof. split; vm_compute; reflexivity. Qed.

(** On the sample network an unregistered client sends a REGISTER packet for
    the event and then the NOTIFY packet; a registered one only the NOTIFY
    packet. *)
Example SendMessage_sample_packets :
  written
    (trace
       (snd (SendMessage sample_md5hex same_string same_string
               (NewClient "Message Example") sample_message sample_world)))
  = map (fun writes => list_byte_of_string (builder_string writes))
      [ fst (Register_packet (NewClient "Message Example")
               [mkNotificationType "alert" "alert" true None]);
        fst (Notify_packet (NewClient "Message Example") "alert"
               "Simple Message" "Using Message struct"
               (mkNotifyOptions false 2%Z None EmptyString
                  "https://github.com/cumulus13/go-gntp")
               "d41d8cd98f00b204e9800998ecf8427e") ]
  /\ written
       (trace
          (snd (SendMessage sample_md5hex same_string same_string
                  registered_client sample_message sample_world)))
     = map (fun writes => list_byte_of_string (builder_string writes))
         [ fst (Notify_packet registered_client "alert" "Simple Message"
                  "Using Message struct"
                  (mkNotifyOptions false 2%Z None EmptyString
                     "https://github.com/cumulus13/go-gntp")
                  "d41d8cd98f00b204e9800998ecf8427e") ].
Proof. split; vm_compute; reflexivity. Qed.

(** * Further properties *)

(** ** Transport session: what one send does on the network *)

Lemma read_response_reads (lines : list string) (e : net_error)
    (response : string) :
  Forall (fun ev => is_read ev = true)
    (snd (read_response lines e response)).
Proof.
  revert response; induction lines as [|line lines IH]; intros response.
  - cbn. destruct e as [|text]; [repeat constructor |].
    destruct (Contains text "connection"); repeat constructor.
  - cbn. destruct (TrimSpace_is_empty line); [repeat constructor |].
    specialize (IH (response +:+ line)).
    destruct (read_response lines e (response +:+ line)) as [r evs].
    constructor; [reflexivity | exact IH].
Qed.

Lemma written_reads (evs : list NetEvent) :
  Forall (fun ev => is_read ev = true) evs -> written evs = [].
Proof.
  intros H; induction H as [|ev evs Hev _ IH]; [reflexivity |].
  destruct ev as [| data [err|] | | |]; cbn in *; try discriminate; exact IH.
Qed.

Lemma finish_read_events (conn : Conn) (w : World) :
  exists rs,
    trace (snd (finish_read conn w)) = trace w ++ rs ++ [EvClose]
    /\ Forall (fun ev => is_read ev = true) rs
    /\ dials (snd (finish_read conn w)) = dials w.
Proof.
  unfold finish_read.
  pose proof (read_response_reads (read_lines conn) (read_end conn)
                EmptyString) as H.
  destruct (read_response (read_lines conn) (read_end conn) EmptyString)
    as [r evs].
  cbn [snd] in H. exists evs.
  destruct r; cbn [snd trace log dials]; auto.
Qed.

(** The resource loop writes an initial part of the resources, each followed
    by a line terminator, and all of them unless a write fails. *)
Lemma send_resources_events (conn : Conn) (resources : list Resource)
    (k : nat) :
  Forall (fun ev => is_write ev = true)
    (snd (fst (send_resources conn resources k)))
  /\ exists rest,
       flat_map (fun res => [Data res; list_byte_of_string CRLF]) resources
       = written (snd (fst (send_resources conn resources k))) ++ rest
       /\ (fst (fst (send_resources conn resources k)) = None -> rest = []).
Proof.
  revert k; induction resources as [|res resources IH]; intros k.
  - cbn. split; [constructor |]. exists []. auto.
  - cbn [send_resources flat_map app].
    destruct (write_result conn k) as [err|].
    { cbn. split; [repeat constructor |].
      eexists. split; [reflexivity | discriminate]. }
    destruct (write_result conn (S k)) as [err|].
    { cbn. split; [repeat constructor |].
      eexists. split; [reflexivity | discriminate]. }
    specialize (IH (S (S k))) as (Hw & rest & Hplan & Hdone).
    destruct (send_resources conn resources (S (S k))) as [[r evs] k'].
    cbn [fst snd] in *. split; [repeat constructor; exact Hw |].
    exists rest. cbn [written]. rewrite Hplan. auto.
Qed.

Lemma sendPacket_shape (c : Client) (packet : string) (w : World) :
  dials (snd (sendPacket c packet w)) = S (dials w)
  /\ send_shape [list_byte_of_string packet] (address_of c)
       (dial_result (network w (dials w)))
       (fst (sendPacket c packet w))
       (new_events w (snd (sendPacket c packet w))).
Proof.
  unfold sendPacket, send_shape.
  destruct (dial_result (network w (dials w))) as [err|].
  { split; [reflexivity |]. exists [], []. cbn [fst snd].
    rewrite (new_events_app _ _ [EvDial (address_of c) (Some err)])
      by reflexivity.
    repeat split; try constructor.
    eexists. split; [reflexivity |]. intros [? [=]]. }
  destruct (write_result (network w (dials w)) 0) as [err|].
  { split; [reflexivity |]. cbn [fst snd].
    exists [EvWrite (list_byte_of_string packet) (Some err)], [].
    rewrite (new_events_app _ _
               [EvDial (address_of c) None;
                EvWrite (list_byte_of_string packet) (Some err); EvClose])
      by (rewrite !trace_log; cbn [trace next_dial];
          now rewrite <- app_assoc).
    repeat split; try (repeat constructor); try congruence.
    eexists. split; [reflexivity |]. intros [? [=]]. }
  set (w1 := log [EvWrite (list_byte_of_string packet) None]
               (log [EvDial (address_of c) None] (next_dial w))).
  destruct (finish_read_events (network w (dials w)) w1)
    as (rs & Ht & Hrs & Hd).
  split; [rewrite Hd; reflexivity |].
  exists [EvWrite (list_byte_of_string packet) None], rs.
  rewrite (new_events_app _ _
             (EvDial (address_of c) None
              :: [EvWrite (list_byte_of_string packet) None] ++ rs
                 ++ [EvClose])).
  - repeat split; try (repeat constructor); try congruence; try assumption.
    exists []. split; [reflexivity | reflexivity].
  - rewrite Ht. unfold w1. rewrite !trace_log. cbn [trace next_dial].
    rewrite <- !app_assoc. reflexivity.
Qed.

Lemma sendPacketWithResources_shape (c : Client) (packet : string)
    (resources : list Resource) (w : World) :
  dials (snd (sendPacketWithResources c packet resources w)) = S (dials w)
  /\ send_shape
       (list_byte_of_string packet
        :: flat_map (fun res => [Data res; list_byte_of_string CRLF]) resources
        ++ [list_byte_of_string CRLF])
       (address_of c)
       (dial_result (network w (dials w)))
       (fst (sendPacketWithResources c packet resources w))
       (new_events w (snd (sendPacketWithResources c packet resources w))).
Proof.
  unfold sendPacketWithResources, send_shape.
  destruct (dial_result (network w (dials w))) as [err|].
  { split; [reflexivity |]. exists [], []. cbn [fst snd].
    rewrite (new_events_app _ _ [EvDial (address_of c) (Some err)])
      by reflexivity.
    repeat split; try constructor.
    eexists. split; [reflexivity |]. intros [? [=]]. }
  destruct (write_result (network w (dials w)) 0) as [err|].
  { split; [reflexivity |]. cbn [fst snd].
    exists [EvWrite (list_byte_of_string packet) (Some err)], [].
    rewrite (new_events_app _ _
               [EvDial (address_of c) None;
                EvWrite (list_byte_of_string packet) (Some err); EvClose])
      by (rewrite !trace_log; cbn [trace next_dial];
          now rewrite <- app_assoc).
    repeat split; try (repeat constructor); try congruence.
    eexists. split; [reflexivity |]. intros [? [=]]. }
  destruct (send_resources_events (network w (dials w)) resources 1)
    as (Hws & rest & Hplan & Hdone).
  destruct (send_resources (network w (dials w)) resources 1)
    as [[r evs] k].
  cbn [fst snd] in Hws, Hplan, Hdone.
  set (w1 := log evs
               (log [EvWrite (list_byte_of_string packet) None]
                  (log [EvDial (address_of c) None] (next_dial w)))).
  assert (Hw1 : trace w1
                = trace w
                  ++ EvDial (address_of c) None
                     :: EvWrite (list_byte_of_string packet) None :: evs).
  { unfold w1. rewrite !trace_log. cbn [trace next_dial].
    now rewrite <- !app_assoc. }
  destruct r as [err|].
  { split; [reflexivity |]. cbn [fst snd].
    exists (EvWrite (list_byte_of_string packet) None :: evs), [].
    rewrite (new_events_app _ _
               (EvDial (address_of c) None
                :: (EvWrite (list_byte_of_string packet) None :: evs) ++ []
                   ++ [EvClose]))
      by (rewrite trace_log, Hw1, <- !app_assoc; reflexivity).
    split; [reflexivity |].
    split; [constructor; [reflexivity | assumption] |].
    split; [constructor |].
    split; [congruence |].
    exists (rest ++ [list_byte_of_string CRLF]). cbn [written].
    rewrite Hplan, <- app_assoc. split; [reflexivity |]. intros [? [=]]. }
  specialize (Hdone eq_refl). subst rest. rewrite app_nil_r in Hplan.
  destruct (write_result (network w (dials w)) k) as [err|].
  { split; [reflexivity |]. cbn [fst snd].
    exists (EvWrite (list_byte_of_string packet) None
            :: evs ++ [EvWrite (list_byte_of_string CRLF) (Some err)]), [].
    rewrite (new_events_app _ _
               (EvDial (address_of c) None
                :: (EvWrite (list_byte_of_string packet) None
                    :: evs ++ [EvWrite (list_byte_of_string CRLF) (Some err)])
                   ++ [] ++ [EvClose]))
      by (rewrite trace_log, Hw1, <- !app_assoc; cbn [app];
          now rewrite <- !app_assoc).
    split; [reflexivity |].
    split.
    { constructor; [reflexivity |].
      apply Forall_app; split; [assumption | repeat constructor]. }
    split; [constructor |].
    split; [congruence |].
    exists [list_byte_of_string CRLF]. cbn [written].
    rewrite written_app, Hplan. cbn [written]. rewrite app_nil_r.
    split; [reflexivity |]. intros [? [=]]. }
  set (w2 := log [EvWrite (list_byte_of_string CRLF) None] w1).
  destruct (finish_read_events (network w (dials w)) w2)
    as (rs & Ht & Hrs & Hd).
  split; [rewrite Hd; reflexivity |].
  exists (EvWrite (list_byte_of_string packet) None
          :: evs ++ [EvWrite (list_byte_of_string CRLF) None]), rs.
  rewrite (new_events_app _ _
             (EvDial (address_of c) None
              :: (EvWrite (list_byte_of_string packet) None
                  :: evs ++ [EvWrite (list_byte_of_string CRLF) None])
                 ++ rs ++ [EvClose])).
  - split; [reflexivity |].
    split.
    { constructor; [reflexivity |].
      apply Forall_app; split; [assumption | repeat constructor]. }
    split; [assumption |].
    split; [congruence |].
    exists []. cbn [written]. rewrite written_app, Hplan. cbn [written].
    rewrite app_nil_r. split; reflexivity.
  - rewrite Ht. unfold w2. rewrite trace_log, Hw1, <- !app_assoc.
    cbn [app]. now rewrite <- !app_assoc.
Qed.

(** X1: every send dials exactly one connection, to [Host:Port].  When the
    dial fails nothing else happens on the network.  When it succeeds, the
    writes come first, then the reads, and the connection is closed once, as
    the last event, on every path (success, failed write, failed read,
    server error). *)
Theorem send_connection_lifecycle (c : Client) (writes : list string)
    (resources : list Resource) (w : World) :
  dials (snd (send c writes resources w)) = S (dials w)
  /\ exists ws rs,
       new_events w (snd (send c writes resources w))
       = EvDial (Host c +:+ ":" +:+ fmt_d (Port c))
           (dial_result (network w (dials w)))
         :: ws ++ rs
            ++ match dial_result (network w (dials w)) with
               | Some _ => []
               | None => [EvClose]
               end
       /\ Forall (fun ev => is_write ev = true) ws
       /\ Forall (fun ev => is_read ev = true) rs
       /\ (dial_result (network w (dials w)) <> None -> ws = [] /\ rs = []).
Proof.
  unfold send.
  destruct (ClientIconMode c =? IconModeBinary)%Z.
  - destruct (sendPacketWithResources_shape c (builder_string writes)
                resources w) as (Hd & ws & rs & He & Hw & Hr & Hf & _).
    split; [exact Hd |]. exists ws, rs. auto.
  - destruct (sendPacket_shape c (builder_string writes) w)
      as (Hd & ws & rs & He & Hw & Hr & Hf & _).
    split; [exact Hd |]. exists ws, rs. auto.
Qed.

(** X2: what a send writes is always an initial part of what it has to
    write (the packet; in Binary mode then each resource and a line
    terminator, in list order, and a final line terminator): nothing is
    written out of order or after a failed write.  A send that succeeds has
    written all of it. *)
Theorem send_writes_in_order (c : Client) (writes : list string)
    (resources : list Resource) (w : World) :
  exists rest,
    wire_plan c writes resources
    = written (new_events w (snd (send c writes resources w))) ++ rest
    /\ ((exists response, fst (send c writes resources w) = inr response) ->
        rest = []).
Proof.
  assert (Hshape : forall plan addr d result evs,
             send_shape plan addr d result evs ->
             exists rest,
               plan = written evs ++ rest
               /\ ((exists response, result = inr response) -> rest = [])).
  { intros plan addr d result evs
      (ws & rs & -> & _ & Hr & _ & rest & Hplan & Hdone).
    exists rest. split; [| exact Hdone].
    change (EvDial addr d :: ws ++ rs ++ match d with
                                         | Some _ => []
                                         | None => [EvClose]
                                         end)
      with ([EvDial addr d] ++ ws ++ rs ++ match d with
                                            | Some _ => []
                                            | None => [EvClose]
                                            end).
    rewrite !written_app, (written_reads rs Hr), Hplan.
    destruct d; cbn; now rewrite app_nil_r. }
  unfold send, wire_plan.
  destruct (ClientIconMode c =? IconModeBinary)%Z.
  - exact (Hshape _ _ _ _ _
             (proj2 (sendPacketWithResources_shape c (builder_string writes)
                       resources w))).
  - exact (Hshape _ _ _ _ _
             (proj2 (sendPacket_shape c (builder_string writes) w))).
Qed.

(** ** Transport session: how the response ends *)

Lemma read_response_timeout (lines : list string) (text : string)
    (response : string) :
  Forall (fun l => TrimSpace_is_empty l = false) lines ->
  Contains text "connection" = false ->
  fst (read_response lines (OtherError text) response)
  = ReadFailed (OtherError text).
Proof.
  intros Hlines Htext. revert response.
  induction Hlines as [|line lines Hline _ IH]; intros response.
  - cbn. now rewrite Htext.
  - cbn [read_response]. rewrite Hline.
    specialize (IH (response +:+ line)).
    destruct (read_response lines (OtherError text) (response +:+ line)).
    exact IH.
Qed.

Lemma send_finish_read (c : Client) (writes : list string)
    (resources : list Resource) (w : World) :
  dial_result (network w (dials w)) = None ->
  writes_succeed (network w (dials w)) ->
  exists w1, send c writes resources w = finish_read (network w (dials w)) w1.
Proof.
  intros Hdial Hok. unfold send.
  destruct (ClientIconMode c =? IconModeBinary)%Z.
  - destruct (sendPacketWithResources_ok c (builder_string writes) resources
                w Hdial Hok) as (w1 & -> & _). now exists w1.
  - destruct (sendPacket_ok c (builder_string writes) w Hdial Hok)
      as (w1 & -> & _). now exists w1.
Qed.

(** X3: when the daemon never sends the blank line and the read then fails
    with an error that is neither the end of the stream nor a closed
    connection (a deadline that expires, say), the send fails with the read
    error and the lines already received are dropped, whatever they say;
    [Register] then leaves the client unregistered. *)
Theorem read_failure_discards_response (c : Client) (writes : list string)
    (resources : list Resource)
    (notifications : list NotificationType) (w : World) (text : string) :
  dial_result (network w (dials w)) = None ->
  writes_succeed (network w (dials w)) ->
  Forall (fun l => TrimSpace_is_empty l = false)
    (read_lines (network w (dials w))) ->
  read_end (network w (dials w)) = OtherError text ->
  Contains text "connection" = false ->
  fst (send c writes resources w) = inl (ErrReadResponse (OtherError text))
  /\ fst (Register c notifications w)
     = (Some (ErrReadResponse (OtherError text)), c)
  /\ error_text (ErrReadResponse (OtherError text))
     = "failed to read response: " +:+ text.
Proof.
  intros Hdial Hok Hlines Hend Htext.
  assert (Hsend : forall wr rs,
             fst (send c wr rs w) = inl (ErrReadResponse (OtherError text))).
  { intros wr rs.
    destruct (send_finish_read c wr rs w Hdial Hok) as (w1 & ->).
    unfold finish_read. rewrite Hend.
    pose proof (read_response_timeout _ text EmptyString Hlines Htext) as H.
    destruct (read_response (read_lines (network w (dials w)))
                (OtherError text) EmptyString) as [r evs].
    cbn [fst] in H. now subst r. }
  split; [apply Hsend |]. split; [| reflexivity].
  unfold Register. destruct (Register_packet c notifications) as [wr rs].
  specialize (Hsend wr rs).
  destruct (send c wr rs w) as [[e|s] w']; cbn [fst] in *; congruence.
Qed.

(** X4: a daemon that accepts the request and closes the connection without
    sending a single line is taken to have accepted it: the send succeeds
    with an empty response, [Register] marks the client registered and
    [NotifyWithOptions] reports no error. *)
Theorem silent_close_is_success (md5hex : string -> string) (c : Client)
    (notifications : list NotificationType)
    (notificationName title text : string) (options : NotifyOptions)
    (w : World) :
  dial_result (network w (dials w)) = None ->
  writes_succeed (network w (dials w)) ->
  read_lines (network w (dials w)) = [] ->
  read_end (network w (dials w)) = EOF ->
  fst (Register c notifications w) = (None, set_registered c)
  /\ (registered c = true ->
      fst (NotifyWithOptions md5hex c notificationName title text options w)
      = None).
Proof.
  intros Hdial Hok Hlines Hend.
  assert (Hsend : forall wr rs w0,
             network w0 = network w -> dials w0 = dials w ->
             fst (send c wr rs w0) = inr EmptyString).
  { intros wr rs w0 Hnet Hd.
    destruct (send_finish_read c wr rs w0) as (w1 & ->);
      rewrite ?Hnet, ?Hd; auto.
    unfold finish_read. rewrite Hlines, Hend. reflexivity. }
  split.
  - unfold Register. destruct (Register_packet c notifications) as [wr rs].
    specialize (Hsend wr rs w eq_refl eq_refl).
    destruct (send c wr rs w) as [[e|s] w']; cbn [fst] in *; congruence.
  - intros Hreg. unfold NotifyWithOptions. rewrite Hreg. cbn [negb].
    unfold UnixNano.
    destruct (Notify_packet c notificationName title text options _)
      as [wr rs].
    match goal with
    | |- context [send c wr rs ?w0] =>
        specialize (Hsend wr rs w0 eq_refl eq_refl);
        destruct (send c wr rs w0) as [[e|s] w']
    end; cbn [fst] in *; congruence.
Qed.

Lemma read_response_stops_at_blank (before after : list string)
    (blank : string) (e e' : net_error) (response : string) :
  Forall (fun l => TrimSpace_is_empty l = false) before ->
  TrimSpace_is_empty blank = true ->
  read_response (before ++ blank :: after) e response
  = read_response (before ++ [blank]) e' response.
Proof.
  intros Hbefore Hblank. revert response.
  induction Hbefore as [|line before Hline _ IH]; intros response.
  - cbn. now rewrite Hblank.
  - rewrite <- !app_comm_cons. cbn [read_response]. rewrite Hline.
    now rewrite IH.
Qed.

(** X5: the response ends at the first blank line.  What the daemon sends
    after it, and how the stream ends, is never read: neither the result nor
    the events of the response loop depend on it. *)
Theorem response_ends_at_first_blank_line (before after : list string)
    (blank : string) (dialled : option net_error)
    (results : list (option net_error)) (e e' : net_error) (w : World) :
  Forall (fun l => TrimSpace_is_empty l = false) before ->
  TrimSpace_is_empty blank = true ->
  finish_read (mkConn dialled results (before ++ blank :: after) e) w
  = finish_read (mkConn dialled results (before ++ [blank]) e') w
  /\ fst (finish_read (mkConn dialled results (before ++ blank :: after) e) w)
     = check_response (String.concat EmptyString (before ++ [blank])).
Proof.
  intros Hbefore Hblank.
  unfold finish_read. cbn [read_lines read_end].
  rewrite (read_response_stops_at_blank before after blank e e')
    by assumption.
  split; [reflexivity |].
  pose proof (read_response_blank before [] blank e' EmptyString Hbefore
                Hblank) as H.
  destruct (read_response (before ++ [blank]) e' EmptyString) as [r evs].
  cbn [fst] in H. subst r. reflexivity.
Qed.

(** ** REGISTER packets: the notification catalogue *)

Lemma lines_with_app (start : string) (l1 l2 : list string) :
  lines_with start (l1 ++ l2) = lines_with start l1 ++ lines_with start l2.
Proof. apply List.filter_app. Qed.

Lemma lines_with_binary_section (start : string) (mode : IconMode)
    (resources : list Resource) :
  lines_with (String "N" start) (binary_section mode resources) = [].
Proof.
  unfold binary_section. destruct (mode =? IconModeBinary)%Z; [|reflexivity].
  induction resources as [|res resources IH]; [reflexivity |].
  cbn [flat_map]. rewrite lines_with_app, IH. reflexivity.
Qed.

Lemma name_lines_notifications (c : Client)
    (notifications : list NotificationType) :
  lines_with "Notification-Name: "
    (flat_map (notification_lines c) notifications)
  = map (fun notif => "Notification-Name: " +:+ Name notif +:+ CRLF)
      notifications.
Proof.
  induction notifications as [|notif notifications IH]; [reflexivity |].
  cbn [flat_map map]. rewrite lines_with_app, IH. f_equal.
  unfold notification_lines.
  destruct (String.eqb (DisplayName notif) EmptyString), (Icon notif);
    reflexivity.
Qed.

Lemma count_lines_notifications (c : Client)
    (notifications : list NotificationType) :
  lines_with "Notifications-Count: "
    (flat_map (notification_lines c) notifications) = [].
Proof.
  induction notifications as [|notif notifications IH]; [reflexivity |].
  cbn [flat_map]. rewrite lines_with_app, IH.
  unfold notification_lines.
  destruct (String.eqb (DisplayName notif) EmptyString), (Icon notif);
    reflexivity.
Qed.

(** ** REGISTER packets: which resource stands for an identifier *)

Lemma seen_as_add_resource (st : RegisterState) (known : list string)
    (icon : Resource) :
  seen_as st known ->
  resources (add_resource IconModeBinary icon st)
  = resources st ++ first_of_each known [icon]
  /\ seen_as (add_resource IconModeBinary icon st)
       (if existsb (String.eqb (Identifier icon)) known
        then known else Identifier icon :: known).
Proof.
  intros Hseen. unfold add_resource.
  change (IconModeBinary =? IconModeBinary)%Z with true. cbn [andb].
  rewrite (Hseen (Identifier icon)). cbn [first_of_each].
  destruct (existsb (String.eqb (Identifier icon)) known) eqn:E; cbn [negb].
  - split; [now rewrite app_nil_r | exact Hseen].
  - split; [reflexivity |]. unfold seen_as. cbn [seenIDs]. intros id.
    rewrite seen_insert, Hseen. cbn [existsb].
    destruct (decide (Identifier icon = id)) as [-> | Hne].
    + now rewrite String.eqb_refl.
    + apply String.eqb_neq in Hne. rewrite String.eqb_sym in Hne.
      now rewrite Hne.
Qed.

Lemma first_of_each_app (known : list string) (icon : Resource)
    (rest : list Resource) :
  first_of_each known (icon :: rest)
  = first_of_each known [icon]
    ++ first_of_each
         (if existsb (String.eqb (Identifier icon)) known
          then known else Identifier icon :: known)
         rest.
Proof.
  cbn [first_of_each].
  now destruct (existsb (String.eqb (Identifier icon)) known).
Qed.

Lemma register_notification_resources (c : Client) (st : RegisterState)
    (notif : NotificationType) :
  resources (register_notification c st notif)
  = resources
      match Icon notif with
      | Some icon => add_resource (ClientIconMode c) icon st
      | None => st
      end
  /\ seenIDs (register_notification c st notif)
     = seenIDs
         match Icon notif with
         | Some icon => add_resource (ClientIconMode c) icon st
         | None => st
         end.
Proof.
  unfold register_notification.
  destruct (negb (String.eqb (DisplayName notif) EmptyString)),
    (Icon notif) as [icon|];
    cbn [write_string resources seenIDs];
    unfold add_resource; cbn [write_string resources seenIDs packet];
    try destruct (_ && _); split; reflexivity.
Qed.

Lemma register_notifications_first (c : Client)
    (notifications : list NotificationType) (st : RegisterState)
    (known : list string) :
  ClientIconMode c = IconModeBinary ->
  seen_as st known ->
  resources (fold_left (register_notification c) notifications st)
  = resources st ++ first_of_each known (omap Icon notifications).
Proof.
  intros Hmode. revert st known.
  induction notifications as [|notif notifications IH]; intros st known Hseen.
  - cbn. now rewrite app_nil_r.
  - cbn [fold_left omap list_omap].
    destruct (register_notification_resources c st notif) as [Hres Hids].
    rewrite Hmode in Hres, Hids.
    destruct (Icon notif) as [icon|].
    + destruct (seen_as_add_resource st known icon Hseen) as [Hr Hs].
      rewrite (IH _ (if existsb (String.eqb (Identifier icon)) known
                     then known else Identifier icon :: known)).
      * rewrite Hres, Hr, <- app_assoc. f_equal.
        symmetry. apply first_of_each_app.
      * intros id. unfold seen_as in Hs. now rewrite Hids, Hs.
    + rewrite (IH _ known); [now rewrite Hres |].
      intros id. now rewrite Hids, Hseen.
Qed.

Lemma register_preamble_resources (c : Client) (count : nat) :
  resources (register_preamble c count)
  = resources
      match ApplicationIcon c with
      | Some icon =>
          add_resource (ClientIconMode c) icon (mkRegisterState [] [] ∅)
      | None => mkRegisterState [] [] ∅
      end
  /\ seenIDs (register_preamble c count)
     = seenIDs
         match ApplicationIcon c with
         | Some icon =>
             add_resource (ClientIconMode c) icon (mkRegisterState [] [] ∅)
         | None => mkRegisterState [] [] ∅
         end.
Proof.
  unfold register_preamble.
  destruct (negb (String.eqb (callbackURL c) EmptyString)),
    (ApplicationIcon c) as [icon|];
    cbn [write_string resources seenIDs];
    unfold add_resource; cbn [write_string resources seenIDs packet];
    try destruct (_ && _); split; reflexivity.
Qed.

(** X7: the resources [Register] lists for raw transmission are, in Binary
    mode, the first resource of each identifier among the application icon
    and the notification types' icons, in order of first occurrence: when two
    icons share an identifier, the earlier one is transmitted, whatever the
    later one's bytes are.  In every other mode the list is empty. *)
Theorem Register_lists_first_of_each (c : Client)
    (notifications : list NotificationType) :
  snd (Register_packet c notifications)
  = if (ClientIconMode c =? IconModeBinary)%Z
    then first_of_each [] (referenced_icons c notifications)
    else [].
Proof.
  destruct (Z.eqb_spec (ClientIconMode c) IconModeBinary) as [Hmode | Hmode];
    [| now apply Register_packet_no_resources].
  unfold Register_packet, referenced_icons. cbn [snd].
  destruct (register_preamble_resources c (length notifications))
    as [Hres Hids].
  rewrite Hmode in Hres, Hids.
  assert (H0 : seen_as (mkRegisterState [] [] ∅) []).
  { intros id. cbn [seenIDs existsb]. apply seen_empty. }
  destruct (ApplicationIcon c) as [icon|].
  - destruct (seen_as_add_resource _ [] icon H0) as [Hr Hs].
    rewrite (register_notifications_first c notifications _
               [Identifier icon] Hmode).
    + rewrite Hres, Hr. reflexivity.
    + intros id. unfold seen_as in Hs. cbn [existsb] in Hs.
      now rewrite Hids, Hs.
  - rewrite (register_notifications_first c notifications _ [] Hmode).
    + now rewrite Hres.
    + intros id. now rewrite Hids, H0.
Qed.

(** ** Packets end with a blank line *)

Lemma ends_with_blank_line_app (l1 l2 : list string) :
  ends_with_blank_line l2 -> ends_with_blank_line (l1 ++ l2).
Proof.
  intros (before & line & ->). exists (l1 ++ before), line.
  now rewrite app_assoc.
Qed.

Lemma ends_with_blank_line_flat_map {A : Type} (f : A -> list string)
    (l : list A) :
  (forall x, ends_with_blank_line (f x)) ->
  l <> [] -> ends_with_blank_line (flat_map f l).
Proof.
  intros Hf Hl. destruct (exists_last Hl) as (l' & x & ->).
  rewrite flat_map_app. cbn [flat_map]. rewrite app_nil_r.
  apply ends_with_blank_line_app, Hf.
Qed.

Lemma ends_with_blank_line_text (writes : list string) :
  ends_with_blank_line writes ->
  exists body, builder_string writes = body +:+ CRLF +:+ CRLF.
Proof.
  intros (before & line & ->). unfold builder_string.
  exists (String.concat EmptyString before +:+ line).
  rewrite concat_empty_app, !concat_empty_cons. cbn [String.concat].
  now rewrite append_nil_r, !append_assoc.
Qed.

Lemma resource_headers_blank (res : Resource) :
  ends_with_blank_line (resource_headers res).
Proof.
  exists ["Identifier: " +:+ Identifier res +:+ CRLF],
    ("Length: " +:+ fmt_d (Z.of_nat (length (Data res)))).
  unfold resource_headers. cbn [app]. now rewrite append_assoc.
Qed.

Lemma line2 (a : string) : exists x, a +:+ CRLF = x +:+ CRLF.
Proof. now exists a. Qed.

Lemma line3 (a b : string) : exists x, a +:+ b +:+ CRLF = x +:+ CRLF.
Proof. exists (a +:+ b). symmetry. apply append_assoc. Qed.

Lemma line4 (a b c : string) :
  exists x, a +:+ b +:+ c +:+ CRLF = x +:+ CRLF.
Proof. exists (a +:+ b +:+ c). now rewrite !append_assoc. Qed.

(** Lines followed by the blank line. *)
Lemma lines_then_blank (lines : list string) :
  Forall (fun l => exists x, l = x +:+ CRLF) lines ->
  lines <> [] -> ends_with_blank_line (lines ++ [CRLF]).
Proof.
  intros Hlines Hne. destruct (exists_last Hne) as (before & l & ->).
  apply Forall_app in Hlines as [_ Hl].
  apply Forall_cons in Hl as [(x & ->) _].
  exists before, x. now rewrite <- app_assoc.
Qed.

Ltac lines_ending_in_CRLF :=
  repeat match goal with
         | |- Forall _ (if ?b then _ else _) => destruct b
         | |- Forall _ match ?o with Some _ => _ | None => _ end =>
             destruct o
         | |- Forall _ (_ ++ _) => apply Forall_app_2
         | |- Forall _ [] => constructor
         | |- Forall _ (_ :: _) =>
             constructor; [first [apply line4 | apply line3 | apply line2] |]
         end.

Lemma notification_lines_blank (c : Client) (notif : NotificationType) :
  ends_with_blank_line (notification_lines c notif).
Proof.
  unfold notification_lines. rewrite !app_assoc. apply lines_then_blank.
  - lines_ending_in_CRLF.
  - rewrite <- !app_assoc. cbn [app]. discriminate.
Qed.

Lemma preamble_lines_blank (c : Client) (count : nat) :
  ends_with_blank_line (preamble_lines c count).
Proof.
  unfold preamble_lines. rewrite !app_assoc.
  apply ends_with_blank_line_app.
  exists [], ("Notifications-Count: " +:+ fmt_d (Z.of_nat count)).
  cbn [app]. now rewrite append_assoc.
Qed.

(** X8: the text of every REGISTER packet and of every NOTIFY packet ends
    with a line terminator followed by a blank line, in every icon mode, with
    or without notification types, icons and callback settings. *)
Theorem packets_end_with_blank_line (c : Client)
    (notifications : list NotificationType)
    (notificationName title text : string) (options : NotifyOptions)
    (notificationID : string) :
  (exists body,
     builder_string (fst (Register_packet c notifications))
     = body +:+ CRLF +:+ CRLF)
  /\ (exists body,
        builder_string
          (fst (Notify_packet c notificationName title text options
                  notificationID))
        = body +:+ CRLF +:+ CRLF).
Proof.
  split; apply ends_with_blank_line_text.
  - rewrite Register_packet_writes. unfold binary_section.
    destruct (ClientIconMode c =? IconModeBinary)%Z,
      (snd (Register_packet c notifications)) as [|res rs] eqn:Ers;
      rewrite ?app_nil_r.
    2: { rewrite app_assoc. apply ends_with_blank_line_app.
         apply ends_with_blank_line_flat_map;
           [apply resource_headers_blank | discriminate]. }
    all: destruct notifications as [|notif ns];
      [ cbn [flat_map]; rewrite app_nil_r; apply preamble_lines_blank
      | apply ends_with_blank_line_app, ends_with_blank_line_flat_map;
        [apply notification_lines_blank | discriminate] ].
  - rewrite Notify_packet_writes.
    set (closing := match OptIcon options with
                    | Some icon =>
                        if (ClientIconMode c =? IconModeBinary)%Z
                        then resource_headers icon else []
                        | None => []
                    end).
    assert (Hclosing : closing = [] \/ ends_with_blank_line closing).
    { unfold closing. destruct (OptIcon options) as [icon|]; [| now left].
      destruct (ClientIconMode c =? IconModeBinary)%Z; [| now left].
      right. apply resource_headers_blank. }
    clearbody closing.
    destruct Hclosing as [-> | Hclosing].
    2: { rewrite !app_assoc. now apply ends_with_blank_line_app. }
    rewrite app_nil_r, !app_assoc. apply lines_then_blank.
    + lines_ending_in_CRLF.
    + rewrite <- !app_assoc. cbn [app]. discriminate.
Qed.

(** ** Sessions: how the operations compose *)

Lemma send_dials (c : Client) (writes : list string)
    (resources : list Resource) (w : World) :
  dials (snd (send c writes resources w)) = S (dials w).
Proof.
  unfold send. destruct (ClientIconMode c =? IconModeBinary)%Z.
  - apply sendPacketWithResources_shape.
  - apply sendPacket_shape.
Qed.

Lemma Register_dials (c : Client) (notifications : list NotificationType)
    (w : World) :
  dials (snd (Register c notifications w)) = S (dials w).
Proof.
  unfold Register. destruct (Register_packet c notifications) as [wr rs].
  pose proof (send_dials c wr rs w) as H.
  destruct (send c wr rs w) as [[e|s] w']; exact H.
Qed.

Lemma Notify_dials (md5hex : string -> string) (c : Client)
    (notificationName title text : string) (options : NotifyOptions)
    (w : World) :
  registered c = true ->
  dials (snd (NotifyWithOptions md5hex c notificationName title text options
                w))
  = S (dials w).
Proof.
  intros Hreg. unfold NotifyWithOptions. rewrite Hreg. cbn [negb].
  unfold UnixNano.
  destruct (Notify_packet c notificationName title text options _) as [wr rs].
  match goal with
  | |- context [send c wr rs ?w0] =>
      pose proof (send_dials c wr rs w0) as H;
      destruct (send c wr rs w0) as [[e|s] w']
  end; exact H.
Qed.

Lemma set_registered_registered (c : Client) :
  registered c = true -> set_registered c = c.
Proof. destruct c; cbn. now intros ->. Qed.

(** X10: [Register] dials once.  When it fails, the client is unchanged, so
    on a client that was not registered a following [NotifyWithOptions]
    still returns the usage error and dials nothing.  When it succeeds, the
    client differs only by the registered flag, and a following
    [NotifyWithOptions] goes to the network: it dials one more connection. *)
Theorem Register_then_Notify (md5hex : string -> string) (c : Client)
    (notifications : list NotificationType)
    (notificationName title text : string) (options : NotifyOptions)
    (w : World) :
  registered c = false ->
  let r := fst (fst (Register c notifications w)) in
  let c' := snd (fst (Register c notifications w)) in
  let w' := snd (Register c notifications w) in
  dials w' = S (dials w)
  /\ (r <> None ->
      c' = c
      /\ NotifyWithOptions md5hex c' notificationName title text options w'
         = (Some ErrNotRegistered, w'))
  /\ (r = None ->
      c' = set_registered c
      /\ dials
           (snd (NotifyWithOptions md5hex c' notificationName title text
                   options w'))
         = S (S (dials w))).
Proof.
  intros Hreg. cbv zeta.
  pose proof (Register_dials c notifications w) as Hd.
  pose proof (Register_sets_flag c) as Hflag.
  destruct (Register c notifications w) as [[r c'] w'] eqn:E.
  specialize (Hflag c' notifications w w' r E).
  cbn [fst snd] in *. split; [exact Hd |]. split.
  - intros Hr. destruct r as [e|]; [| congruence]. subst c'.
    split; [reflexivity |]. unfold NotifyWithOptions. now rewrite Hreg.
  - intros ->. split; [exact Hflag |]. subst c'.
    rewrite Notify_dials by reflexivity. now rewrite Hd.
Qed.

(** X11: [SendMessage] changes nothing of the client but the registered
    flag.  It returns without error only with the client registered; a
    client that was registered is returned as it was.  It dials at most two
    connections (REGISTER, NOTIFY), and none when the icon cannot be read. *)
Theorem SendMessage_client_and_dials (md5hex Ext ToLower : string -> string)
    (c : Client) (msg : Message) (w : World) :
  let r := fst (fst (SendMessage md5hex Ext ToLower c msg w)) in
  let c' := snd (fst (SendMessage md5hex Ext ToLower c msg w)) in
  let w' := snd (SendMessage md5hex Ext ToLower c msg w) in
  (c' = c \/ c' = set_registered c)
  /\ (r = None -> c' = set_registered c)
  /\ (registered c = true -> c' = c /\ dials w' <= S (dials w))
  /\ dials w <= dials w' <= S (S (dials w))
  /\ (forall e,
        MsgIcon msg <> EmptyString -> files w (MsgIcon msg) = inl e ->
        r = Some (ErrLoadIcon (ErrReadFile e)) /\ dials w' = dials w).
Proof.
  cbv zeta. unfold SendMessage.
  set (loaded :=
         if negb (String.eqb (MsgIcon msg) EmptyString)
         then
           match LoadResource Ext ToLower (MsgIcon msg) w with
           | (inl err, w0) => (inl (ErrLoadIcon err), w0)
           | (inr icon, w0) => (inr (Some icon), w0)
           end
         else (inr None, w)).
  assert (Hload : dials (snd loaded) = dials w
                  /\ forall e, MsgIcon msg <> EmptyString ->
                               files w (MsgIcon msg) = inl e ->
                               loaded = (inl (ErrLoadIcon (ErrReadFile e)), w)).
  { unfold loaded, LoadResource.
    destruct (String.eqb_spec (MsgIcon msg) EmptyString) as [Hm | Hm];
      cbn [negb]; [split; [reflexivity | intros e He; contradiction] |].
    destruct (files w (MsgIcon msg)) as [err | data];
      split; try reflexivity; intros e _ [=]; subst; reflexivity. }
  destruct Hload as [Hld Hlerr].
  destruct loaded as [[err | icon] w1] eqn:El; cbn [fst snd] in *.
  { split; [now left |]. split; [discriminate |].
    split; [intros _; split; [reflexivity | lia] |].
    split; [lia |].
    intros e0 Hm He. specialize (Hlerr e0 Hm He).
    injection Hlerr as -> _. split; [reflexivity | exact Hld]. }
  assert (Hnoerr : forall e0, MsgIcon msg <> EmptyString ->
                              files w (MsgIcon msg) = inl e0 -> False).
  { intros e0 Hm He. specialize (Hlerr e0 Hm He). discriminate. }
  destruct (registered c) eqn:Hreg; cbn [negb].
  - match goal with
    | |- context [NotifyWithOptions md5hex c ?a ?b ?t ?o w1] =>
        pose proof (Notify_dials md5hex c a b t o w1 Hreg) as Hn;
        destruct (NotifyWithOptions md5hex c a b t o w1) as [r w2]
    end.
    cbn [fst snd] in *. rewrite (set_registered_registered c Hreg).
    split; [now left |]. split; [reflexivity |].
    split; [intros _; split; [reflexivity | lia] |].
    split; [lia |].
    intros e0 Hm He; destruct (Hnoerr e0 Hm He).
  - match goal with
    | |- context [Register c ?ns w1] =>
        pose proof (Register_dials c ns w1) as Hd;
        pose proof (Register_sets_flag c) as Hflag;
        destruct (Register c ns w1) as [[r c1] w2] eqn:E;
        specialize (Hflag c1 ns w1 w2 r E)
    end.
    cbn [fst snd] in *.
    destruct r as [e|].
    + subst c1. cbn [fst snd].
      split; [now left |]. split; [discriminate |].
      split; [discriminate |].
      split; [lia |].
      intros e0 Hm He; destruct (Hnoerr e0 Hm He).
    + subst c1.
      match goal with
      | |- context [NotifyWithOptions md5hex ?cc ?a ?b ?t ?o w2] =>
          pose proof (Notify_dials md5hex cc a b t o w2 eq_refl) as Hn;
          destruct (NotifyWithOptions md5hex cc a b t o w2) as [r w3]
      end.
      cbn [fst snd] in *.
      split; [now right |]. split; [reflexivity |].
      split; [discriminate |].
      split; [lia |].
      intros e0 Hm He; destruct (Hnoerr e0 Hm He).
Qed.

(** ** Resources and their references *)

(** X12: a resource made from bytes has no source path, so every icon mode
    but Binary refers to it by its data URL.  A file that cannot be read
    gives the read error and draws no identifier; a file that is read gives
    a resource with the file's bytes and path, which FileURL mode refers to
    by [file:///] and the path and HttpURL mode by the path itself when the
    path is not empty.  Neither function touches the network. *)
Theorem loaded_resource_references (Ext ToLower : string -> string)
    (path : string) (data : list byte) (mimeType : string) (w : World) :
  (let r := fst (LoadResourceFromBytes data mimeType w) in
   let w' := snd (LoadResourceFromBytes data mimeType w) in
   Data r = data /\ MimeType r = mimeType
   /\ Identifier r = uuid_source w (uuids w) /\ uuids w' = S (uuids w)
   /\ trace w' = trace w /\ dials w' = dials w
   /\ forall mode, mode <> IconModeBinary -> getReference r mode = toDataURL r)
  /\ (forall e, files w path = inl e ->
        LoadResource Ext ToLower path w = (inl (ErrReadFile e), w))
  /\ (forall bytes, files w path = inr bytes ->
        exists r w',
          LoadResource Ext ToLower path w = (inr r, w')
          /\ Data r = bytes /\ SourcePath r = path
          /\ Identifier r = uuid_source w (uuids w) /\ uuids w' = S (uuids w)
          /\ trace w' = trace w /\ dials w' = dials w
          /\ (path <> EmptyString ->
              getReference r IconModeFileURL
              = "file:///" +:+ ReplaceAll1 path backslash slash
              /\ getReference r IconModeHttpURL = path)).
Proof.
  split; [| split].
  - cbn. repeat split. intros mode Hmode. unfold getReference.
    apply Z.eqb_neq in Hmode. rewrite Hmode. cbn [SourcePath String.eqb negb].
    now destruct (mode =? IconModeFileURL)%Z, (mode =? IconModeHttpURL)%Z.
  - intros e He. unfold LoadResource. now rewrite He.
  - intros bytes Hb. unfold LoadResource. rewrite Hb. cbn.
    eexists _, _. split; [reflexivity |]. cbn. repeat split.
    + unfold getReference. cbn [SourcePath Z.eqb IconModeFileURL
                                  IconModeBinary].
      now rewrite (eqb_empty_false _ H).
    + unfold getReference. cbn [SourcePath Z.eqb IconModeHttpURL
                                  IconModeFileURL IconModeBinary].
      now rewrite (eqb_empty_false _ H).
Qed.

(** ** Data URLs: size and line breaks *)

Lemma EncodeToString_length (src : list byte) :
  String.length (EncodeToString src) = 4 * ((length src + 2) / 3).
Proof.
  induction src as [| b0 | b0 b1 | b0 b1 b2 rest IH] using list_ind3;
    try reflexivity.
  cbn [EncodeToString String.length length]. cbv zeta.
  cbn [String.length]. rewrite IH.
  pose proof (Nat.div_mod_eq (length rest + 2) 3).
  pose proof (Nat.mod_upper_bound (length rest + 2) 3).
  pose proof (Nat.div_mod_eq (S (S (S (length rest))) + 2) 3).
  pose proof (Nat.mod_upper_bound (S (S (S (length rest))) + 2) 3).
  lia.
Qed.

(** X13: the base64 text of [n] bytes has [4 * ceil(n / 3)] characters.  A
    resource of at most 57 bytes gives a data URL on one line: the payload is
    the base64 text as it is.  A larger one gives a payload that contains a
    line terminator, so the header that carries it spans several lines. *)
Theorem toDataURL_size_and_lines (r : Resource) :
  String.length (EncodeToString (Data r)) = 4 * ((length (Data r) + 2) / 3)
  /\ (length (Data r) <= 57 ->
      toDataURL r
      = "data:" +:+ MimeType r +:+ ";base64," +:+ EncodeToString (Data r))
  /\ (57 < length (Data r) ->
      exists payload,
        toDataURL r = "data:" +:+ MimeType r +:+ ";base64," +:+ payload
        /\ Contains payload CRLF = true).
Proof.
  pose proof (EncodeToString_length (Data r)) as Hlen.
  pose proof (Nat.div_mod_eq (length (Data r) + 2) 3) as Hd3.
  pose proof (Nat.mod_upper_bound (length (Data r) + 2) 3) as Hm3.
  set (encoded := EncodeToString (Data r)) in *.
  pose proof (Nat.div_mod_eq (String.length encoded + 75) 76) as Hd.
  pose proof (Nat.mod_upper_bound (String.length encoded + 75) 76) as Hm.
  assert (Hurl :
    toDataURL r
    = "data:" +:+ MimeType r +:+ ";base64,"
      +:+ String.concat CRLF (lines76 encoded)).
  { unfold toDataURL. cbv zeta. fold encoded.
    pose proof (toDataURL_loop_lines encoded (String.length encoded) 0
                  EmptyString) as H.
    rewrite Nat.mul_0_r, Nat.sub_0_r in H. rewrite H by lia. reflexivity. }
  split; [exact Hlen |]. split.
  - intros Hsmall. rewrite Hurl. do 3 f_equal. unfold lines76.
    assert (Hn : (String.length encoded + 75) / 76 = 0
                 \/ (String.length encoded + 75) / 76 = 1) by lia.
    destruct Hn as [E | E].
    + assert (H0 : String.length encoded = 0) by lia.
      rewrite E. cbn [seq map String.concat].
      destruct encoded; [reflexivity | discriminate].
    + rewrite E. cbn [seq map String.concat].
      rewrite Nat.mul_0_r, substring_take_drop. cbn [string_drop].
      apply string_take_all. lia.
  - intros Hbig. rewrite Hurl. eexists. split; [reflexivity |].
    unfold lines76.
    assert (Hn : exists k, (String.length encoded + 75) / 76 = S (S k)).
    { exists ((String.length encoded + 75) / 76 - 2). lia. }
    destruct Hn as [k E]. rewrite E. cbn [seq map].
    rewrite concat_CRLF_cons.
    apply Contains_append.
Qed.

(** ** Callback listener: parsing *)

Lemma CR_free_append (s t : string) :
  CR_free (s +:+ t) = CR_free s && CR_free t.
Proof.
  induction s as [|c s IH]; [reflexivity |].
  rewrite append_cons. cbn [CR_free]. rewrite IH. apply andb_assoc.
Qed.

Lemma Split_CRLF_cons (c : ascii) (s : string) :
  Ascii.eqb c CR = false ->
  Split_CRLF (String c s) = cons_head c (Split_CRLF s).
Proof. intros H. cbn [Split_CRLF]. rewrite H. now destruct s. Qed.

(** A line without carriage return, then the separator. *)
Lemma Split_CRLF_line (l rest : string) :
  CR_free l = true ->
  Split_CRLF (l +:+ CRLF +:+ rest) = l :: Split_CRLF rest.
Proof.
  induction l as [|c l IH]; intros H.
  - reflexivity.
  - cbn [CR_free] in H. apply andb_true_iff in H as [Hc H].
    apply negb_true_iff in Hc.
    rewrite append_cons, Split_CRLF_cons, IH by assumption. reflexivity.
Qed.

Lemma string_take_append (pre rest : string) :
  string_take (String.length pre) (pre +:+ rest) = pre.
Proof.
  induction pre as [|c pre IH]; [now destruct rest |].
  rewrite append_cons. cbn [String.length string_take]. now rewrite IH.
Qed.

(** X14: a callback message that carries the four headers, each value free of
    carriage returns, and fits the read buffer of 4096 bytes is parsed into
    exactly these values: the handler, when one is set, is called once with
    them and the time of receipt, after the acknowledgement is written. *)
Theorem handleCallback_parses_headers (c : Client)
    (result id context contextType : string) (now : Z) :
  let message :=
    ("Notification-Callback-Result: " +:+ result) +:+ CRLF
    +:+ ("Notification-ID: " +:+ id) +:+ CRLF
    +:+ ("Notification-Callback-Context: " +:+ context) +:+ CRLF
    +:+ ("Notification-Callback-Context-Type: " +:+ contextType) +:+ CRLF
    +:+ CRLF in
  CR_free result = true -> CR_free id = true ->
  CR_free context = true -> CR_free contextType = true ->
  String.length message <= 4096 ->
  handleCallback c (mkInConn (inr message) now)
  = CbWrite callback_ack
    :: (if callbackHandler c
        then [CbHandler (mkCallbackInfo result id context contextType now)]
        else [])
    ++ [CbClose].
Proof.
  cbv zeta. intros Hr Hi Hc Ht Hlen.
  unfold handleCallback. cbn [in_read in_now].
  rewrite (string_take_all _ _ Hlen).
  rewrite !Split_CRLF_line
    by (rewrite CR_free_append; cbn [CR_free]; assumption).
  change (Split_CRLF CRLF) with [EmptyString; EmptyString].
  cbn [fold_left].
  assert (H1 : forall info,
    parse_line info ("Notification-Callback-Result: " +:+ result)
    = mkCallbackInfo result (NotificationID info) (Context info)
        (ContextType info) (Timestamp info)).
  { intros info. unfold parse_line.
    rewrite (HasPrefix_append "Notification-Callback-Result: " result).
    reflexivity. }
  assert (H2 : forall info,
    parse_line info ("Notification-ID: " +:+ id)
    = mkCallbackInfo (CbType info) id (Context info) (ContextType info)
        (Timestamp info)).
  { intros info. unfold parse_line.
    replace (HasPrefix ("Notification-ID: " +:+ id)
               "Notification-Callback-Result: ") with false by reflexivity.
    rewrite (HasPrefix_append "Notification-ID: " id). reflexivity. }
  assert (H3 : forall info,
    parse_line info ("Notification-Callback-Context: " +:+ context)
    = mkCallbackInfo (CbType info) (NotificationID info) context
        (ContextType info) (Timestamp info)).
  { intros info. unfold parse_line.
    replace (HasPrefix ("Notification-Callback-Context: " +:+ context)
               "Notification-Callback-Result: ") with false by reflexivity.
    replace (HasPrefix ("Notification-Callback-Context: " +:+ context)
               "Notification-ID: ") with false by reflexivity.
    rewrite (HasPrefix_append "Notification-Callback-Context: " context).
    reflexivity. }
  assert (H4 : forall info,
    parse_line info ("Notification-Callback-Context-Type: " +:+ contextType)
    = mkCallbackInfo (CbType info) (NotificationID info) (Context info)
        contextType (Timestamp info)).
  { intros info. unfold parse_line.
    replace (HasPrefix
               ("Notification-Callback-Context-Type: " +:+ contextType)
               "Notification-Callback-Result: ") with false by reflexivity.
    replace (HasPrefix
               ("Notification-Callback-Context-Type: " +:+ contextType)
               "Notification-ID: ") with false by reflexivity.
    replace (HasPrefix
               ("Notification-Callback-Context-Type: " +:+ contextType)
               "Notification-Callback-Context: ") with false by reflexivity.
    rewrite (HasPrefix_append "Notification-Callback-Context-Type: "
               contextType).
    reflexivity. }
  rewrite H1, H2, H3, H4. reflexivity.
Qed.

(** X15: only the first 4096 bytes of a callback message are looked at: what
    follows them changes nothing of what the listener writes or hands to the
    handler. *)
Theorem handleCallback_reads_4096_bytes (c : Client) (first rest : string)
    (now : Z) :
  String.length first = 4096 ->
  handleCallback c (mkInConn (inr (first +:+ rest)) now)
  = handleCallback c (mkInConn (inr first) now).
Proof.
  intros Hlen. unfold handleCallback. cbn [in_read in_now].
  rewrite <- Hlen at 1. rewrite string_take_append.
  rewrite (string_take_all 4096 first) by lia. reflexivity.
Qed.

(** ** Starting the callback listener *)

Lemma Register_packet_set_handler (c : Client) (handler : bool)
    (notifications : list NotificationType) :
  Register_packet (set_handler c handler) notifications
  = Register_packet c notifications.
Proof. destruct c. reflexivity. Qed.

Lemma target_lines_notifications (c : Client)
    (notifications : list NotificationType) :
  lines_with "Notification-Callback-Target: "
    (flat_map (notification_lines c) notifications) = [].
Proof.
  induction notifications as [|notif notifications IH]; [reflexivity |].
  cbn [flat_map]. rewrite lines_with_app, IH.
  unfold notification_lines.
  destruct (String.eqb (DisplayName notif) EmptyString), (Icon notif);
    reflexivity.
Qed.

Lemma target_lines_Register (c : Client)
    (notifications : list NotificationType) :
  lines_with "Notification-Callback-Target: "
    (fst (Register_packet c notifications))
  = if String.eqb (callbackURL c) EmptyString then []
    else ["Notification-Callback-Target: " +:+ callbackURL c +:+ CRLF].
Proof.
  rewrite Register_packet_writes, !lines_with_app.
  rewrite target_lines_notifications, lines_with_binary_section.
  rewrite !app_nil_r. unfold preamble_lines.
  rewrite !lines_with_app.
  destruct (ApplicationIcon c), (String.eqb (callbackURL c) EmptyString);
    try reflexivity;
    unfold lines_with; cbn [List.filter app];
    rewrite (HasPrefix_append "Notification-Callback-Target: ");
    reflexivity.
Qed.

(** ** The advertised address *)

Lemma find_first {A : Type} (f : A -> bool) (before : list A) (x : A)
    (after : list A) :
  Forall (fun y => f y = false) before -> f x = true ->
  List.find f (before ++ x :: after) = Some x.
Proof.
  intros Hbefore Hx.
  induction Hbefore as [|y before Hy _ IH]; cbn [app List.find].
  - now rewrite Hx.
  - now rewrite Hy.
Qed.

Lemma find_none {A : Type} (f : A -> bool) (l : list A) :
  Forall (fun y => f y = false) l -> List.find f l = None.
Proof.
  intros Hl. induction Hl as [|y l Hy _ IH]; [reflexivity |].
  cbn [List.find]. now rewrite Hy.
Qed.

(** X17: the address [getLocalIP] gives is the one of the first interface
    entry that is an IP network, not a loopback address and IPv4; entries
    before it that lack one of the three are passed over.  When the
    interfaces cannot be listed, or no entry qualifies (only loopback or
    IPv6 addresses, say), it is [127.0.0.1]. *)
Theorem getLocalIP_first_IPv4 (addrs : net_error + list Addr) :
  let usable addr :=
    is_IPNet addr && negb (IsLoopback addr) && is_IPv4 addr in
  (forall e, addrs = inl e -> getLocalIP addrs = "127.0.0.1")
  /\ (forall entries,
        addrs = inr entries ->
        Forall (fun addr => usable addr = false) entries ->
        getLocalIP addrs = "127.0.0.1")
  /\ (forall before addr after,
        addrs = inr (before ++ addr :: after) ->
        Forall (fun addr => usable addr = false) before ->
        usable addr = true ->
        getLocalIP addrs = IP_String addr).
Proof.
  cbv zeta. split; [| split].
  - intros e ->. reflexivity.
  - intros entries -> Hnone. unfold getLocalIP.
    now rewrite (find_none _ _ Hnone).
  - intros before addr after -> Hbefore Haddr. unfold getLocalIP.
    now rewrite (find_first _ _ _ _ Hbefore Haddr).
Qed.

(** ** The binary section and the resources transmitted *)

(** The lines of the headers part are no resource headers. *)
Lemma lines_with_preamble (start : string) (c : Client) (count : nat) :
  start = "Identifier: " \/ start = "Length: " ->
  lines_with start (preamble_lines c count) = [].
Proof.
  intros [-> | ->]; unfold preamble_lines;
    destruct (ApplicationIcon c), (String.eqb (callbackURL c) EmptyString);
    reflexivity.
Qed.

Lemma lines_with_notifications (start : string) (c : Client)
    (notifications : list NotificationType) :
  start = "Identifier: " \/ start = "Length: " ->
  lines_with start (flat_map (notification_lines c) notifications) = [].
Proof.
  intros Hstart.
  induction notifications as [|notif notifications IH]; [reflexivity |].
  cbn [flat_map]. rewrite lines_with_app, IH, app_nil_r.
  unfold notification_lines.
  destruct Hstart as [-> | ->];
    destruct (String.eqb (DisplayName notif) EmptyString), (Icon notif);
    reflexivity.
Qed.

Lemma identifier_lines_headers (resources : list Resource) :
  lines_with "Identifier: " (flat_map resource_headers resources)
  = map (fun res => "Identifier: " +:+ Identifier res +:+ CRLF) resources.
Proof.
  induction resources as [|res resources IH]; [reflexivity |].
  cbn [flat_map map]. rewrite lines_with_app, IH. f_equal.
Qed.

Lemma length_lines_headers (resources : list Resource) :
  lines_with "Length: " (flat_map resource_headers resources)
  = map (fun res =>
           "Length: " +:+ fmt_d (Z.of_nat (length (Data res))) +:+ CRLF)
      resources.
Proof.
  induction resources as [|res resources IH]; [reflexivity |].
  cbn [flat_map map]. rewrite lines_with_app, IH. f_equal.
Qed.

Lemma lines_with_Notify_headers (start : string)
    (c : Client) (notificationName title text : string)
    (options : NotifyOptions) (notificationID : string) :
  start = "Identifier: " \/ start = "Length: " ->
  lines_with start
    (fst (Notify_packet c notificationName title text options notificationID))
  = lines_with start
      (binary_section (ClientIconMode c)
         (snd (Notify_packet c notificationName title text options
                 notificationID))).
Proof.
  intros Hstart. unfold Notify_packet.
  destruct Hstart as [-> | ->];
    destruct (Sticky options), (Priority options =? 0)%Z,
      (OptIcon options) as [icon|],
      (String.eqb (callbackURL c) EmptyString),
      (String.eqb (CallbackTarget options) EmptyString);
    cbn [negb fst snd];
    rewrite ?lines_with_app; reflexivity.
Qed.

(** ** Messages and the callback listener *)

Lemma Register_callbackURL (c : Client)
    (notifications : list NotificationType) (w : World) :
  callbackURL (snd (fst (Register c notifications w))) = callbackURL c.
Proof.
  unfold Register. destruct (Register_packet c notifications).
  now destruct (send c _ _ w) as [[err | response] w'].
Qed.

Lemma NotifyWithOptions_no_listener (md5hex : string -> string) (c : Client)
    (notificationName title text : string) (options : NotifyOptions)
    (target : string) (w : World) :
  callbackURL c = EmptyString ->
  NotifyWithOptions md5hex c notificationName title text
    (WithCallbackTarget options target) w
  = NotifyWithOptions md5hex c notificationName title text options w.
Proof.
  intros Hurl. unfold NotifyWithOptions, Notify_packet, WithCallbackTarget.
  cbn [Sticky Priority OptIcon CallbackContext CallbackTarget].
  rewrite Hurl. reflexivity.
Qed.

(** X19: on a client without a callback listener ([callbackURL] empty) the
    [Callback] field of a message has no effect: [SendMessage] returns the
    same result and client, and does the same on the network, whatever the
    field holds. *)
Theorem SendMessage_callback_needs_listener
    (md5hex Ext ToLower : string -> string) (c : Client) (msg : Message)
    (callback : string) (w : World) :
  callbackURL c = EmptyString ->
  SendMessage md5hex Ext ToLower c
    (mkMessage (Event msg) (Title msg) (Text msg) (MsgIcon msg) callback
       (MsgDisplayName msg) (MsgSticky msg) (MsgPriority msg))
    w
  = SendMessage md5hex Ext ToLower c msg w.
Proof.
  intros Hurl. unfold SendMessage.
  cbn [Event Title Text MsgIcon Callback MsgDisplayName MsgSticky MsgPriority].
  destruct (if negb (String.eqb (MsgIcon msg) EmptyString)
            then
              match LoadResource Ext ToLower (MsgIcon msg) w with
              | (inl err, w0) => (inl (ErrLoadIcon err), w0)
              | (inr icon, w0) => (inr (Some icon), w0)
              end
            else (inr None, w)) as [[err | icon] w1]; [reflexivity |].
  set (registration :=
         if negb (registered c) then Register c _ w1 else (None, c, w1)).
  assert (Hurl' : callbackURL (snd (fst registration)) = EmptyString).
  { subst registration. destruct (negb (registered c)); [| exact Hurl].
    now rewrite Register_callbackURL. }
  destruct registration as [[[e |] c'] w2]; [reflexivity |].
  cbn [fst snd] in Hurl'.
  destruct (String.eqb callback EmptyString),
    (String.eqb (Callback msg) EmptyString); cbn [negb];
    rewrite ?(NotifyWithOptions_no_listener md5hex c' _ _ _ _ _ w2 Hurl');
    reflexivity.
Qed.

(** ** Failed writes *)

Lemma is_read_resource_writes (resources : list Resource) :
  Forall (fun ev => is_read ev = false) (resource_writes resources).
Proof.
  induction resources as [|res resources IH]; [constructor |].
  unfold resource_writes in *. cbn [flat_map app].
  repeat constructor. exact IH.
Qed.

Lemma send_resources_passes (conn : Conn) (resources : list Resource)
    (k0 : nat) :
  (forall j, k0 <= j < k0 + 2 * length resources ->
             write_result conn j = None) ->
  send_resources conn resources k0
  = (None, resource_writes resources, k0 + 2 * length resources).
Proof.
  revert k0. induction resources as [|res resources IH]; intros k0 Hok.
  - cbn. now rewrite Nat.add_0_r.
  - cbn [length] in Hok. cbn [send_resources].
    rewrite (Hok k0), (Hok (S k0)) by lia.
    rewrite IH by (intros j Hj; apply Hok; lia).
    unfold resource_writes. cbn [flat_map app length]. f_equal. lia.
Qed.

Lemma send_resources_fails (conn : Conn) (resources : list Resource)
    (k0 k : nat) (cause : net_error) :
  (forall j, k0 <= j < k -> write_result conn j = None) ->
  write_result conn k = Some cause ->
  k0 <= k < k0 + 2 * length resources ->
  exists evs k',
    send_resources conn resources k0
    = (Some (if Nat.even (k - k0) then ErrSendResourceData cause
             else ErrSendResourceCRLF cause), evs, k')
    /\ length (written evs) = k - k0
    /\ Forall (fun ev => is_read ev = false) evs.
Proof.
  revert k0. induction resources as [|res resources IH]; intros k0 Hok Hk Hin.
  - cbn [length] in Hin. lia.
  - cbn [length] in Hin. cbn [send_resources].
    destruct (Nat.eq_dec k k0) as [-> | Hne0].
    + rewrite Hk, Nat.sub_diag. eexists _, _. split; [reflexivity |].
      split; [reflexivity | repeat constructor].
    + rewrite (Hok k0) by lia.
      destruct (Nat.eq_dec k (S k0)) as [-> | Hne1].
      * rewrite Hk. replace (S k0 - k0) with 1 by lia.
        eexists _, _. split; [reflexivity |].
        split; [reflexivity | repeat constructor].
      * rewrite (Hok (S k0)) by lia.
        destruct (IH (S (S k0))) as (evs & k' & -> & Hlen & Hreads);
          [intros j Hj; apply Hok; lia | exact Hk | lia |].
        replace (k - k0) with (S (S (k - S (S k0)))) by lia.
        eexists _, _. split; [reflexivity |]. split.
        -- cbn [written length]. now rewrite Hlen.
        -- repeat constructor. exact Hreads.
Qed.

(** X20: in Binary mode, when the connection is established and the [k]-th
    write (counted from 0) is the first that fails, the send returns the
    error of that step with the cause: the packet ([k = 0]), the data of a
    resource ([k] odd), the line terminator after a resource ([k] even), or
    the final terminator ([k = 2n+1] with [n] resources).  Exactly the [k]
    writes before it went through, and the response is not read. *)
Theorem write_failure_is_located (c : Client) (packet : string)
    (resources : list Resource) (w : World) (k : nat) (cause : net_error) :
  dial_result (network w (dials w)) = None ->
  (forall j, j < k -> write_result (network w (dials w)) j = None) ->
  write_result (network w (dials w)) k = Some cause ->
  k <= 2 * length resources + 1 ->
  fst (sendPacketWithResources c packet resources w)
  = inl (write_error_at (length resources) k cause)
  /\ length
       (written
          (new_events w (snd (sendPacketWithResources c packet resources w))))
     = k
  /\ Forall (fun ev => is_read ev = false)
       (new_events w (snd (sendPacketWithResources c packet resources w))).
Proof.
  intros Hdial Hok Hk Hle. unfold sendPacketWithResources, write_error_at.
  rewrite Hdial.
  destruct k as [|k].
  - rewrite Hk. cbn [fst snd Nat.eqb].
    rewrite (new_events_app w _ [EvDial (address_of c) None;
                                 EvWrite (list_byte_of_string packet)
                                   (Some cause); EvClose])
      by (rewrite !trace_log; cbn [trace next_dial];
          now rewrite <- !app_assoc).
    split; [reflexivity |]. split; [reflexivity | repeat constructor].
  - rewrite (Hok 0) by lia. change (Nat.eqb (S k) 0) with false. cbv iota.
    destruct (Nat.eqb_spec (S k) (2 * length resources + 1))
      as [Hlast | Hloop].
    + rewrite send_resources_passes by (intros j Hj; apply Hok; lia).
      replace (1 + 2 * length resources) with (S k) by lia. rewrite Hk.
      cbn [fst snd].
      rewrite (new_events_app w _
                 ([EvDial (address_of c) None;
                   EvWrite (list_byte_of_string packet) None]
                  ++ resource_writes resources
                  ++ [EvWrite (list_byte_of_string CRLF) (Some cause);
                      EvClose]))
        by (rewrite !trace_log; cbn [trace next_dial];
            now rewrite <- !app_assoc).
      split; [reflexivity |]. split.
      * cbn [app written length]. rewrite written_app, length_app.
        rewrite written_resource_writes.
        assert (Hflat : forall rs : list Resource,
                  length (flat_map
                            (fun res => [Data res; list_byte_of_string CRLF])
                            rs)
                  = 2 * length rs).
        { induction rs as [|r rs IH]; [reflexivity |].
          cbn [flat_map app length]. rewrite IH. lia. }
        rewrite Hflat. cbn [written length]. lia.
      * repeat constructor. apply Forall_app_2;
          [apply is_read_resource_writes | repeat constructor].
    + destruct (send_resources_fails (network w (dials w)) resources 1 (S k)
                  cause) as (evs & k' & -> & Hlen & Hreads);
        [intros j Hj; apply Hok; lia | exact Hk | lia |].
      cbn [fst snd].
      rewrite (new_events_app w _
                 ([EvDial (address_of c) None;
                   EvWrite (list_byte_of_string packet) None]
                  ++ evs ++ [EvClose]))
        by (rewrite !trace_log; cbn [trace next_dial];
            now rewrite <- !app_assoc).
      split; [| split].
      * replace (S k - 1) with k by lia.
        rewrite Nat.odd_succ. reflexivity.
      * cbn [app written length]. rewrite written_app, length_app, Hlen.
        cbn [written length]. lia.
      * repeat constructor. apply Forall_app_2;
          [exact Hreads | repeat constructor].
Qed.

(** ** The registered flag *)

(** X21: the registered flag is never cleared.  On a registered client a
    [Register] that fails, a [SendMessage] that fails and a [WithCallback]
    with any handler and either outcome leave it set, so a later [NotifyWithOptions] does
    not return the usage error: it goes to the network and dials a
    connection. *)
Theorem registered_is_never_cleared (md5hex Ext ToLower : string -> string)
    (c : Client) (notifications : list NotificationType) (msg : Message)
    (handler : bool) (listen : net_error + Z)
    (addrs : net_error + list Addr)
    (notificationName title text : string) (options : NotifyOptions)
    (w w' : World) :
  registered c = true ->
  let after c' :=
    registered c' = true
    /\ dials
         (snd (NotifyWithOptions md5hex c' notificationName title text options
                 w'))
       = S (dials w') in
  after (snd (fst (Register c notifications w)))
  /\ after (snd (fst (SendMessage md5hex Ext ToLower c msg w)))
  /\ after (snd (WithCallback c handler listen addrs)).
Proof.
  intros Hreg. cbv zeta.
  assert (Hafter : forall c',
    registered c' = true ->
    registered c' = true
    /\ dials
         (snd (NotifyWithOptions md5hex c' notificationName title text options
                 w'))
       = S (dials w')).
  { intros c' Hc'. split; [exact Hc' |]. now apply Notify_dials. }
  split; [| split]; apply Hafter.
  - unfold Register. destruct (Register_packet c notifications).
    destruct (send c _ _ w) as [[err | response] w1];
      [exact Hreg | reflexivity].
  - unfold SendMessage. rewrite Hreg. cbn [negb].
    destruct (if negb (String.eqb (MsgIcon msg) EmptyString)
              then
                match LoadResource Ext ToLower (MsgIcon msg) w with
                | (inl err, w0) => (inl (ErrLoadIcon err), w0)
                | (inr icon, w0) => (inr (Some icon), w0)
                end
              else (inr None, w)) as [[err | icon] w1]; [exact Hreg |].
    destruct (NotifyWithOptions md5hex c _ _ _ _ w1). exact Hreg.
  - unfold WithCallback. destruct listen; destruct c; exact Hreg.
Qed.

(** * The text of a packet, line by line *)

(** ** Splitting at line terminators *)

Lemma Split_CRLF_nonempty (s : string) : Split_CRLF s <> [].
Proof.
  assert (H : forall c l, cons_head c l <> [])
    by (intros c [|h t]; discriminate).
  destruct s as [|c [|c' s]]; [discriminate | discriminate |].
  change (Split_CRLF (String c (String c' s)))
    with (if Ascii.eqb c CR && Ascii.eqb c' LF
          then EmptyString :: Split_CRLF s
          else cons_head c (Split_CRLF (String c' s))).
  destruct (Ascii.eqb c CR && Ascii.eqb c' LF); [discriminate | apply H].
Qed.

Lemma cons_head_app (c : ascii) (l m : list string) :
  l <> [] -> cons_head c (l ++ m) = cons_head c l ++ m.
Proof. destruct l as [|h t]; [congruence | reflexivity]. Qed.

(** A line terminator always ends a piece: the pieces of the text before it
    and the pieces of the text after it are found separately. *)
Lemma Split_CRLF_app (x rest : string) :
  Split_CRLF (x +:+ CRLF +:+ rest) = Split_CRLF x ++ Split_CRLF rest.
Proof.
  assert (H : Split_CRLF (x +:+ CRLF +:+ rest)
              = Split_CRLF x ++ Split_CRLF rest
              /\ forall c,
                   Split_CRLF (String c x +:+ CRLF +:+ rest)
                   = Split_CRLF (String c x) ++ Split_CRLF rest).
  { induction x as [|c' x [IH0 IH1]].
    - split; [reflexivity |]. intros c.
      rewrite append_cons, append_nil_l.
      change (CRLF +:+ rest) with (String CR (String LF rest)).
      cbn [Split_CRLF]. change (Ascii.eqb CR LF) with false.
      rewrite andb_false_r. now destruct rest.
    - split; [apply IH1 |]. intros c.
      rewrite !append_cons.
      change (Split_CRLF (String c (String c' (x +:+ CRLF +:+ rest))))
        with (if Ascii.eqb c CR && Ascii.eqb c' LF
              then EmptyString :: Split_CRLF (x +:+ CRLF +:+ rest)
              else cons_head c
                     (Split_CRLF (String c' (x +:+ CRLF +:+ rest)))).
      change (Split_CRLF (String c (String c' x)))
        with (if Ascii.eqb c CR && Ascii.eqb c' LF
              then EmptyString :: Split_CRLF x
              else cons_head c (Split_CRLF (String c' x))).
      destruct (Ascii.eqb c CR && Ascii.eqb c' LF).
      + now rewrite IH0.
      + rewrite <- append_cons, IH1.
        apply cons_head_app, Split_CRLF_nonempty. }
  apply H.
Qed.

Lemma Split_CRLF_CR_free (l : string) :
  CR_free l = true -> Split_CRLF l = [l].
Proof.
  induction l as [|c l IH]; [reflexivity |]. intros H.
  cbn [CR_free] in H. apply andb_true_iff in H as [Hc H].
  apply negb_true_iff in Hc.
  rewrite Split_CRLF_cons, IH by assumption. reflexivity.
Qed.

Lemma packet_lines_cons (body : string) (writes : list string) :
  packet_lines ((body +:+ CRLF) :: writes)
  = Split_CRLF body ++ packet_lines writes.
Proof.
  unfold packet_lines, builder_string. rewrite concat_empty_cons.
  rewrite append_assoc. apply Split_CRLF_app.
Qed.

(** ** Base64 text *)

Lemma base64_char_CR (a : ascii) :
  base64_char a = true -> Ascii.eqb a CR = false.
Proof.
  destruct (Ascii.eqb_spec a CR) as [-> | _]; [| reflexivity].
  vm_compute. intros H. discriminate H.
Qed.

Lemma base64_text_CR_free (s : string) :
  base64_text s = true -> CR_free s = true.
Proof.
  induction s as [|a s IH]; [reflexivity |]. cbn [base64_text CR_free].
  intros H. apply andb_true_iff in H as [Ha H].
  now rewrite (base64_char_CR a Ha), IH.
Qed.

Lemma encode_at_base64 (v : Z) : base64_char (encode_at v) = true.
Proof.
  unfold encode_at. generalize (Z.to_nat v) as n. intros n.
  do 64 (destruct n as [|n]; [reflexivity |]).
  reflexivity.
Qed.

Lemma EncodeToString_base64 (src : list byte) :
  base64_text (EncodeToString src) = true.
Proof.
  induction src as [| b0 | b0 b1 | b0 b1 b2 rest IH] using list_ind3;
    cbn [EncodeToString]; cbv zeta; cbn [base64_text];
    rewrite ?encode_at_base64, ?IH; reflexivity.
Qed.

Lemma base64_text_take (n : nat) (s : string) :
  base64_text s = true -> base64_text (string_take n s) = true.
Proof.
  revert s; induction n as [|n IH]; intros [|c s]; cbn; try reflexivity.
  intros H. apply andb_true_iff in H as [-> H]. now rewrite IH.
Qed.

Lemma base64_text_drop (n : nat) (s : string) :
  base64_text s = true -> base64_text (string_drop n s) = true.
Proof.
  revert s; induction n as [|n IH]; intros [|c s]; cbn; try reflexivity;
    try (intros H; exact H).
  intros H. apply andb_true_iff in H as [_ H]. now apply IH.
Qed.

Lemma lines76_base64 (s : string) :
  base64_text s = true ->
  Forall (fun l => base64_text l = true) (lines76 s).
Proof.
  intros H. unfold lines76. apply Forall_forall. intros l Hin.
  apply list_elem_of_In, in_map_iff in Hin as (j & <- & _).
  rewrite substring_take_drop.
  now apply base64_text_take, base64_text_drop.
Qed.

(** A text that starts with [start] is made of the characters of [start],
    then others. *)
Lemma HasPrefix_base64 (l start : string) :
  base64_text l = true -> base64_text start = false ->
  HasPrefix l start = false.
Proof.
  revert l; induction start as [|a start IH]; intros l Hl Hstart;
    [discriminate |].
  destruct l as [|b l]; [reflexivity |]. cbn [HasPrefix].
  cbn [base64_text] in Hl, Hstart. apply andb_true_iff in Hl as [Hb Hl].
  destruct (Ascii.eqb_spec a b) as [-> | _]; [| reflexivity].
  rewrite Hb in Hstart. cbn [andb] in *. now apply IH.
Qed.

(** ** Texts without carriage return *)

Lemma CR_free_fmt_d (z : Z) : CR_free (fmt_d z) = true.
Proof.
  unfold fmt_d.
  assert (H : forall d, CR_free (NilEmpty.string_of_uint d) = true).
  { induction d; cbn; auto. }
  assert (H0 : forall d, CR_free (NilZero.string_of_uint d) = true).
  { intros d. destruct d; try reflexivity; apply H. }
  destruct (Z.to_int z) as [d | d]; cbn [NilZero.string_of_int CR_free];
    rewrite ?H0; reflexivity.
Qed.

Lemma CR_free_ReplaceAll1 (s : string) :
  CR_free s = true -> CR_free (ReplaceAll1 s backslash slash) = true.
Proof.
  induction s as [|c s IH]; [reflexivity |]. cbn [CR_free ReplaceAll1].
  intros H. apply andb_true_iff in H as [Hc H]. rewrite (IH H).
  destruct (Ascii.eqb c backslash); [reflexivity | now rewrite Hc].
Qed.

(** A prefix without carriage return is looked for in the first line. *)
Lemma HasPrefix_first_line (body rest start : string) :
  CR_free start = true ->
  HasPrefix (body +:+ CRLF +:+ rest) start = HasPrefix body start.
Proof.
  revert body; induction start as [|a start IH]; intros body Hstart;
    [reflexivity |].
  cbn [CR_free] in Hstart. apply andb_true_iff in Hstart as [Ha Hstart].
  apply negb_true_iff in Ha.
  destruct body as [|b body].
  - rewrite append_nil_l. change (CRLF +:+ rest) with (String CR (String LF rest)).
    cbn [HasPrefix]. now rewrite Ha.
  - rewrite append_cons. cbn [HasPrefix]. now rewrite IH.
Qed.

(** ** Writes made of whole lines *)

Lemma concat_terminated_cons (l : string) (ls : list string) :
  String.concat EmptyString (map (fun l => l +:+ CRLF) (l :: ls))
  = l +:+ CRLF
    +:+ String.concat EmptyString (map (fun l => l +:+ CRLF) ls).
Proof. cbn [map]. now rewrite concat_empty_cons, append_assoc. Qed.

Lemma Split_CRLF_terminated (ls : list string) (rest : string) :
  Forall (fun l => CR_free l = true) ls ->
  Split_CRLF
    (String.concat EmptyString (map (fun l => l +:+ CRLF) ls) +:+ rest)
  = ls ++ Split_CRLF rest.
Proof.
  intros H; induction H as [|l ls Hl _ IH]; [now rewrite append_nil_l |].
  rewrite concat_terminated_cons, !append_assoc, Split_CRLF_app.
  now rewrite (Split_CRLF_CR_free l Hl), IH.
Qed.

Lemma tidy_line (body : string) :
  CR_free body = true -> tidy (body +:+ CRLF).
Proof.
  intros H. exists body, []. split; [| split; [exact H | constructor]].
  cbn [map]. now rewrite concat_empty_cons, append_nil_r.
Qed.

Lemma tidy_blank : tidy CRLF.
Proof. apply (tidy_line EmptyString). reflexivity. Qed.

Lemma first_line_line (body rest : string) :
  CR_free body = true -> first_line (body +:+ CRLF +:+ rest) = body.
Proof.
  intros H. unfold first_line.
  now rewrite Split_CRLF_app, (Split_CRLF_CR_free body H).
Qed.

Lemma first_line_header (key value : string) :
  CR_free key = true -> CR_free value = true ->
  first_line (key +:+ value +:+ CRLF) = key +:+ value.
Proof.
  intros Hkey Hvalue. rewrite <- append_assoc.
  apply (first_line_line (key +:+ value) EmptyString).
  now rewrite CR_free_append, Hkey, Hvalue.
Qed.

Lemma filter_base64 (start : string) (ls : list string) :
  base64_text start = false ->
  Forall (fun l => base64_text l = true) ls ->
  List.filter (fun l => HasPrefix l start) ls = [].
Proof.
  intros Hstart H; induction H as [|l ls Hl _ IH]; [reflexivity |].
  cbn [List.filter]. now rewrite (HasPrefix_base64 l start Hl Hstart).
Qed.

(** In a packet whose writes are whole lines, the lines of the text that
    start with a given key (a text without carriage return that is not
    base64 text) are the first lines of the writes that start with it. *)
Lemma text_lines_with_tidy (start : string) (writes : list string) :
  CR_free start = true -> base64_text start = false ->
  Forall tidy writes ->
  text_lines_with start writes = map first_line (lines_with start writes).
Proof.
  intros Hfree Hstart H.
  induction H as [|w writes (first & conts & -> & Hfirst & Hconts) _ IH].
  - unfold text_lines_with, packet_lines. cbn.
    destruct start; [discriminate | reflexivity].
  - assert (Hall : Forall (fun l => CR_free l = true) (first :: conts)).
    { constructor; [exact Hfirst |].
      eapply Forall_impl; [exact Hconts |].
      intros l. apply base64_text_CR_free. }
    unfold text_lines_with, packet_lines, builder_string in *.
    rewrite concat_empty_cons, (Split_CRLF_terminated _ _ Hall).
    cbn [app]. cbn [List.filter]. rewrite List.filter_app.
    rewrite (filter_base64 start conts Hstart Hconts). cbn [app].
    rewrite IH. unfold lines_with. cbn [List.filter].
    rewrite concat_terminated_cons.
    rewrite (HasPrefix_first_line first _ start Hfree).
    destruct (HasPrefix first start); [| reflexivity].
    cbn [map]. now rewrite (first_line_line first _ Hfirst).
Qed.

(** The first line of the text of a packet. *)
Lemma packet_lines_head (body : string) (writes : list string) :
  CR_free body = true ->
  head (packet_lines ((body +:+ CRLF) :: writes)) = Some body.
Proof.
  intros H. now rewrite packet_lines_cons, (Split_CRLF_CR_free body H).
Qed.

(** ** The write that carries an icon reference *)

Lemma toDataURL_payload (r : Resource) :
  toDataURL r
  = "data:" +:+ MimeType r +:+ ";base64,"
    +:+ String.concat CRLF (lines76 (EncodeToString (Data r))).
Proof.
  unfold toDataURL. cbv zeta.
  pose proof (toDataURL_loop_lines (EncodeToString (Data r))
                (String.length (EncodeToString (Data r))) 0 EmptyString) as H.
  rewrite Nat.mul_0_r, Nat.sub_0_r in H. rewrite H; [reflexivity |].
  pose proof (Nat.div_mod_eq (String.length (EncodeToString (Data r)) + 75)
                76).
  pose proof (Nat.mod_upper_bound
                (String.length (EncodeToString (Data r)) + 75) 76).
  lia.
Qed.

Lemma concat_CRLF_terminated (l : string) (ls : list string) :
  String.concat CRLF (l :: ls) +:+ CRLF
  = String.concat EmptyString (map (fun l => l +:+ CRLF) (l :: ls)).
Proof.
  revert l; induction ls as [|l' ls IH]; intros l.
  - reflexivity.
  - rewrite concat_CRLF_cons, concat_terminated_cons, <- IH.
    now rewrite !append_assoc.
Qed.

Lemma tidy_data_URL (key : string) (r : Resource) :
  CR_free key = true -> CR_free (MimeType r) = true ->
  tidy (key +:+ toDataURL r +:+ CRLF).
Proof.
  intros Hkey Hmime. rewrite toDataURL_payload.
  pose proof (lines76_base64 _ (EncodeToString_base64 (Data r))) as Hlines.
  destruct (lines76 (EncodeToString (Data r))) as [|l ls].
  - cbn [String.concat]. rewrite append_nil_r.
    replace (key +:+ ("data:" +:+ MimeType r +:+ ";base64,") +:+ CRLF)
      with ((key +:+ "data:" +:+ MimeType r +:+ ";base64,") +:+ CRLF)
      by now rewrite !append_assoc.
    apply tidy_line. rewrite !CR_free_append, Hkey, Hmime. reflexivity.
  - apply Forall_cons_1 in Hlines as [Hl Hls].
    exists (key +:+ "data:" +:+ MimeType r +:+ ";base64," +:+ l), ls.
    split; [| split; [| exact Hls]].
    + rewrite concat_terminated_cons.
      destruct ls as [|l' ls'].
      * cbn [map String.concat]. now rewrite !append_assoc, ?append_nil_r.
      * rewrite concat_CRLF_cons, <- concat_CRLF_terminated.
        now rewrite !append_assoc.
    + rewrite !CR_free_append, Hkey, Hmime, (base64_text_CR_free l Hl).
      reflexivity.
Qed.

Lemma tidy_reference (key : string) (r : Resource) (mode : IconMode) :
  CR_free key = true -> clean_resource r = true ->
  tidy (key +:+ getReference r mode +:+ CRLF).
Proof.
  intros Hkey Hr. unfold clean_resource in Hr.
  apply andb_true_iff in Hr as [Hr Hpath].
  apply andb_true_iff in Hr as [Hid Hmime].
  assert (Hline : forall ref, CR_free ref = true ->
                              tidy (key +:+ ref +:+ CRLF)).
  { intros ref Href. rewrite <- append_assoc. apply tidy_line.
    now rewrite CR_free_append, Hkey, Href. }
  unfold getReference.
  destruct (mode =? IconModeBinary)%Z.
  { apply Hline. now rewrite CR_free_append, Hid. }
  destruct (mode =? IconModeFileURL)%Z.
  { destruct (negb (String.eqb (SourcePath r) EmptyString));
      [| now apply tidy_data_URL].
    cbv zeta. apply Hline.
    now rewrite CR_free_append, CR_free_ReplaceAll1. }
  destruct (mode =? IconModeHttpURL)%Z.
  { destruct (negb (String.eqb (SourcePath r) EmptyString));
      [now apply Hline | now apply tidy_data_URL]. }
  now apply tidy_data_URL.
Qed.

(** ** The writes of the two packets are whole lines *)

Lemma tidy_header (key value : string) :
  CR_free key = true -> CR_free value = true ->
  tidy (key +:+ value +:+ CRLF).
Proof.
  intros Hkey Hvalue. rewrite <- append_assoc. apply tidy_line.
  now rewrite CR_free_append, Hkey, Hvalue.
Qed.

Lemma clean_resource_Identifier (r : Resource) :
  clean_resource r = true -> CR_free (Identifier r) = true.
Proof.
  unfold clean_resource. intros H.
  apply andb_true_iff in H as [H _]. now apply andb_true_iff in H as [H _].
Qed.

Lemma tidy_resource_headers (r : Resource) :
  CR_free (Identifier r) = true -> Forall tidy (resource_headers r).
Proof.
  intros Hid. unfold resource_headers. repeat constructor.
  - now apply tidy_header.
  - apply tidy_header; [reflexivity | apply CR_free_fmt_d].
  - apply tidy_blank.
Qed.

Lemma tidy_Notify_packet (c : Client) (notificationName title text : string)
    (options : NotifyOptions) (notificationID : string) :
  CR_free (ApplicationName c) = true ->
  CR_free notificationName = true -> CR_free notificationID = true ->
  CR_free title = true -> CR_free text = true ->
  clean_options options = true ->
  Forall tidy
    (fst (Notify_packet c notificationName title text options
            notificationID)).
Proof.
  intros Happ Hname Hid Htitle Htext Hoptions.
  unfold clean_options in Hoptions.
  apply andb_true_iff in Hoptions as [Hoptions Hicon].
  apply andb_true_iff in Hoptions as [Hcontext Htarget].
  rewrite Notify_packet_writes.
  repeat first
    [ apply Forall_app_2
    | apply Forall_cons_2
    | apply Forall_nil_2
    | apply (tidy_line "GNTP/1.0 NOTIFY NONE"); reflexivity
    | apply tidy_blank
    | apply tidy_header; [reflexivity | assumption] ].
  - destruct (Sticky options); repeat constructor.
    apply (tidy_line "Notification-Sticky: True"). reflexivity.
  - destruct (Priority options =? 0)%Z; repeat constructor.
    apply tidy_header; [reflexivity | apply CR_free_fmt_d].
  - destruct (OptIcon options) as [icon|]; repeat constructor.
    now apply tidy_reference.
  - destruct (String.eqb (callbackURL c) EmptyString); [constructor |].
    apply Forall_app_2.
    + repeat constructor.
      * now apply tidy_header.
      * apply (tidy_line "Notification-Callback-Context-Type: string").
        reflexivity.
    + destruct (String.eqb (CallbackTarget options) EmptyString);
        repeat constructor.
      now apply tidy_header.
  - destruct (OptIcon options) as [icon|]; [| constructor].
    destruct (ClientIconMode c =? IconModeBinary)%Z; [| constructor].
    now apply tidy_resource_headers, clean_resource_Identifier.
Qed.

(** What [Register] lists in Binary mode: distinct identifiers, those
    referred to. *)
Lemma Register_resources_inv (c : Client)
    (notifications : list NotificationType) :
  ClientIconMode c = IconModeBinary ->
  List.NoDup (map Identifier (snd (Register_packet c notifications)))
  /\ forall id,
       In id (map Identifier (snd (Register_packet c notifications)))
       <-> In id (referenced_ids c notifications).
Proof.
  intros Hmode.
  pose proof (register_notifications_inv c _ _ notifications Hmode
                (register_preamble_inv c (length notifications) Hmode))
    as [Hnd _ _ Hrefs].
  fold (referenced_ids c notifications) in Hrefs.
  unfold Register_packet. cbv zeta. cbn [snd].
  split; [now apply NoDup_ListNoDup | exact Hrefs].
Qed.

Lemma referenced_ids_clean (c : Client)
    (notifications : list NotificationType) :
  clean_client c = true -> forallb clean_type notifications = true ->
  forall id, In id (referenced_ids c notifications) -> CR_free id = true.
Proof.
  intros Hc Hns id. unfold referenced_ids. rewrite in_app_iff.
  intros [Hin | Hin].
  - unfold clean_client in Hc. apply andb_true_iff in Hc as [_ Hicon].
    destruct (ApplicationIcon c) as [icon|]; [| destruct Hin].
    destruct Hin as [<- | []]. now apply clean_resource_Identifier.
  - induction notifications as [|notif notifications IH]; [destruct Hin |].
    cbn [forallb] in Hns. apply andb_true_iff in Hns as [Hnotif Hns].
    cbn [omap list_omap] in Hin.
    unfold clean_type in Hnotif. apply andb_true_iff in Hnotif as [_ Hicon].
    destruct (Icon notif) as [icon|]; cbn in Hin; [| now apply IH].
    destruct Hin as [<- | Hin]; [| now apply IH].
    now apply clean_resource_Identifier.
Qed.

Lemma tidy_notification_lines (c : Client) (notif : NotificationType) :
  clean_type notif = true -> Forall tidy (notification_lines c notif).
Proof.
  unfold clean_type. intros H.
  apply andb_true_iff in H as [H Hicon].
  apply andb_true_iff in H as [Hname Hdisplay].
  unfold notification_lines.
  repeat first
    [ apply Forall_app_2
    | apply Forall_cons_2
    | apply Forall_nil_2
    | apply tidy_blank
    | apply tidy_header; [reflexivity | assumption] ].
  - destruct (String.eqb (DisplayName notif) EmptyString);
      repeat constructor.
    now apply tidy_header.
  - destruct (Enabled notif);
      [apply (tidy_line "Notification-Enabled: True")
      | apply (tidy_line "Notification-Enabled: False")]; reflexivity.
  - destruct (Icon notif) as [icon|]; repeat constructor.
    now apply tidy_reference.
Qed.

Lemma tidy_Register_packet (c : Client)
    (notifications : list NotificationType) :
  clean_client c = true -> forallb clean_type notifications = true ->
  Forall tidy (fst (Register_packet c notifications)).
Proof.
  intros Hc Hns. rewrite Register_packet_writes.
  pose proof (referenced_ids_clean c notifications Hc Hns) as Hids.
  unfold clean_client in Hc.
  apply andb_true_iff in Hc as [Hc Hicon].
  apply andb_true_iff in Hc as [Happ Hurl].
  apply Forall_app_2; [| apply Forall_app_2].
  - unfold preamble_lines.
    repeat first
      [ apply Forall_app_2
      | apply Forall_cons_2
      | apply Forall_nil_2
      | apply (tidy_line "GNTP/1.0 REGISTER NONE"); reflexivity
      | apply tidy_blank
      | apply tidy_header; [reflexivity | assumption] ].
    + destruct (ApplicationIcon c) as [icon|]; repeat constructor.
      now apply tidy_reference.
    + destruct (String.eqb (callbackURL c) EmptyString); repeat constructor.
      now apply tidy_header.
    + apply tidy_header; [reflexivity | apply CR_free_fmt_d].
  - clear Hids. induction notifications as [|notif notifications IH];
      [constructor |].
    cbn [forallb] in Hns. apply andb_true_iff in Hns as [Hnotif Hns].
    cbn [flat_map]. apply Forall_app_2; [| now apply IH].
    now apply tidy_notification_lines.
  - unfold binary_section.
    destruct (Z.eqb_spec (ClientIconMode c) IconModeBinary) as [Hmode | _];
      [| constructor].
    destruct (Register_resources_inv c notifications Hmode) as [_ Hrefs].
    assert (Hres : forall r,
              In r (snd (Register_packet c notifications)) ->
              CR_free (Identifier r) = true).
    { intros r Hin. apply Hids, Hrefs, in_map, Hin. }
    revert Hres. generalize (snd (Register_packet c notifications)) as rs.
    induction rs as [|r rs IH]; intros Hres; [constructor |].
    cbn [flat_map]. apply Forall_app_2.
    + apply tidy_resource_headers, Hres. now left.
    + apply IH. intros r' Hin. apply Hres. now right.
Qed.

(** * NOTIFY packets, line by line *)

Lemma Notify_writes_sticky (c : Client)
    (notificationName title text : string) (options : NotifyOptions)
    (notificationID : string) :
  lines_with "Notification-Sticky"
    (fst (Notify_packet c notificationName title text options
            notificationID))
  = if Sticky options then ["Notification-Sticky: True" +:+ CRLF] else [].
Proof.
  rewrite Notify_packet_writes.
  destruct (Sticky options), (Priority options =? 0)%Z,
    (OptIcon options) as [icon|],
    (ClientIconMode c =? IconModeBinary)%Z,
    (String.eqb (callbackURL c) EmptyString),
    (String.eqb (CallbackTarget options) EmptyString);
    reflexivity.
Qed.

Lemma Notify_writes_priority (c : Client)
    (notificationName title text : string) (options : NotifyOptions)
    (notificationID : string) :
  lines_with "Notification-Priority"
    (fst (Notify_packet c notificationName title text options
            notificationID))
  = if (Priority options =? 0)%Z then []
    else ["Notification-Priority: " +:+ fmt_d (Priority options) +:+ CRLF].
Proof.
  rewrite Notify_packet_writes.
  destruct (Sticky options), (Priority options =? 0)%Z,
    (OptIcon options) as [icon|],
    (ClientIconMode c =? IconModeBinary)%Z,
    (String.eqb (callbackURL c) EmptyString),
    (String.eqb (CallbackTarget options) EmptyString);
    reflexivity.
Qed.


(** C8, for texts without carriage return: when neither the application
    name, the notification name and identifier, the title, the text nor the
    options hold a carriage return, the text of the NOTIFY packet has a line
    that starts with [Notification-Sticky] exactly when the sticky flag is
    set, and it is the one line [Notification-Sticky: True]; it has a line
    that starts with [Notification-Priority] exactly when the priority is
    not zero, and it is the one line that carries the priority in decimal.
    With [Sticky = false] and [Priority = 0] no line of the text starts with
    either key. *)
Theorem Notify_packet_sticky_priority (c : Client)
    (notificationName title text : string) (options : NotifyOptions)
    (notificationID : string) :
  CR_free (ApplicationName c) = true ->
  CR_free notificationName = true -> CR_free notificationID = true ->
  CR_free title = true -> CR_free text = true ->
  clean_options options = true ->
  let writes :=
    fst (Notify_packet c notificationName title text options notificationID) in
  text_lines_with "Notification-Sticky" writes
  = (if Sticky options then ["Notification-Sticky: True"] else [])
  /\ text_lines_with "Notification-Priority" writes
     = (if (Priority options =? 0)%Z then []
        else ["Notification-Priority: " +:+ fmt_d (Priority options)]).
Proof.
  intros Happ Hname Hid Htitle Htext Hoptions. cbv zeta.
  pose proof (tidy_Notify_packet c notificationName title text options
                notificationID Happ Hname Hid Htitle Htext Hoptions)
    as Htidy.
  rewrite !text_lines_with_tidy by (reflexivity || exact Htidy).
  rewrite Notify_writes_sticky, Notify_writes_priority.
  split.
  - now destruct (Sticky options).
  - destruct (Priority options =? 0)%Z; [reflexivity |].
    cbn [map]. rewrite first_line_header; [reflexivity | reflexivity |].
    apply CR_free_fmt_d.
Qed.

(** C8 does not hold of every packet: a title that holds a line terminator
    followed by [Notification-Sticky: True] puts that line into the text of
    a notification that is not sticky. *)
Lemma Notify_packet_title_injects_sticky :
  Sticky NewNotifyOptions = false
  /\ text_lines_with "Notification-Sticky"
       (fst (Notify_packet (NewClient "Sample") "alert"
               ("Hello" +:+ CRLF +:+ "Notification-Sticky: True")
               "Test notification" NewNotifyOptions
               "d41d8cd98f00b204e9800998ecf8427e"))
     = ["Notification-Sticky: True"].
Proof.
  split.
  - reflexivity.
  - vm_compute. reflexivity.
Qed.


(** * REGISTER packets, line by line *)




Lemma Register_writes_count (c : Client)
    (notifications : list NotificationType) :
  lines_with "Notifications-Count: " (fst (Register_packet c notifications))
  = ["Notifications-Count: "
     +:+ fmt_d (Z.of_nat (length notifications)) +:+ CRLF].
Proof.
  rewrite Register_packet_writes.
  rewrite !lines_with_app, count_lines_notifications,
    lines_with_binary_section.
  unfold preamble_lines.
  destruct (ApplicationIcon c), (String.eqb (callbackURL c) EmptyString);
    reflexivity.
Qed.

Lemma Register_writes_names (c : Client)
    (notifications : list NotificationType) :
  lines_with "Notification-Name: " (fst (Register_packet c notifications))
  = map (fun notif => "Notification-Name: " +:+ Name notif +:+ CRLF)
      notifications.
Proof.
  rewrite Register_packet_writes.
  rewrite !lines_with_app, name_lines_notifications,
    lines_with_binary_section, app_nil_r.
  unfold preamble_lines.
  destruct (ApplicationIcon c), (String.eqb (callbackURL c) EmptyString);
    reflexivity.
Qed.

Lemma section_writes (mode : IconMode) (resources : list Resource) :
  (mode <> IconModeBinary -> resources = []) ->
  lines_with "Identifier: " (binary_section mode resources)
  = map (fun res => "Identifier: " +:+ Identifier res +:+ CRLF) resources
  /\ lines_with "Length: " (binary_section mode resources)
     = map (fun res =>
              "Length: " +:+ fmt_d (Z.of_nat (length (Data res))) +:+ CRLF)
         resources.
Proof.
  intros Hnone. unfold binary_section.
  destruct (Z.eqb_spec mode IconModeBinary) as [_ | Hmode].
  - split; [apply identifier_lines_headers | apply length_lines_headers].
  - rewrite (Hnone Hmode). split; reflexivity.
Qed.

Lemma Register_writes_resources (c : Client)
    (notifications : list NotificationType) :
  lines_with "Identifier: " (fst (Register_packet c notifications))
  = map (fun res => "Identifier: " +:+ Identifier res +:+ CRLF)
      (snd (Register_packet c notifications))
  /\ lines_with "Length: " (fst (Register_packet c notifications))
     = map (fun res =>
              "Length: " +:+ fmt_d (Z.of_nat (length (Data res))) +:+ CRLF)
         (snd (Register_packet c notifications)).
Proof.
  rewrite Register_packet_writes, !lines_with_app.
  rewrite !lines_with_preamble, !lines_with_notifications by auto.
  apply section_writes, Register_packet_no_resources.
Qed.

Lemma Notify_writes_resources (c : Client)
    (notificationName title text : string) (options : NotifyOptions)
    (notificationID : string) :
  let packet :=
    Notify_packet c notificationName title text options notificationID in
  lines_with "Identifier: " (fst packet)
  = map (fun res => "Identifier: " +:+ Identifier res +:+ CRLF) (snd packet)
  /\ lines_with "Length: " (fst packet)
     = map (fun res =>
              "Length: " +:+ fmt_d (Z.of_nat (length (Data res))) +:+ CRLF)
         (snd packet).
Proof.
  cbv zeta. rewrite !lines_with_Notify_headers by auto.
  apply section_writes, Notify_packet_no_resources.
Qed.

(** The first lines of the resource headers. *)
Lemma first_line_resources (resources : list Resource) :
  Forall (fun res => CR_free (Identifier res) = true) resources ->
  map first_line
    (map (fun res => "Identifier: " +:+ Identifier res +:+ CRLF) resources)
  = map (fun res => "Identifier: " +:+ Identifier res) resources
  /\ map first_line
       (map (fun res =>
               "Length: " +:+ fmt_d (Z.of_nat (length (Data res))) +:+ CRLF)
          resources)
     = map (fun res =>
              "Length: " +:+ fmt_d (Z.of_nat (length (Data res))))
         resources.
Proof.
  intros H; induction H as [|res resources Hid _ [IH1 IH2]];
    [split; reflexivity |].
  cbn [map]. rewrite IH1, IH2.
  rewrite !first_line_header;
    [split; reflexivity | reflexivity | apply CR_free_fmt_d | reflexivity
    | exact Hid].
Qed.

Lemma Register_resources_clean (c : Client)
    (notifications : list NotificationType) :
  clean_client c = true -> forallb clean_type notifications = true ->
  Forall (fun res => CR_free (Identifier res) = true)
    (snd (Register_packet c notifications)).
Proof.
  intros Hc Hns.
  destruct (Z.eq_dec (ClientIconMode c) IconModeBinary) as [Hmode | Hmode].
  - destruct (Register_resources_inv c notifications Hmode) as [_ Hrefs].
    apply Forall_forall. intros res Hin. apply list_elem_of_In in Hin.
    apply (referenced_ids_clean c notifications Hc Hns), Hrefs, in_map, Hin.
  - rewrite (Register_packet_no_resources c notifications Hmode).
    constructor.
Qed.

(** The request line, the count and the names in the text of a REGISTER
    packet. *)
Lemma Register_text_head (c : Client)
    (notifications : list NotificationType) :
  head (packet_lines (fst (Register_packet c notifications)))
  = Some "GNTP/1.0 REGISTER NONE".
Proof.
  rewrite Register_packet_writes. unfold preamble_lines. cbn [app].
  apply (packet_lines_head "GNTP/1.0 REGISTER NONE"). reflexivity.
Qed.

Lemma Register_text_count (c : Client)
    (notifications : list NotificationType) :
  clean_client c = true -> forallb clean_type notifications = true ->
  text_lines_with "Notifications-Count: "
    (fst (Register_packet c notifications))
  = ["Notifications-Count: " +:+ fmt_d (Z.of_nat (length notifications))].
Proof.
  intros Hc Hns.
  pose proof (tidy_Register_packet c notifications Hc Hns) as Htidy.
  rewrite text_lines_with_tidy by (reflexivity || exact Htidy).
  rewrite Register_writes_count. cbn [map].
  rewrite first_line_header; [reflexivity | reflexivity |].
  apply CR_free_fmt_d.
Qed.

Lemma Register_text_names (c : Client)
    (notifications : list NotificationType) :
  clean_client c = true -> forallb clean_type notifications = true ->
  text_lines_with "Notification-Name: "
    (fst (Register_packet c notifications))
  = map (fun notif => "Notification-Name: " +:+ Name notif) notifications.
Proof.
  intros Hc Hns.
  pose proof (tidy_Register_packet c notifications Hc Hns) as Htidy.
  rewrite text_lines_with_tidy by (reflexivity || exact Htidy).
  rewrite Register_writes_names. clear Htidy.
  induction notifications as [|notif notifications IH]; [reflexivity |].
  cbn [forallb] in Hns. apply andb_true_iff in Hns as [Hnotif Hns].
  cbn [map]. rewrite (IH Hns). f_equal.
  unfold clean_type in Hnotif.
  apply andb_true_iff in Hnotif as [Hnotif _].
  apply andb_true_iff in Hnotif as [Hname _].
  now apply first_line_header.
Qed.



(** X6: when neither the client's texts nor those of the notification types
    hold a carriage return, the text of the REGISTER packet starts with the
    request line, has exactly one line that starts with
    [Notifications-Count: ], whose value is the number of notification
    types, and its lines that start with [Notification-Name: ] are those of
    the notification types, one each, in the caller's order. *)
Theorem Register_packet_catalogue (c : Client)
    (notifications : list NotificationType) :
  clean_client c = true -> forallb clean_type notifications = true ->
  let writes := fst (Register_packet c notifications) in
  head (packet_lines writes) = Some "GNTP/1.0 REGISTER NONE"
  /\ text_lines_with "Notifications-Count: " writes
     = ["Notifications-Count: "
        +:+ fmt_d (Z.of_nat (length notifications))]
  /\ text_lines_with "Notification-Name: " writes
     = map (fun notif => "Notification-Name: " +:+ Name notif) notifications.
Proof.
  intros Hc Hns. cbv zeta. split; [| split].
  - apply Register_text_head.
  - now apply Register_text_count.
  - now apply Register_text_names.
Qed.

(** X18: when the texts they take hold no carriage return, the lines of the
    text of a REGISTER packet and of a NOTIFY packet that start with
    [Identifier: ] and with [Length: ] are, in order, those of the resources
    handed over for raw transmission, each [Length] being the number of
    bytes of its resource: the headers announce what is then written, and
    nothing else. *)
Theorem resource_headers_match_resources (c : Client)
    (notifications : list NotificationType)
    (notificationName title text : string) (options : NotifyOptions)
    (notificationID : string) :
  clean_client c = true -> forallb clean_type notifications = true ->
  CR_free notificationName = true -> CR_free notificationID = true ->
  CR_free title = true -> CR_free text = true ->
  clean_options options = true ->
  let announced (packet : list string * list Resource) :=
    text_lines_with "Identifier: " (fst packet)
    = map (fun res => "Identifier: " +:+ Identifier res) (snd packet)
    /\ text_lines_with "Length: " (fst packet)
       = map (fun res =>
                "Length: " +:+ fmt_d (Z.of_nat (length (Data res))))
           (snd packet) in
  announced (Register_packet c notifications)
  /\ announced
       (Notify_packet c notificationName title text options notificationID).
Proof.
  intros Hc Hns Hname Hid Htitle Htext Hoptions. cbv zeta.
  split.
  - pose proof (tidy_Register_packet c notifications Hc Hns) as Htidy.
    destruct (Register_writes_resources c notifications) as [H1 H2].
    destruct (first_line_resources _
                (Register_resources_clean c notifications Hc Hns))
      as [Hfirst1 Hfirst2].
    rewrite !text_lines_with_tidy by (reflexivity || exact Htidy).
    now rewrite H1, H2.
  - assert (Happ : CR_free (ApplicationName c) = true).
    { unfold clean_client in Hc. apply andb_true_iff in Hc as [Hc _].
      now apply andb_true_iff in Hc as [Happ _]. }
    pose proof (tidy_Notify_packet c notificationName title text options
                  notificationID Happ Hname Hid Htitle Htext Hoptions)
      as Htidy.
    destruct (Notify_writes_resources c notificationName title text options
                notificationID) as [H1 H2].
    assert (Hclean :
      Forall (fun res => CR_free (Identifier res) = true)
        (snd (Notify_packet c notificationName title text options
                notificationID))).
    { unfold clean_options in Hoptions.
      apply andb_true_iff in Hoptions as [_ Hicon].
      unfold Notify_packet.
      destruct (OptIcon options) as [icon|]; [| constructor].
      cbn [snd].
      destruct (ClientIconMode c =? IconModeBinary)%Z; [| constructor].
      repeat constructor. now apply clean_resource_Identifier. }
    destruct (first_line_resources _ Hclean) as [Hfirst1 Hfirst2].
    rewrite !text_lines_with_tidy by (reflexivity || exact Htidy).
    now rewrite H1, H2.
Qed.

(** * Starting the callback listener *)

(** X16: [WithCallback] stores the handler it is given, nil or not, before
    it starts the listener, so the handler is stored on both outcomes and
    nothing else of the configuration changes but the callback URL.  With a
    nil handler an inbound callback is acknowledged and no handler is
    called.  When the listener cannot be started the error is returned
    wrapped ([failed to start callback listener: ...]) and the callback URL
    stays as it was, so the REGISTER packet is the one built before the
    call.  When it is started the callback URL is
    [http://<local IP>:<port>], which is not empty, and the text of each
    REGISTER packet built from then on has exactly one line that starts with
    [Notification-Callback-Target: ], with this URL, provided the texts the
    packet takes hold no carriage return. *)
Theorem WithCallback_outcomes (c : Client) (handler : bool)
    (listen : net_error + Z) (addrs : net_error + list Addr) :
  let err := fst (WithCallback c handler listen addrs) in
  let c' := snd (WithCallback c handler listen addrs) in
  callbackHandler c' = handler
  /\ c' = set_callbackURL (set_handler c handler) (callbackURL c')
  /\ (handler = false ->
      forall conn data,
        in_read conn = inr data ->
        handleCallback c' conn = [CbWrite callback_ack; CbClose])
  /\ (forall e, listen = inl e ->
        err = Some (ErrCallbackListener e)
        /\ error_text (ErrCallbackListener e)
           = "failed to start callback listener: " +:+ net_error_text e
        /\ callbackURL c' = callbackURL c
        /\ forall notifications,
             Register_packet c' notifications
             = Register_packet c notifications)
  /\ (forall port, listen = inr port ->
        err = None
        /\ callbackURL c'
           = "http://" +:+ getLocalIP addrs +:+ ":" +:+ fmt_d port
        /\ callbackURL c' <> EmptyString
        /\ forall notifications,
             clean_client c' = true ->
             forallb clean_type notifications = true ->
             text_lines_with "Notification-Callback-Target: "
               (fst (Register_packet c' notifications))
             = ["Notification-Callback-Target: " +:+ callbackURL c']).
Proof.
  cbv zeta.
  assert (Hhandler :
    callbackHandler (snd (WithCallback c handler listen addrs)) = handler).
  { unfold WithCallback. now destruct listen. }
  split; [exact Hhandler |]. split; [| split; [| split]].
  - unfold WithCallback. destruct listen; destruct c; reflexivity.
  - intros Hnil conn data Hread. unfold handleCallback.
    rewrite Hread, Hhandler, Hnil. reflexivity.
  - intros e ->. cbn [WithCallback fst snd].
    split; [reflexivity |]. split; [reflexivity |].
    split; [reflexivity |].
    intros notifications. destruct c. reflexivity.
  - intros port ->. cbn [WithCallback fst snd].
    split; [reflexivity |]. split; [reflexivity |].
    split; [discriminate |].
    intros notifications.
    set (c' := set_callbackURL _ _).
    assert (Hne : String.eqb (callbackURL c') EmptyString = false)
      by reflexivity.
    intros Hc Hns.
    pose proof (tidy_Register_packet c' notifications Hc Hns) as Htidy.
    rewrite text_lines_with_tidy by (reflexivity || exact Htidy).
    rewrite target_lines_Register, Hne. cbn [map].
    unfold clean_client in Hc. apply andb_true_iff in Hc as [Hc _].
    apply andb_true_iff in Hc as [_ Hurl].
    now rewrite first_line_header.
Qed.

(** * Responses that are cut short *)

(** C4 does not hold of every response text: the error marker is looked for
    only when the response loop ends normally.  Two lines of an error
    response followed by a deadline that expires give the read error, not
    the protocol error, from both send functions. *)
Lemma error_marker_then_timeout :
  Contains
    (String.concat EmptyString (read_lines error_then_stalled_conn))
    "-ERROR"
  = true
  /\ fst (sendPacket (NewClient "Sample") "GNTP/1.0 NOTIFY NONE"
            error_then_stalled_world)
     = inl (ErrReadResponse (OtherError "i/o timeout"))
  /\ fst (sendPacketWithResources sample_binary_client
            "GNTP/1.0 NOTIFY NONE" [sample_icon] error_then_stalled_world)
     = inl (ErrReadResponse (OtherError "i/o timeout")).
Proof.
  split; [| split].
  - vm_compute. reflexivity.
  - vm_compute. reflexivity.
  - vm_compute. reflexivity.
Qed.

(** * Callback listener: the fields of the callback information *)

(** Two keys that part ways at some character are not both at the start of
    a line. *)
Lemma HasPrefix_diverge (common : string) (x y : ascii) (p q l : string) :
  Ascii.eqb x y = false ->
  HasPrefix l (common +:+ String x p) = true ->
  HasPrefix l (common +:+ String y q) = false.
Proof.
  intros Hxy. revert l; induction common as [|a common IH]; intros l.
  - rewrite !append_nil_l. destruct l as [|b l]; [discriminate |].
    cbn [HasPrefix]. intros H. apply andb_true_iff in H as [Hx _].
    apply Ascii.eqb_eq in Hx. subst b.
    rewrite Ascii.eqb_sym, Hxy. reflexivity.
  - rewrite !append_cons. destruct l as [|b l]; [discriminate |].
    cbn [HasPrefix]. intros H. apply andb_true_iff in H as [-> H].
    now rewrite (IH l H).
Qed.

Lemma header_value_snoc (prefix : string) (lines : list string)
    (line : string) :
  header_value prefix (lines ++ [line])
  = if HasPrefix line prefix then TrimPrefix line prefix
    else header_value prefix lines.
Proof.
  unfold header_value. rewrite List.filter_app, rev_app_distr.
  cbn [List.filter]. now destruct (HasPrefix line prefix).
Qed.

Lemma header_value_none (prefix : string) (lines : list string) :
  Forall (fun l => HasPrefix l prefix = false) lines ->
  header_value prefix lines = EmptyString.
Proof.
  intros H. unfold header_value.
  replace (List.filter (fun l => HasPrefix l prefix) lines) with (@nil string);
    [reflexivity |].
  induction H as [|l lines Hl _ IH]; [reflexivity |].
  cbn [List.filter]. now rewrite Hl.
Qed.

(** The loop over the lines leaves, in each field, the value of the last
    line that starts with the field's key. *)
Lemma fold_parse_line_values (lines : list string) (now : Z) :
  fold_left parse_line lines
    (mkCallbackInfo EmptyString EmptyString EmptyString EmptyString now)
  = mkCallbackInfo
      (header_value "Notification-Callback-Result: " lines)
      (header_value "Notification-ID: " lines)
      (header_value "Notification-Callback-Context: " lines)
      (header_value "Notification-Callback-Context-Type: " lines)
      now.
Proof.
  induction lines as [|line lines IH] using rev_ind; [reflexivity |].
  rewrite fold_left_app, IH, !header_value_snoc. cbn [fold_left].
  unfold parse_line.
  cbn [CbType NotificationID Context ContextType Timestamp].
  destruct (HasPrefix line "Notification-Callback-Result: ") eqn:E1.
  { assert (H2 : HasPrefix line "Notification-ID: " = false)
      by exact (HasPrefix_diverge "Notification-" "C" "I" "allback-Result: "
                  "D: " line eq_refl E1).
    assert (H3 : HasPrefix line "Notification-Callback-Context: " = false)
      by exact (HasPrefix_diverge "Notification-Callback-" "R" "C" "esult: "
                  "ontext: " line eq_refl E1).
    assert (H4 : HasPrefix line "Notification-Callback-Context-Type: "
                 = false)
      by exact (HasPrefix_diverge "Notification-Callback-" "R" "C" "esult: "
                  "ontext-Type: " line eq_refl E1).
    rewrite H2, H3, H4. unfold TrimPrefix. now rewrite E1. }
  destruct (HasPrefix line "Notification-ID: ") eqn:E2.
  { assert (H3 : HasPrefix line "Notification-Callback-Context: " = false)
      by exact (HasPrefix_diverge "Notification-" "I" "C" "D: "
                  "allback-Context: " line eq_refl E2).
    assert (H4 : HasPrefix line "Notification-Callback-Context-Type: "
                 = false)
      by exact (HasPrefix_diverge "Notification-" "I" "C" "D: "
                  "allback-Context-Type: " line eq_refl E2).
    rewrite H3, H4. unfold TrimPrefix. now rewrite E2. }
  destruct (HasPrefix line "Notification-Callback-Context: ") eqn:E3.
  { assert (H4 : HasPrefix line "Notification-Callback-Context-Type: "
                 = false)
      by exact (HasPrefix_diverge "Notification-Callback-Context" ":" "-"
                  " " "Type: " line eq_refl E3).
    rewrite H4. unfold TrimPrefix. now rewrite E3. }
  destruct (HasPrefix line "Notification-Callback-Context-Type: ") eqn:E4;
    [| reflexivity].
  unfold TrimPrefix. now rewrite E4.
Qed.

(** C5, as the code has it: a connection whose read fails is closed with
    nothing written and no handler call.  A connection whose read succeeds
    is acknowledged and, when a handler is registered, the handler is called
    once, whatever the bytes are.  Each field of the callback information it
    is called with holds the value of the last line that starts with the
    field's key, and is empty when no line starts with that key, whatever
    the other lines are.  Either way the accept loop goes on with the
    connections that follow. *)
Theorem handleCallback_outcomes (c : Client) (conn : InConn) :
  (forall e, in_read conn = inl e -> handleCallback c conn = [CbClose])
  /\ (forall data, in_read conn = inr data ->
      let lines := Split_CRLF (string_take 4096 data) in
      let info :=
        mkCallbackInfo
          (header_value "Notification-Callback-Result: " lines)
          (header_value "Notification-ID: " lines)
          (header_value "Notification-Callback-Context: " lines)
          (header_value "Notification-Callback-Context-Type: " lines)
          (in_now conn) in
      handleCallback c conn
      = CbWrite callback_ack
        :: (if callbackHandler c then [CbHandler info] else [])
        ++ [CbClose]
      /\ (Forall
            (fun l => HasPrefix l "Notification-Callback-Result: " = false)
            lines ->
          CbType info = EmptyString)
      /\ (Forall (fun l => HasPrefix l "Notification-ID: " = false) lines ->
          NotificationID info = EmptyString)
      /\ (Forall
            (fun l => HasPrefix l "Notification-Callback-Context: " = false)
            lines ->
          Context info = EmptyString)
      /\ (Forall
            (fun l =>
               HasPrefix l "Notification-Callback-Context-Type: " = false)
            lines ->
          ContextType info = EmptyString))
  /\ (forall before after,
        acceptCallbacks c (before ++ conn :: after)
        = acceptCallbacks c before
          ++ handleCallback c conn :: acceptCallbacks c after).
Proof.
  split; [| split].
  - intros e He. unfold handleCallback. now rewrite He.
  - intros data Hdata. cbv zeta.
    split; [| repeat split; intros H; cbn; now apply header_value_none].
    unfold handleCallback. rewrite Hdata. cbv zeta.
    now rewrite fold_parse_line_values.
  - intros before after. now rewrite acceptCallbacks_app.
Qed.

(** A message that carries one of the four headers: that field is set, the
    other three are left empty. *)
Example handleCallback_one_header :
  handleCallback listening_client
    (mkInConn (inr ("Notification-ID: abc" +:+ CRLF +:+ CRLF)) 1700000000%Z)
  = [ CbWrite callback_ack;
      CbHandler
        (mkCallbackInfo EmptyString "abc" EmptyString EmptyString
           1700000000%Z);
      CbClose ].
Proof. vm_compute. reflexivity. Qed.

(** * SendMessage on the network *)











(** ** Further instances on sample inputs *)

(** X3 on a daemon that sends the status line and then stalls: the read
    error is returned although the line received says [-OK]. *)
Lemma read_failure_discards_response_witness :
  fst (send (NewClient "Sample") ["GNTP/1.0 NOTIFY NONE" +:+ CRLF; CRLF] []
         stalled_world)
  = inl (ErrReadResponse (OtherError "i/o timeout"))
  /\ fst (Register (NewClient "Sample") sample_types stalled_world)
     = (Some (ErrReadResponse (OtherError "i/o timeout")), NewClient "Sample")
  /\ error_text (ErrReadResponse (OtherError "i/o timeout"))
     = "failed to read response: " +:+ "i/o timeout".
Proof.
  apply (read_failure_discards_response (NewClient "Sample")
           ["GNTP/1.0 NOTIFY NONE" +:+ CRLF; CRLF] [] sample_types
           stalled_world "i/o timeout").
  - reflexivity.
  - constructor.
  - repeat constructor.
  - reflexivity.
  - reflexivity.
Defined.

(** X4 on a registered client and a daemon that closes the connection at
    once. *)
Lemma silent_close_is_success_witness :
  fst (Register registered_client sample_types silent_world)
  = (None, set_registered registered_client)
  /\ fst (NotifyWithOptions sample_md5hex registered_client "alert" "Hello"
            "Test notification" NewNotifyOptions silent_world)
     = None.
Proof.
  assert (Hwrites : writes_succeed (network silent_world (dials silent_world)))
    by constructor.
  pose proof (silent_close_is_success sample_md5hex registered_client
                sample_types "alert" "Hello" "Test notification"
                NewNotifyOptions silent_world eq_refl Hwrites eq_refl eq_refl)
    as [Hregister Hnotify].
  split; [exact Hregister |].
  apply Hnotify. reflexivity.
Defined.

(** X5 on an [-OK] response followed by a line that is never read. *)
Lemma response_ends_at_first_blank_line_witness :
  finish_read
    (mkConn None []
       (["GNTP/1.0 -OK NONE" +:+ CRLF] ++ CRLF
        :: ["GNTP/1.0 -ERROR Invalid" +:+ CRLF])
       EOF)
    sample_world
  = finish_read
      (mkConn None [] (["GNTP/1.0 -OK NONE" +:+ CRLF] ++ [CRLF])
         (OtherError "i/o timeout"))
      sample_world
  /\ fst
       (finish_read
          (mkConn None []
             (["GNTP/1.0 -OK NONE" +:+ CRLF] ++ CRLF
              :: ["GNTP/1.0 -ERROR Invalid" +:+ CRLF])
             EOF)
          sample_world)
     = check_response
         (String.concat EmptyString (["GNTP/1.0 -OK NONE" +:+ CRLF] ++ [CRLF])).
Proof.
  apply (response_ends_at_first_blank_line ["GNTP/1.0 -OK NONE" +:+ CRLF]
           ["GNTP/1.0 -ERROR Invalid" +:+ CRLF] CRLF None [] EOF
           (OtherError "i/o timeout") sample_world).
  - repeat constructor.
  - reflexivity.
Defined.

(** X10 on a fresh client and a daemon that answers [-OK]: the second
    connection is dialled by the notification. *)
Lemma Register_then_Notify_witness :
  dials (snd (Register (NewClient "Sample") sample_types sample_world)) = 1
  /\ dials
       (snd
          (NotifyWithOptions sample_md5hex
             (snd (fst (Register (NewClient "Sample") sample_types
                          sample_world)))
             "info" "Hello" "Test notification" NewNotifyOptions
             (snd (Register (NewClient "Sample") sample_types sample_world))))
     = 2.
Proof.
  pose proof (Register_then_Notify sample_md5hex (NewClient "Sample")
                sample_types "info" "Hello" "Test notification"
                NewNotifyOptions sample_world eq_refl) as (Hdials & _ & Hok).
  split; [exact Hdials |].
  apply Hok. reflexivity.
Defined.

(** X14 on a click reported for notification [42]. *)
Lemma handleCallback_parses_headers_witness :
  handleCallback listening_client
    (mkInConn
       (inr
          (("Notification-Callback-Result: " +:+ "CLICK") +:+ CRLF
           +:+ ("Notification-ID: " +:+ "42") +:+ CRLF
           +:+ ("Notification-Callback-Context: " +:+ "user_data_123")
           +:+ CRLF
           +:+ ("Notification-Callback-Context-Type: " +:+ "string") +:+ CRLF
           +:+ CRLF))
       1700000000%Z)
  = CbWrite callback_ack
    :: (if callbackHandler listening_client
        then
          [CbHandler
             (mkCallbackInfo "CLICK" "42" "user_data_123" "string"
                1700000000%Z)]
        else [])
    ++ [CbClose].
Proof.
  apply (handleCallback_parses_headers listening_client "CLICK" "42"
           "user_data_123" "string" 1700000000%Z).
  - reflexivity.
  - reflexivity.
  - reflexivity.
  - reflexivity.
  - vm_compute. lia.
Defined.

(** X15 on a full buffer followed by a header that is never seen. *)
Lemma handleCallback_reads_4096_bytes_witness :
  handleCallback listening_client
    (mkInConn (inr (full_buffer +:+ ("Notification-ID: " +:+ "42") +:+ CRLF))
       1700000000%Z)
  = handleCallback listening_client
      (mkInConn (inr full_buffer) 1700000000%Z).
Proof.
  apply (handleCallback_reads_4096_bytes listening_client full_buffer
           (("Notification-ID: " +:+ "42") +:+ CRLF) 1700000000%Z).
  vm_compute. reflexivity.
Defined.

(** X19 on a fresh client: a message with its callback URL and the same
    message without one are sent alike. *)
Lemma SendMessage_callback_needs_listener_witness :
  SendMessage sample_md5hex same_string same_string (NewClient "Sample")
    (mkMessage (Event sample_message) (Title sample_message)
       (Text sample_message) (MsgIcon sample_message) EmptyString
       (MsgDisplayName sample_message) (MsgSticky sample_message)
       (MsgPriority sample_message))
    sample_world
  = SendMessage sample_md5hex same_string same_string (NewClient "Sample")
      sample_message sample_world.
Proof.
  apply (SendMessage_callback_needs_listener sample_md5hex same_string
           same_string (NewClient "Sample") sample_message EmptyString
           sample_world).
  reflexivity.
Defined.

(** X20 on a connection that breaks at the third write, with one resource:
    the packet and the resource data went through, the line terminator after
    the resource did not. *)
Lemma write_failure_is_located_witness :
  fst (sendPacketWithResources sample_binary_client
         (builder_string ["GNTP/1.0 NOTIFY NONE" +:+ CRLF; CRLF])
         [sample_icon] broken_world)
  = inl (ErrSendResourceCRLF (OtherError "broken pipe"))
  /\ length
       (written
          (new_events broken_world
             (snd (sendPacketWithResources sample_binary_client
                     (builder_string ["GNTP/1.0 NOTIFY NONE" +:+ CRLF; CRLF])
                     [sample_icon] broken_world))))
     = 2
  /\ Forall (fun ev => is_read ev = false)
       (new_events broken_world
          (snd (sendPacketWithResources sample_binary_client
                  (builder_string ["GNTP/1.0 NOTIFY NONE" +:+ CRLF; CRLF])
                  [sample_icon] broken_world))).
Proof.
  apply (write_failure_is_located sample_binary_client
           (builder_string ["GNTP/1.0 NOTIFY NONE" +:+ CRLF; CRLF])
           [sample_icon] broken_world 2 (OtherError "broken pipe")).
  - reflexivity.
  - intros [|[|j]] Hj; [reflexivity | reflexivity | lia].
  - reflexivity.
  - cbn. lia.
Defined.

(** X21 on a registered client and a daemon that rejects every request: the
    registration fails, the client stays registered. *)
Lemma registered_is_never_cleared_witness :
  fst (fst (Register registered_client sample_types error_world)) <> None
  /\ registered (snd (fst (Register registered_client sample_types
                             error_world)))
     = true.
Proof.
  split; [discriminate |].
  apply (registered_is_never_cleared sample_md5hex same_string same_string
           registered_client sample_types sample_message true
           (inl (OtherError "listen tcp :0: permission denied")) (inl EOF)
           "info" "Hello" "Test notification" NewNotifyOptions error_world
           error_world).
  reflexivity.
Defined.

(** ** Instances of the line-by-line properties *)



(** C8 on a sticky notification of priority 2. *)
Lemma Notify_packet_sticky_priority_witness :
  text_lines_with "Notification-Sticky"
    (fst (Notify_packet listening_client "alert" "Hello" "Test notification"
            callback_options "d41d8cd98f00b204e9800998ecf8427e"))
  = ["Notification-Sticky: True"]
  /\ text_lines_with "Notification-Priority"
       (fst (Notify_packet listening_client "alert" "Hello"
               "Test notification" callback_options
               "d41d8cd98f00b204e9800998ecf8427e"))
     = ["Notification-Priority: 2"].
Proof.
  apply (Notify_packet_sticky_priority listening_client "alert" "Hello"
           "Test notification" callback_options
           "d41d8cd98f00b204e9800998ecf8427e");
    reflexivity.
Defined.


(** X6 on three notification types. *)
Lemma Register_packet_catalogue_witness :
  head (packet_lines (fst (Register_packet sample_icon_client sample_types)))
  = Some "GNTP/1.0 REGISTER NONE"
  /\ text_lines_with "Notifications-Count: "
       (fst (Register_packet sample_icon_client sample_types))
     = ["Notifications-Count: 3"]
  /\ text_lines_with "Notification-Name: "
       (fst (Register_packet sample_icon_client sample_types))
     = [ "Notification-Name: info"; "Notification-Name: warning";
         "Notification-Name: error" ].
Proof.
  apply (Register_packet_catalogue sample_icon_client sample_types);
    reflexivity.
Defined.


(** X18 on a Binary-mode client: the NOTIFY packet with an icon announces
    that icon, with its four bytes. *)
Lemma resource_headers_match_resources_witness :
  text_lines_with "Identifier: "
    (fst (Notify_packet sample_icon_client "alert" "Hello"
            "Test notification" callback_options
            "d41d8cd98f00b204e9800998ecf8427e"))
  = ["Identifier: icon-1"]
  /\ text_lines_with "Length: "
       (fst (Notify_packet sample_icon_client "alert" "Hello"
               "Test notification" callback_options
               "d41d8cd98f00b204e9800998ecf8427e"))
     = ["Length: 4"].
Proof.
  apply (resource_headers_match_resources sample_icon_client sample_types
           "alert" "Hello" "Test notification" callback_options
           "d41d8cd98f00b204e9800998ecf8427e");
    reflexivity.
Defined.
